(** * Approval workflow of the expense reimbursement system

    A shallow embedding of the approval workflow engine:

    - [getApprovalPercentage] and [checkApprovalCriteria], the two methods of
      the Expense model (models/Expense.js);
    - [convertCurrency] of utils/currency.js, and [setupApprovalFlow] with
      the create / update handlers of the expense routes (the router that
      follows utils/currency.js in the source file; line numbers below are
      those of that file);
    - the approve / reject handlers of routes/approvals.js.

    Conventions of the embedding.

    - A JavaScript [Number] is a double: a rational ([Q]) with at most 53
      significant bits.  Division and multiplication give the exact result
      rounded to the nearest double, ties to even ([Double.div],
      [Double.mul]); a number written in a request or a response is read as
      the nearest double ([Double.round]); [a >= b] is [Qle_bool b a].  The
      exponent is not bounded: magnitudes beyond 1.8e308 or below 2.3e-308,
      where doubles overflow to [Infinity] or lose bits, are outside the
      embedding, and so is [NaN].  Step orders are the naturals 1, 2, 3 the
      builder hands out.  A [Date] is a timestamp in milliseconds.
    - A string is the sequence of the bytes of its UTF-8 encoding.
    - A Mongo ObjectId is a natural number; the source compares ids through
      [toString()], which is equality of ids.
    - A handler is modelled from the point where the [auth] / [authorize]
      middleware has let the request through.  It receives the documents its
      queries return ([findById] gives an [option]) and yields a [Result]:
      [Saved e] when it reached [expense.save()] with document [e], and
      [Failed f] when it answered with an error before saving.
    - An exception inside the [try] block lands in the handler's [catch],
      which answers 500: [Failed ServerError].
    - Approvers of a chain are kept in populated form (the user document),
      the way the approve handler loads them with
      [populate('approvalFlow.approver', 'role')].
    - The [receipt], [ocrData], [createdAt] and [updatedAt] paths of the
      schema are storage bookkeeping that no function below reads; they are
      not part of the record. *)

From Stdlib Require Import List Sorted String Ascii Bool Arith ZArith QArith.
From Stdlib Require Import Qpower Qround Lia Lqa.
Import ListNotations.
Local Open Scope string_scope.
Local Open Scope nat_scope.

Set Implicit Arguments.

(** ** Data model *)

Definition ObjectId := nat.
Definition Date := Z.

Module User.
Record t := mk {
    _id : ObjectId;
    role : string;
    company : ObjectId;
    manager : option ObjectId;
    isManagerApprover : bool
  }.
End User.

(** One element of [approvalFlow]. *)
Module Flow.
Inductive status_t := pending | approved | rejected | skipped.

Record t := mk {
    approver : User.t;
    order : nat;
    status : status_t;
    comments : option string;
    timestamp : option Date
  }.

Definition status_eqb (a b : status_t) : bool :=
    match a, b with
    | pending, pending | approved, approved
    | rejected, rejected | skipped, skipped => true
    | _, _ => false
    end.
End Flow.

(** One element of [approvalHistory]. *)
Module History.
Inductive action_t := approved | rejected.

Record t := mk {
    approver : ObjectId;
    action : action_t;
    comments : string;
    timestamp : Date
  }.
End History.

Module PercentageRule.
Record t := mk { enabled : bool; percentage : Q }.
End PercentageRule.

Module SpecificApproverRule.
Record t := mk { enabled : bool; approverRole : string }.
End SpecificApproverRule.

Module HybridRule.
Record t := mk { enabled : bool; percentage : Q; specificRole : string }.
End HybridRule.

Module ApprovalRules.
Record t := mk {
    percentageRule : PercentageRule.t;
    specificApproverRule : SpecificApproverRule.t;
    hybridRule : HybridRule.t
  }.
End ApprovalRules.

Module Thresholds.
Record t := mk {
    managerApproval : Q;
    financeApproval : Q;
    directorApproval : Q
  }.
End Thresholds.

Module Settings.
Record t := mk {
    approvalRules : ApprovalRules.t;
    thresholds : Thresholds.t
  }.
End Settings.

Module Company.
Record t := mk {
    _id : ObjectId;
    currency : string;
    settings : Settings.t
  }.
End Company.

Module Expense.
Inductive status_t := pending | approved | rejected | partially_approved.

Record t := mk {
    employee : ObjectId;
    company : ObjectId;
    amount : Q;
    originalCurrency : string;
    convertedAmount : Q;
    companyCurrency : string;
    category : string;
    description : string;
    expenseDate : Date;
    status : status_t;
    currentApprover : option ObjectId;
    approvalHistory : list History.t;
    approvalFlow : list Flow.t
  }.

Definition status_eqb (a b : status_t) : bool :=
    match a, b with
    | pending, pending | approved, approved
    | rejected, rejected | partially_approved, partially_approved => true
    | _, _ => false
    end.

(** Field assignments, [expense.f = v]. *)
Definition set_status (v : status_t) (e : t) : t :=
    mk (employee e) (company e) (amount e) (originalCurrency e)
       (convertedAmount e) (companyCurrency e) (category e) (description e)
       (expenseDate e) v (currentApprover e) (approvalHistory e)
       (approvalFlow e).

Definition set_currentApprover (v : option ObjectId) (e : t) : t :=
    mk (employee e) (company e) (amount e) (originalCurrency e)
       (convertedAmount e) (companyCurrency e) (category e) (description e)
       (expenseDate e) (status e) v (approvalHistory e) (approvalFlow e).

Definition set_approvalHistory (v : list History.t) (e : t) : t :=
    mk (employee e) (company e) (amount e) (originalCurrency e)
       (convertedAmount e) (companyCurrency e) (category e) (description e)
       (expenseDate e) (status e) (currentApprover e) v (approvalFlow e).

Definition set_approvalFlow (v : list Flow.t) (e : t) : t :=
    mk (employee e) (company e) (amount e) (originalCurrency e)
       (convertedAmount e) (companyCurrency e) (category e) (description e)
       (expenseDate e) (status e) (currentApprover e) (approvalHistory e) v.

Definition set_amount (v : Q) (e : t) : t :=
    mk (employee e) (company e) v (originalCurrency e)
       (convertedAmount e) (companyCurrency e) (category e) (description e)
       (expenseDate e) (status e) (currentApprover e) (approvalHistory e)
       (approvalFlow e).

Definition set_convertedAmount (v : Q) (e : t) : t :=
    mk (employee e) (company e) (amount e) (originalCurrency e)
       v (companyCurrency e) (category e) (description e)
       (expenseDate e) (status e) (currentApprover e) (approvalHistory e)
       (approvalFlow e).

Definition set_category (v : string) (e : t) : t :=
    mk (employee e) (company e) (amount e) (originalCurrency e)
       (convertedAmount e) (companyCurrency e) v (description e)
       (expenseDate e) (status e) (currentApprover e) (approvalHistory e)
       (approvalFlow e).

Definition set_description (v : string) (e : t) : t :=
    mk (employee e) (company e) (amount e) (originalCurrency e)
       (convertedAmount e) (companyCurrency e) (category e) v
       (expenseDate e) (status e) (currentApprover e) (approvalHistory e)
       (approvalFlow e).

Definition set_expenseDate (v : Date) (e : t) : t :=
    mk (employee e) (company e) (amount e) (originalCurrency e)
       (convertedAmount e) (companyCurrency e) (category e) (description e)
       v (status e) (currentApprover e) (approvalHistory e)
       (approvalFlow e).
End Expense.

(** ** Responses *)

(** The error answers of the handlers, named after what they send. *)
Inductive Failure :=
| ValidationFailed   (* 400 { errors: errors.array() } *)
| NotFound           (* 404 'Expense not found' / 'Company not found' *)
| NotAuthorized      (* 403 'You are not authorized to ...' / 'Access denied' *)
| NoPendingApproval  (* 400 'No pending approval found for current user' *)
| NotPending         (* 400 'Cannot update approved or rejected expense' *)
| ServerError.       (* 500 'Server error', sent by the catch block *)

Definition httpStatus (f : Failure) : nat :=
  match f with
  | ValidationFailed | NoPendingApproval | NotPending => 400
  | NotAuthorized => 403
  | NotFound => 404
  | ServerError => 500
  end.

Inductive Result :=
| Saved (e : Expense.t)
| Failed (f : Failure).

(** The document in the collection after a request on stored document
    [before]: only [save()] writes. *)
Definition stored (before : Expense.t) (r : Result) : Expense.t :=
  match r with
  | Saved e => e
  | Failed _ => before
  end.

(** ** JavaScript helpers *)

(** [comments || ''] for an optional string. *)
Definition orEmpty (s : option string) : string :=
  match s with
  | Some v => v
  | None => ""
  end.

(** The characters [String.prototype.trim] removes are the WhiteSpace and
    LineTerminator code points of the language.  Those of one byte: TAB,
    LF, VT, FF, CR and SP. *)
Definition isWhiteSpace (c : ascii) : bool :=
  match nat_of_ascii c with
  | 9 | 10 | 11 | 12 | 13 | 32 => true
  | _ => false
  end.

(** Of two bytes: U+00A0 (C2 A0). *)
Definition isWhiteSpace2 (a b : ascii) : bool :=
  (nat_of_ascii a =? 194) && (nat_of_ascii b =? 160).

(** Of three bytes: U+1680 (E1 9A 80), U+2000 to U+200A (E2 80 80 to
    E2 80 8A), U+2028, U+2029 and U+202F (E2 80 A8, A9, AF), U+205F
    (E2 81 9F), U+3000 (E3 80 80) and U+FEFF (EF BB BF). *)
Definition isWhiteSpace3 (a b c : ascii) : bool :=
  let a := nat_of_ascii a in
  let b := nat_of_ascii b in
  let c := nat_of_ascii c in
  (a =? 225) && (b =? 154) && (c =? 128)
  || (a =? 226) && (b =? 128)
     && ((128 <=? c) && (c <=? 138) || (c =? 168) || (c =? 169) || (c =? 175))
  || (a =? 226) && (b =? 129) && (c =? 159)
  || (a =? 227) && (b =? 128) && (c =? 128)
  || (a =? 239) && (b =? 187) && (c =? 191).

(** Drops the leading characters recognised by [isWhiteSpace], [two] and
    [three]. *)
Fixpoint strip (two : ascii -> ascii -> bool)
  (three : ascii -> ascii -> ascii -> bool) (s : string) : string :=
  match s with
  | EmptyString => EmptyString
  | String a rest =>
    if isWhiteSpace a then strip two three rest
    else
      match rest with
      | EmptyString => s
      | String b rest2 =>
        if two a b then strip two three rest2
        else
          match rest2 with
          | EmptyString => s
          | String c rest3 =>
            if three a b c then strip two three rest3 else s
          end
      end
  end.

Definition trimStart (s : string) : string :=
  strip isWhiteSpace2 isWhiteSpace3 s.

Definition reverse (s : string) : string :=
  string_of_list_ascii (rev (list_ascii_of_string s)).

(** On the reversed string the bytes of a character come last first. *)
Definition trimEnd (s : string) : string :=
  reverse (strip (fun b a => isWhiteSpace2 a b)
                 (fun c b a => isWhiteSpace3 a b c) (reverse s)).

(** [String.prototype.trim], which Mongoose applies to paths declared with
    [trim: true] ([description], [approvalHistory.comments]). *)
Definition trim (s : string) : string :=
  trimEnd (trimStart s).

(** ** Numbers *)

Module Double.
(** 2^e *)
Definition pow2 (e : Z) : Q := (2 ^ e)%Q.

(** The exponent of a positive number: 2^(ilog2 q) <= q < 2^(ilog2 q + 1). *)
Definition ilog2 (q : Q) : Z :=
  let l := (Z.log2 (Qnum q) - Z.log2 (Zpos (Qden q)))%Z in
  if Qle_bool (pow2 l) q then l else (l - 1)%Z.

(** The nearest integer, the even one of two that are equally near. *)
Definition rne (q : Q) : Z :=
  let f := Qfloor q in
  match (q - inject_Z f ?= 1 # 2)%Q with
  | Lt => f
  | Gt => (f + 1)%Z
  | Eq => if Z.even f then f else (f + 1)%Z
  end.

(** A positive number scaled to a significand between 2^52 and 2^53, which
    is rounded to an integer. *)
Definition roundPos (q : Q) : Q :=
  let e := (ilog2 q - 52)%Z in
  (inject_Z (rne (q / pow2 e)) * pow2 e)%Q.

(** The double nearest to [q], in lowest terms. *)
Definition round (q : Q) : Q :=
  Qred match Qnum q with
       | Z0 => 0%Q
       | Zpos _ => roundPos q
       | Zneg _ => (- roundPos (- q))%Q
       end.

(** [a / b] and [a * b] on doubles. *)
Definition div (a b : Q) : Q := round (a / b).
Definition mul (a b : Q) : Q := round (a * b).
End Double.

(** The array element the callback of [find] selected is mutated in place:
    the first element satisfying [p] is replaced by its image under [f]. *)
Fixpoint updateFirst {A : Type} (p : A -> bool) (f : A -> A) (l : list A)
  : list A :=
  match l with
  | [] => []
  | x :: rest => if p x then f x :: rest else x :: updateFirst p f rest
  end.

(** ** Expense methods (models/Expense.js) *)

Definition isApproved (flow : Flow.t) : bool :=
  Flow.status_eqb (Flow.status flow) Flow.approved.

Definition isPending (flow : Flow.t) : bool :=
  Flow.status_eqb (Flow.status flow) Flow.pending.

Definition ofNat (n : nat) : Q := inject_Z (Z.of_nat n).

Definition getApprovalPercentage (this : Expense.t) : Q :=
  let totalApprovers := List.length (Expense.approvalFlow this) in
  let approvedCount :=
    List.length (filter isApproved (Expense.approvalFlow this)) in
  if 0 <? totalApprovers
  then Double.mul (Double.div (ofNat approvedCount) (ofNat totalApprovers))
         100
  else 0.

(** [flow.approver.role === role && flow.status === 'approved'] *)
Definition approvedByRole (role : string) (flow : Flow.t) : bool :=
  (User.role (Flow.approver flow) =? role)%string && isApproved flow.

Definition checkApprovalCriteria (this : Expense.t) (company : Company.t)
  : bool :=
  let settings := Settings.approvalRules (Company.settings company) in
  let approvalPercentage := getApprovalPercentage this in
  let percentageRule := ApprovalRules.percentageRule settings in
  let specificApproverRule := ApprovalRules.specificApproverRule settings in
  let hybridRule := ApprovalRules.hybridRule settings in
  (* Check percentage rule *)
  if PercentageRule.enabled percentageRule
     && Qle_bool (PercentageRule.percentage percentageRule) approvalPercentage
  then true
  else
  (* Check specific approver rule *)
  if SpecificApproverRule.enabled specificApproverRule
     && match find (approvedByRole
                      (SpecificApproverRule.approverRole specificApproverRule))
                   (Expense.approvalFlow this) with
        | Some _ => true
        | None => false
        end
  then true
  else
  (* Check hybrid rule *)
  if HybridRule.enabled hybridRule
  then
    let hasSpecificApprover :=
      existsb (approvedByRole (HybridRule.specificRole hybridRule))
              (Expense.approvalFlow this) in
    if hasSpecificApprover
       || Qle_bool (HybridRule.percentage hybridRule) approvalPercentage
    then true
    else false
  else false.

(** ** Approval handlers (routes/approvals.js) *)

(** [flow.approver._id.toString() === req.user._id.toString() &&
     flow.status === 'pending'] *)
Definition pendingFor (reqUser : User.t) (flow : Flow.t) : bool :=
  (User._id (Flow.approver flow) =? User._id reqUser) && isPending flow.

(** [currentApproval.status = s; currentApproval.comments = c;
     currentApproval.timestamp = new Date()] *)
Definition stamp (s : Flow.status_t) (c : string) (now : Date) (flow : Flow.t)
  : Flow.t :=
  Flow.mk (Flow.approver flow) (Flow.order flow) s (Some c) (Some now).

(** [flow.status === 'pending' && flow.order > currentApproval.order] *)
Definition pendingAfter (currentApproval : Flow.t) (flow : Flow.t) : bool :=
  isPending flow && (Flow.order currentApproval <? Flow.order flow).

(** [expense.status = 'approved'; expense.currentApprover = null] *)
Definition fullyApproved (expense : Expense.t) : Expense.t :=
  Expense.set_currentApprover None
    (Expense.set_status Expense.approved expense).

(** The branch taken when no later approver is left (approvals.js 97-118). *)
Definition noMoreApprovers (expense : Expense.t) (company : Company.t)
  : Expense.t :=
  let approvalPercentage := getApprovalPercentage expense in
  let settings := Settings.approvalRules (Company.settings company) in
  let percentageRule := ApprovalRules.percentageRule settings in
  let specificApproverRule := ApprovalRules.specificApproverRule settings in
  if PercentageRule.enabled percentageRule
     && Qle_bool (PercentageRule.percentage percentageRule) approvalPercentage
  then fullyApproved expense
  else if SpecificApproverRule.enabled specificApproverRule
  then
    let hasSpecificApprover :=
      existsb (approvedByRole
                 (SpecificApproverRule.approverRole specificApproverRule))
              (Expense.approvalFlow expense) in
    if hasSpecificApprover then fullyApproved expense else expense
  else fullyApproved expense.

(** Lines 69-79 and 176-186: the step found is stamped in place and the
    history gets its entry ([approvalHistory.comments] is a trimmed path).
    Both timestamps are taken at [now]. *)
Definition record (s : Flow.status_t) (action : History.action_t)
  (reqUser : User.t) (comments : string) (now : Date) (expense : Expense.t)
  : Expense.t :=
  let expense :=
    Expense.set_approvalFlow
      (updateFirst (pendingFor reqUser) (stamp s comments now)
         (Expense.approvalFlow expense))
      expense in
  Expense.set_approvalHistory
    (Expense.approvalHistory expense
     ++ [History.mk (User._id reqUser) action (trim comments) now])
    expense.

(** POST /api/approvals/:id/approve.  [doc] is what [Expense.findById]
    returned, with [company] its populated company; [comments] is the
    optional string of the body.  The loaded document satisfied the schema
    validators when it was written and the handler assigns no validated
    path a value out of range, so its [save()] goes through. *)
Definition approve (company : Company.t) (doc : option Expense.t)
  (reqUser : User.t) (comments : option string) (now : Date) : Result :=
  match doc with
  | None => Failed NotFound
  | Some expense =>
    match Expense.currentApprover expense with
    | None => Failed ServerError (* null.toString() throws *)
    | Some current =>
      if negb (current =? User._id reqUser) then Failed NotAuthorized
      else
        match find (pendingFor reqUser) (Expense.approvalFlow expense) with
        | None => Failed NoPendingApproval
        | Some found =>
          let currentApproval :=
            stamp Flow.approved (orEmpty comments) now found in
          let expense :=
            record Flow.approved History.approved reqUser
              (orEmpty comments) now expense in
          let meetsCriteria := checkApprovalCriteria expense company in
          if meetsCriteria then Saved (fullyApproved expense)
          else
            match find (pendingAfter currentApproval)
                       (Expense.approvalFlow expense) with
            | Some nextApproval =>
              Saved (Expense.set_currentApprover
                       (Some (User._id (Flow.approver nextApproval)))
                       expense)
            | None => Saved (noMoreApprovers expense company)
            end
        end
    end
  end.

(** POST /api/approvals/:id/reject.  The body's [comments] must pass
    [notEmpty()]. *)
Definition reject (doc : option Expense.t) (reqUser : User.t)
  (comments : option string) (now : Date) : Result :=
  if (orEmpty comments =? "")%string then Failed ValidationFailed
  else
  match doc with
  | None => Failed NotFound
  | Some expense =>
    match Expense.currentApprover expense with
    | None => Failed ServerError (* null.toString() throws *)
    | Some current =>
      if negb (current =? User._id reqUser) then Failed NotAuthorized
      else
        match find (pendingFor reqUser) (Expense.approvalFlow expense) with
        | None => Failed NoPendingApproval
        | Some _ =>
          let expense :=
            record Flow.rejected History.rejected reqUser
              (orEmpty comments) now expense in
          Saved (Expense.set_currentApprover None
                   (Expense.set_status Expense.rejected expense))
        end
    end
  end.

(** The two actions of an approver on a stored expense of [company]. *)
Inductive Action :=
| Approve (reqUser : User.t) (comments : option string) (now : Date)
| Reject (reqUser : User.t) (comments : option string) (now : Date).

Definition perform (company : Company.t) (expense : Expense.t) (a : Action)
  : Result :=
  match a with
  | Approve reqUser comments now =>
      approve company (Some expense) reqUser comments now
  | Reject reqUser comments now => reject (Some expense) reqUser comments now
  end.

(** ** Currency conversion (utils/currency.js) *)

(** [getCurrencyRates(base)]: the rate table of the exchange-rate service,
    with the rates as the response writes them, or [None] when fetching it
    throws. *)
Definition RateService := string -> option (string -> option Q).

(** [amount] is the number the request writes, as a JSON number or as a
    numeric string.  Wherever it is used as a Number - in [amount * rate],
    and in the cast of the schema path that stores what is returned for
    equal currencies - it is the nearest double. *)
Definition convertCurrency (getCurrencyRates : RateService) (amount : Q)
  (fromCurrency toCurrency : string) : option Q :=
  if (fromCurrency =? toCurrency)%string then Some (Double.round amount)
  else
    match getCurrencyRates fromCurrency with
    | None => None
    | Some rates =>
      match rates toCurrency with
      | None => None                                   (* !rate: undefined *)
      | Some rate =>
        if Qeq_bool rate 0 then None                   (* !rate: zero *)
        else Some (Double.mul (Double.round amount) (Double.round rate))
      end
    end.

(** ** Expense handlers (the expense routes) *)

(** [User.findById(id)] and [User.findOne(query)] on the users collection,
    listed in natural order. *)
Definition findById (users : list User.t) (id : ObjectId) : option User.t :=
  find (fun u => User._id u =? id) users.

(** [{ company: company._id, role: 'manager', isManagerApprover: true }] *)
Definition financeQuery (company : Company.t) (u : User.t) : bool :=
  (User.company u =? Company._id company)
  && (User.role u =? "manager")%string
  && User.isManagerApprover u.

(** [{ company: company._id, role: 'admin' }] *)
Definition adminQuery (company : Company.t) (u : User.t) : bool :=
  (User.company u =? Company._id company)
  && (User.role u =? "admin")%string.

(** [{ approver: u._id, order: n, status: 'pending' }] *)
Definition newStep (u : User.t) (n : nat) : Flow.t :=
  Flow.mk u n Flow.pending None None.

(** [id.toString() !== currentApprover?.toString()] *)
Definition differsFrom (currentApprover : option ObjectId) (id : ObjectId)
  : bool :=
  match currentApprover with
  | Some c => negb (id =? c)
  | None => true
  end.

(** The local variables [approvalFlow], [currentApprover] and [order] of
    [setupApprovalFlow]. *)
Module Chain.
Record t := mk {
  approvalFlow : list Flow.t;
  currentApprover : option ObjectId;
  order : nat
}.
End Chain.

(** [approvalFlow.push({approver: u._id, order: order++, status: 'pending'});
     if (!currentApprover) currentApprover = u._id] *)
Definition pushNext (u : User.t) (c : Chain.t) : Chain.t :=
  Chain.mk (Chain.approvalFlow c ++ [newStep u (Chain.order c)])
           (match Chain.currentApprover c with
            | Some cur => Some cur
            | None => Some (User._id u)
            end)
           (S (Chain.order c)).

(** Lines 355-374: the manager step and the initial [order]. *)
Definition managerStep (users : list User.t) (user : User.t) : Chain.t :=
  let pushed :=
    match User.manager user with
    | Some m =>
      if User.isManagerApprover user
      then match findById users m with
           | Some manager =>
               ([newStep manager 1], Some (User._id manager))
           | None => ([], None)
           end
      else ([], None)
    | None => ([], None)
    end in
  Chain.mk (fst pushed) (snd pushed) (List.length (fst pushed) + 1).

(** Lines 376-391: finance approval. *)
Definition financeStep (users : list User.t) (amount : Q)
  (company : Company.t) (c : Chain.t) : Chain.t :=
  let thresholds := Settings.thresholds (Company.settings company) in
  if Qle_bool (Thresholds.financeApproval thresholds) amount
  then match find (financeQuery company) users with
       | Some financeManager =>
         if differsFrom (Chain.currentApprover c) (User._id financeManager)
         then pushNext financeManager c
         else c
       | None => c
       end
  else c.

(** Lines 393-407: director approval. *)
Definition directorStep (users : list User.t) (amount : Q)
  (company : Company.t) (c : Chain.t) : Chain.t :=
  let thresholds := Settings.thresholds (Company.settings company) in
  if Qle_bool (Thresholds.directorApproval thresholds) amount
  then match find (adminQuery company) users with
       | Some director =>
         if differsFrom (Chain.currentApprover c) (User._id director)
         then pushNext director c
         else c
       | None => c
       end
  else c.

(** Lines 409-423: if no approvers found, assign to admin. *)
Definition adminFallback (users : list User.t) (company : Company.t)
  (c : Chain.t) : Chain.t :=
  if List.length (Chain.approvalFlow c) =? 0
  then match find (adminQuery company) users with
       | Some admin =>
         Chain.mk (Chain.approvalFlow c ++ [newStep admin 1])
                  (Some (User._id admin)) (Chain.order c)
       | None => c
       end
  else c.

(** The chain after the manager, finance and director steps, for
    [amount = expense.convertedAmount]. *)
Definition thresholdSteps (users : list User.t) (amount : Q)
  (user : User.t) (company : Company.t) : Chain.t :=
  directorStep users amount company
    (financeStep users amount company (managerStep users user)).

Definition setupApprovalFlow (users : list User.t) (expense : Expense.t)
  (user : User.t) (company : Company.t) : Expense.t :=
  let amount := Expense.convertedAmount expense in
  let c := adminFallback users company
             (thresholdSteps users amount user company) in
  Expense.set_currentApprover (Chain.currentApprover c)
    (Expense.set_approvalFlow (Chain.approvalFlow c) expense).

Definition categories : list string :=
  ["travel"; "meals"; "accommodation"; "transport"; "office_supplies";
   "entertainment"; "other"].

Definition isIn (l : list string) (s : string) : bool :=
  existsb (String.eqb s) l.

(** The schema validators that request validation does not already
    guarantee: [amount: min 0] and [description: required] on the trimmed
    value.  A failing validator makes [save()] throw. *)
Definition validates (expense : Expense.t) : bool :=
  Qle_bool 0 (Expense.amount expense)
  && negb (Expense.description expense =? "")%string.

Definition save (expense : Expense.t) : Result :=
  if validates expense then Saved expense else Failed ServerError.

(** [amount] is the number the body writes; see [convertCurrency]. *)
Module CreateBody.
Record t := mk {
  amount : Q;
  originalCurrency : string;
  category : string;
  description : string;
  expenseDate : Date
}.
End CreateBody.

(** The [body(...)] checks of the route on fields that are not numbers or
    dates by type: [originalCurrency] and [description] not empty,
    [category] one of the seven. *)
Definition createBodyValid (body : CreateBody.t) : bool :=
  negb (CreateBody.originalCurrency body =? "")%string
  && isIn categories (CreateBody.category body)
  && negb (CreateBody.description body =? "")%string.

(** POST /api/expenses.  [company] is what [Company.findById] returned and
    [users] the users collection.  With a receipt the body is multipart,
    its fields are the non-empty strings that passed validation, so none of
    the three [!field] tests of the OCR auto-fill holds: OCR only fills
    [receipt] and [ocrData]. *)
Definition createExpense (getCurrencyRates : RateService)
  (users : list User.t) (company : option Company.t) (reqUser : User.t)
  (body : CreateBody.t) : Result :=
  if negb (createBodyValid body) then Failed ValidationFailed
  else
    match company with
    | None => Failed NotFound
    | Some company =>
      match convertCurrency getCurrencyRates (CreateBody.amount body)
              (CreateBody.originalCurrency body) (Company.currency company)
      with
      | None => Failed ServerError
      | Some convertedAmount =>
        let expense :=
          Expense.mk (User._id reqUser) (Company._id company)
            (Double.round (CreateBody.amount body))    (* parseFloat(amount) *)
            (CreateBody.originalCurrency body)
            convertedAmount (Company.currency company)
            (CreateBody.category body) (trim (CreateBody.description body))
            (CreateBody.expenseDate body)
            Expense.pending None [] [] in
        save (setupApprovalFlow users expense reqUser company)
      end
    end.

(** A body field that passed [isNumeric()]: a JSON number, or a string of
    digits with an optional sign and decimal point, and the number it
    writes. *)
Module Numeral.
Inductive t :=
| number (written : Q)
| text (written : Q).

Definition written (a : t) : Q :=
    match a with
    | number q | text q => q
    end.

(** [if (amount)]: every number but zero, and every string but the empty
    one, which is not numeric. *)
Definition truthy (a : t) : bool :=
    match a with
    | number q => negb (Qeq_bool q 0)
    | text _ => true
    end.
End Numeral.

Module UpdateBody.
Record t := mk {
  amount : option Numeral.t;
  category : option string;
  description : option string;
  expenseDate : option Date
}.
End UpdateBody.

(** [if (s)] for an optional string. *)
Definition truthy (s : option string) : bool :=
  negb (orEmpty s =? "")%string.

(** PUT /api/expenses/:id: [if (amount)] fails for an absent amount and for
    the number 0, not for the string "0". *)
Definition updateExpense (getCurrencyRates : RateService)
  (doc : option Expense.t) (company : option Company.t) (reqUser : User.t)
  (body : UpdateBody.t) : Result :=
  if match UpdateBody.category body with
     | Some c => negb (isIn categories c)
     | None => false
     end
     || match UpdateBody.description body with
        | Some d => (d =? "")%string
        | None => false
        end
  then Failed ValidationFailed
  else
  match doc with
  | None => Failed NotFound
  | Some expense =>
    if (User.role reqUser =? "employee")%string
       && negb (Expense.employee expense =? User._id reqUser)
    then Failed NotAuthorized
    else if negb (Expense.status_eqb (Expense.status expense) Expense.pending)
    then Failed NotPending
    else
      let afterAmount :=
        match UpdateBody.amount body with
        | Some amount =>
          if negb (Numeral.truthy amount) then Some expense
          else
            match company with
            | None => None                  (* company.currency throws *)
            | Some company =>
              match convertCurrency getCurrencyRates (Numeral.written amount)
                      (Expense.originalCurrency expense)
                      (Company.currency company) with
              | None => None
              | Some convertedAmount =>
                Some (Expense.set_convertedAmount convertedAmount
                        (Expense.set_amount   (* parseFloat(amount) *)
                           (Double.round (Numeral.written amount)) expense))
              end
            end
        | None => Some expense
        end in
      match afterAmount with
      | None => Failed ServerError
      | Some expense =>
        let expense :=
          if truthy (UpdateBody.category body)
          then Expense.set_category (orEmpty (UpdateBody.category body))
                 expense
          else expense in
        let expense :=
          if truthy (UpdateBody.description body)
          then Expense.set_description
                 (trim (orEmpty (UpdateBody.description body))) expense
          else expense in
        let expense :=
          match UpdateBody.expenseDate body with
          | Some d => Expense.set_expenseDate d expense
          | None => expense
          end in
        save expense
      end
  end.

(** ** The states of an expense *)

(** The documents that Create, Approve and Reject can leave in the
    collection.  The user ids of a collection are unique. *)
Inductive reachable : Expense.t -> Prop :=
| reach_create getCurrencyRates users company reqUser body e :
    NoDup (map User._id users) ->
    createExpense getCurrencyRates users company reqUser body = Saved e ->
    reachable e
| reach_perform company e a e' :
    reachable e ->
    perform company e a = Saved e' ->
    reachable e'.

(** ** The rule engine as the specification words it *)

(** Count of steps with status Approved. *)
Fixpoint countApproved (steps : list Flow.t) : nat :=
  match steps with
  | [] => 0
  | step :: rest =>
    match Flow.status step with
    | Flow.approved => S (countApproved rest)
    | _ => countApproved rest
    end
  end.

(** (count of Approved steps) / (total step count) x 100 in the arithmetic
    of doubles, and 0 for no step. *)
Definition percentageOf (steps : list Flow.t) : Q :=
  match steps with
  | [] => 0
  | _ => Double.mul
           (Double.div (inject_Z (Z.of_nat (countApproved steps)))
                       (inject_Z (Z.of_nat (List.length steps))))
           100
  end.


(** Some step is Approved and its approver's role is [role]. *)
Definition approvedBy (role : string) (steps : list Flow.t) : Prop :=
  exists step, In step steps
               /\ Flow.status step = Flow.approved
               /\ User.role (Flow.approver step) = role.

Definition percentageRuleSatisfied (steps : list Flow.t)
  (rule : PercentageRule.t) : Prop :=
  PercentageRule.enabled rule = true
  /\ (PercentageRule.percentage rule <= percentageOf steps)%Q.

Definition specificApproverRuleSatisfied (steps : list Flow.t)
  (rule : SpecificApproverRule.t) : Prop :=
  SpecificApproverRule.enabled rule = true
  /\ approvedBy (SpecificApproverRule.approverRole rule) steps.

Definition hybridRuleSatisfied (steps : list Flow.t) (rule : HybridRule.t)
  : Prop :=
  HybridRule.enabled rule = true
  /\ ((HybridRule.percentage rule <= percentageOf steps)%Q
      \/ approvedBy (HybridRule.specificRole rule) steps).

Definition someRuleSatisfied (steps : list Flow.t) (company : Company.t)
  : Prop :=
  let rules := Settings.approvalRules (Company.settings company) in
  percentageRuleSatisfied steps (ApprovalRules.percentageRule rules)
  \/ specificApproverRuleSatisfied steps
       (ApprovalRules.specificApproverRule rules)
  \/ hybridRuleSatisfied steps (ApprovalRules.hybridRule rules).

Definition noRuleEnabled (company : Company.t) : Prop :=
  let rules := Settings.approvalRules (Company.settings company) in
  PercentageRule.enabled (ApprovalRules.percentageRule rules) = false
  /\ SpecificApproverRule.enabled (ApprovalRules.specificApproverRule rules)
     = false
  /\ HybridRule.enabled (ApprovalRules.hybridRule rules) = false.

(** ** Error classes *)

(** The classes of the error taxonomy, and the class each answer of the
    handlers falls in: 403 is the authorization error, the two 400 answers
    about the state of the expense are the state error, the 400 of request
    validation is the validation error. *)
Inductive ErrorClass :=
| ValidationError
| AuthorizationError
| StateError
| NotFoundError
| InternalError.

Definition errorClass (f : Failure) : ErrorClass :=
  match f with
  | ValidationFailed => ValidationError
  | NotFound => NotFoundError
  | NotAuthorized => AuthorizationError
  | NoPendingApproval | NotPending => StateError
  | ServerError => InternalError
  end.

(** What the route's validators require of an action's body. *)
Definition passesValidation (a : Action) : bool :=
  match a with
  | Approve _ _ _ => true
  | Reject _ comments _ => negb (orEmpty comments =? "")%string
  end.

Definition actor (a : Action) : User.t :=
  match a with
  | Approve reqUser _ _ | Reject reqUser _ _ => reqUser
  end.

(** An attempt that comes late or twice: the acting user is not the
    current approver, or holds no pending step any more, or the expense has
    already reached a terminal status. *)
Definition lateOrDuplicate (expense : Expense.t) (reqUser : User.t) : Prop :=
  Expense.currentApprover expense <> Some (User._id reqUser)
  \/ find (pendingFor reqUser) (Expense.approvalFlow expense) = None
  \/ (reachable expense /\ Expense.status expense <> Expense.pending).

(** The number of pending steps of the chain whose approver is [id]. *)
Definition pendingStepsOf (id : ObjectId) (steps : list Flow.t) : nat :=
  List.length
    (filter (fun step => (User._id (Flow.approver step) =? id)
                         && isPending step)
            steps).

(** The invariant of [currentApprover]: when set, it is the approver of
    exactly one pending step; on a terminal expense it is null. *)
Definition currentApproverInvariant (expense : Expense.t) : Prop :=
  (forall id, Expense.currentApprover expense = Some id ->
              pendingStepsOf id (Expense.approvalFlow expense) = 1)
  /\ (Expense.status expense = Expense.approved
      \/ Expense.status expense = Expense.rejected ->
      Expense.currentApprover expense = None).

(** The ids of the approvers of a chain, in chain order. *)
Definition approverIds (steps : list Flow.t) : list ObjectId :=
  map (fun step => User._id (Flow.approver step)) steps.

(** What [setupApprovalFlow] establishes: every step is pending, no approver
    occurs twice, and the current approver is the approver of the first
    step. *)
Definition freshChain (expense : Expense.t) : Prop :=
  Forall (fun step => Flow.status step = Flow.pending)
         (Expense.approvalFlow expense)
  /\ NoDup (approverIds (Expense.approvalFlow expense))
  /\ Expense.currentApprover expense
     = match Expense.approvalFlow expense with
       | [] => None
       | first :: _ => Some (User._id (Flow.approver first))
       end.

(** Orders grow strictly along the chain. *)
Definition ordered (steps : list Flow.t) : Prop :=
  StronglySorted lt (map Flow.order steps).

(** The orders [setupApprovalFlow] has handed out are 1, 2, ... and
    [order] is the next one. *)
Definition numbered (c : Chain.t) : Prop :=
  map Flow.order (Chain.approvalFlow c)
  = seq 1 (List.length (Chain.approvalFlow c))
  /\ Chain.order c = List.length (Chain.approvalFlow c) + 1.

(** While the chain is empty no current approver has been chosen. *)
Definition unassigned (c : Chain.t) : Prop :=
  Chain.approvalFlow c = [] -> Chain.currentApprover c = None.

(** ** A sample company *)

Definition acme : ObjectId := 7.

Definition alice : User.t := User.mk 1 "admin" acme None false.
Definition bob : User.t := User.mk 2 "manager" acme None true.
Definition carol : User.t := User.mk 3 "employee" acme (Some 2) true.
Definition dave : User.t := User.mk 4 "manager" acme None true.
Definition erin : User.t := User.mk 5 "employee" acme None false.

Definition staff : list User.t := [alice; dave; bob; carol; erin].

Definition defaultThresholds : Thresholds.t :=
  Thresholds.mk 1000 5000 10000.

(** The schema defaults: no rule enabled. *)
Definition defaultRules : ApprovalRules.t :=
  ApprovalRules.mk (PercentageRule.mk false 60)
    (SpecificApproverRule.mk false "CFO")
    (HybridRule.mk false 60 "CFO").

(** The specific-approver rule switched on, with its default role. *)
Definition cfoRules : ApprovalRules.t :=
  ApprovalRules.mk (PercentageRule.mk false 60)
    (SpecificApproverRule.mk true "CFO")
    (HybridRule.mk false 60 "CFO").

Definition acmeDefault : Company.t :=
  Company.mk acme "USD" (Settings.mk defaultRules defaultThresholds).

Definition acmeCfo : Company.t :=
  Company.mk acme "USD" (Settings.mk cfoRules defaultThresholds).

Definition submitted : Date := 1700000000000%Z.
Definition decided : Date := 1700000060000%Z.

Definition offline : RateService := fun _ => None.

Definition taxi : CreateBody.t :=
  CreateBody.mk 100 "USD" "transport" "Taxi to the airport" submitted.

Definition laptop : CreateBody.t :=
  CreateBody.mk 6000 "USD" "office_supplies" "Laptop" submitted.

(** Carol's taxi claim as created: one step, for her manager Bob. *)
Definition taxiClaim : Expense.t :=
  Expense.mk 3 acme 100 "USD" 100 "USD" "transport" "Taxi to the airport"
    submitted Expense.pending (Some 2) []
    [Flow.mk bob 1 Flow.pending None None].

(** The taxi claim after Bob approved it under [acmeCfo]. *)
Definition taxiClaimStuck : Expense.t :=
  Expense.mk 3 acme 100 "USD" 100 "USD" "transport" "Taxi to the airport"
    submitted Expense.pending (Some 2)
    [History.mk 2 History.approved "" decided]
    [Flow.mk bob 1 Flow.approved (Some "") (Some decided)].

(** Carol's laptop claim as created: Bob, then the finance approver Dave. *)
Definition laptopClaim : Expense.t :=
  Expense.mk 3 acme 6000 "USD" 6000 "USD" "office_supplies" "Laptop"
    submitted Expense.pending (Some 2) []
    [Flow.mk bob 1 Flow.pending None None;
     Flow.mk dave 2 Flow.pending None None].

(** Erin's taxi claim in a company whose users collection holds no admin. *)
Definition orphanClaim : Expense.t :=
  Expense.mk 5 acme 100 "USD" 100 "USD" "transport" "Taxi to the airport"
    submitted Expense.pending None [] [].

(** The taxi claim after Bob rejected it. *)
Definition taxiClaimRejected : Expense.t :=
  Expense.mk 3 acme 100 "USD" 100 "USD" "transport" "Taxi to the airport"
    submitted Expense.rejected None
    [History.mk 2 History.rejected "no receipt" decided]
    [Flow.mk bob 1 Flow.rejected (Some "no receipt") (Some decided)].

(** The taxi claim after Carol raised its amount to 20000. *)
Definition taxiClaimRaised : Expense.t :=
  Expense.mk 3 acme 20000 "USD" 20000 "USD" "transport"
    "Taxi to the airport" submitted Expense.pending (Some 2) []
    [Flow.mk bob 1 Flow.pending None None].




(** ** Reading an action *)

(** The status stamped on the step, the action logged, the comments stored
    and the time of an action. *)
Definition decisionStatus (a : Action) : Flow.status_t :=
  match a with
  | Approve _ _ _ => Flow.approved
  | Reject _ _ _ => Flow.rejected
  end.

Definition decisionAction (a : Action) : History.action_t :=
  match a with
  | Approve _ _ _ => History.approved
  | Reject _ _ _ => History.rejected
  end.

Definition decisionComments (a : Action) : string :=
  match a with
  | Approve _ comments _ | Reject _ comments _ => orEmpty comments
  end.

Definition decisionTime (a : Action) : Date :=
  match a with
  | Approve _ _ now | Reject _ _ now => now
  end.

(** A step somebody has acted on. *)
Definition isDecided (flow : Flow.t) : bool := negb (isPending flow).

(** The decided steps come first and the pending ones after them. *)
Definition inChainOrder (steps : list Flow.t) : Prop :=
  exists done todo,
    steps = (done ++ todo)%list
    /\ Forall (fun step => Flow.status step <> Flow.pending) done
    /\ Forall (fun step => Flow.status step = Flow.pending) todo.

(** The taxi claim after Bob approved it with no rule enabled. *)
Definition taxiClaimApproved : Expense.t :=
  Expense.mk 3 acme 100 "USD" 100 "USD" "transport" "Taxi to the airport"
    submitted Expense.approved None
    [History.mk 2 History.approved "" decided]
    [Flow.mk bob 1 Flow.approved (Some "") (Some decided)].

(** The laptop claim after Bob approved it: Dave is next. *)
Definition laptopClaimAdvanced : Expense.t :=
  Expense.mk 3 acme 6000 "USD" 6000 "USD" "office_supplies" "Laptop"
    submitted Expense.pending (Some 4)
    [History.mk 2 History.approved "" decided]
    [Flow.mk bob 1 Flow.approved (Some "") (Some decided);
     Flow.mk dave 2 Flow.pending None None].

(** The decided steps come first, and a pending step of the current
    approver is the first pending step. *)
Definition queued (e : Expense.t) : Prop :=
  exists done todo,
    Expense.approvalFlow e = (done ++ todo)%list
    /\ Forall (fun step => Flow.status step <> Flow.pending) done
    /\ Forall (fun step => Flow.status step = Flow.pending) todo
    /\ forall id step,
        Expense.currentApprover e = Some id ->
        In step todo ->
        User._id (Flow.approver step) = id ->
        exists rest, todo = step :: rest.

(** ** The other expense routes *)

(** The answer of a route that saves nothing: what it sends, or the error. *)
Inductive Reply (A : Type) :=
| Sent (a : A)
| Refused (f : Failure).

Arguments Sent {A} a.
Arguments Refused {A} f.

(** [req.user.role === 'employee' &&
     expense.employee.toString() !== req.user._id.toString()] *)
Definition foreignEmployee (expense : Expense.t) (reqUser : User.t) : bool :=
  (User.role reqUser =? "employee")%string
  && negb (Expense.employee expense =? User._id reqUser).

(** GET /api/expenses/:id *)
Definition getExpense (doc : option Expense.t) (reqUser : User.t)
  : Reply Expense.t :=
  match doc with
  | None => Refused NotFound
  | Some expense =>
    if foreignEmployee expense reqUser then Refused NotAuthorized
    else Sent expense
  end.

(** DELETE /api/expenses/:id.  [Sent tt] stands for the deletion of the
    document ([findByIdAndDelete]); the 400 of an expense that is not
    pending is [NotPending]. *)
Definition deleteExpense (doc : option Expense.t) (reqUser : User.t)
  : Reply unit :=
  match doc with
  | None => Refused NotFound
  | Some expense =>
    if foreignEmployee expense reqUser then Refused NotAuthorized
    else if negb (Expense.status_eqb (Expense.status expense) Expense.pending)
    then Refused NotPending
    else Sent tt
  end.

(** GET /api/expenses.  [users] and [expenses] are the two collections;
    [expenses] is listed newest first, which is the order the query sorts
    by, so the answer is the sub-list the query matches.  A manager's team:
    [{ $or: [{ manager: me }, { _id: me }], company: myCompany }]. *)
Definition teamMembers (users : list User.t) (reqUser : User.t)
  : list ObjectId :=
  map User._id
    (filter (fun u =>
               (match User.manager u with
                | Some m => m =? User._id reqUser
                | None => false
                end
                || (User._id u =? User._id reqUser))
               && (User.company u =? User.company reqUser))
            users).

Definition listExpenses (users : list User.t) (expenses : list Expense.t)
  (reqUser : User.t) : list Expense.t :=
  filter (fun e =>
            (Expense.company e =? User.company reqUser)
            && (if (User.role reqUser =? "employee")%string
                then Expense.employee e =? User._id reqUser
                else if (User.role reqUser =? "manager")%string
                then existsb (Nat.eqb (Expense.employee e))
                             (teamMembers users reqUser)
                else true))
         expenses.

(** ** The other approval routes *)

Definition isCurrentApprover (e : Expense.t) (reqUser : User.t) : bool :=
  match Expense.currentApprover e with
  | Some id => id =? User._id reqUser
  | None => false
  end.

(** GET /api/approvals/pending:
    [{ company: myCompany, currentApprover: me, status: 'pending' }] over
    the collection listed newest first. *)
Definition pendingApprovals (expenses : list Expense.t) (reqUser : User.t)
  : list Expense.t :=
  filter (fun e =>
            (Expense.company e =? User.company reqUser)
            && isCurrentApprover e reqUser
            && Expense.status_eqb (Expense.status e) Expense.pending)
         expenses.

(** GET /api/approvals/stats.  The pipeline keeps the history entries of
    the user in the expenses of the company ([$match], [$unwind],
    [$match]) and groups them by action with a count: one group for each
    action that occurs. *)
Definition myDecisions (expenses : list Expense.t) (reqUser : User.t)
  : list History.t :=
  flat_map
    (fun e =>
       if Expense.company e =? User.company reqUser
       then filter (fun h => History.approver h =? User._id reqUser)
                   (Expense.approvalHistory e)
       else [])
    expenses.

Definition action_eqb (a b : History.action_t) : bool :=
  match a, b with
  | History.approved, History.approved
  | History.rejected, History.rejected => true
  | _, _ => false
  end.

Definition groupByAction (entries : list History.t)
  : list (History.action_t * nat) :=
  filter (fun g => negb (snd g =? 0))
    (map (fun a =>
            (a, List.length
                  (filter (fun h => action_eqb (History.action h) a)
                          entries)))
         [History.approved; History.rejected]).

(** [stats.find(stat => stat._id === a)?.count || 0] *)
Definition countOf (a : History.action_t)
  (stats : list (History.action_t * nat)) : nat :=
  match find (fun g => action_eqb (fst g) a) stats with
  | Some g => snd g
  | None => 0
  end.

Module Stats.
Record t := mk {
  totalApprovals : nat;
  approvedCount : nat;
  rejectedCount : nat;
  approvalRate : Q
}.
End Stats.

Definition approvalStats (expenses : list Expense.t) (reqUser : User.t)
  : Stats.t :=
  let stats := groupByAction (myDecisions expenses reqUser) in
  let totalApprovals := fold_left (fun sum stat => sum + snd stat) stats 0 in
  let approvedCount := countOf History.approved stats in
  let rejectedCount := countOf History.rejected stats in
  Stats.mk totalApprovals approvedCount rejectedCount
    (if 0 <? totalApprovals
     then Double.mul (Double.div (ofNat approvedCount) (ofNat totalApprovals))
            100
     else 0).

(** Carol's two claims and Erin's claim, newest first. *)
Definition ledger : list Expense.t :=
  [laptopClaimAdvanced; taxiClaimRejected; orphanClaim].

(** ** The cache of currency rates (utils/currency.js, lines 3-25) *)

(** A table of rates, [response.data.rates]: the rate of a currency code, if
    the table has it. *)
Definition RateTable := string -> option Q.

(** The exchange-rate service at one moment: the table it answers for a
    base currency, or [None] when the request fails. *)
Definition Fetch := string -> option RateTable.

Module RateCache.

(** The two module-level variables, [currencyRates] and [lastUpdated].
    [currencyRates] holds the tables stored under currency codes (codes
    that name a member of [Object.prototype] are left aside). *)
Record t := mk {
  currencyRates : string -> option RateTable;
  lastUpdated : option Date
}.

Definition empty : t := mk (fun _ => None) None.

Definition CACHE_DURATION : Z := 24 * 60 * 60 * 1000.

(** [lastUpdated && (Date.now() - lastUpdated) < CACHE_DURATION] *)
Definition recent (cache : t) (now : Date) : bool :=
  match lastUpdated cache with
  | Some updated =>
      negb (updated =? 0)%Z && (now - updated <? CACHE_DURATION)%Z
  | None => false
  end.

(** [currencyRates[baseCurrency] = rates; lastUpdated = Date.now()] *)
Definition store (baseCurrency : string) (rates : RateTable) (arrival : Date)
  (cache : t) : t :=
  mk (fun code => if (code =? baseCurrency)%string then Some rates
                  else currencyRates cache code)
     (Some arrival).

(** [getCurrencyRates(baseCurrency)], called at time [now]; [arrival] is
    the time at which the service's answer, if one is asked for, comes
    back.  The result is the table or [None] for the error thrown, with
    the cache afterwards. *)
Definition getCurrencyRates (fetch : Fetch) (now arrival : Date)
  (baseCurrency : string) (cache : t) : option RateTable * t :=
  let request :=
    match fetch baseCurrency with
    | Some rates => (Some rates, store baseCurrency rates arrival cache)
    | None => (None, cache)
    end in
  match currencyRates cache baseCurrency with
  | Some rates => if recent cache now then (Some rates, cache) else request
  | None => request
  end.

End RateCache.

(** A sample table: one US dollar is 0.9 euro. *)
Definition dollarRates : RateTable :=
  fun code => if (code =? "EUR")%string then Some (9 # 10) else None.

Definition euroRates : RateTable :=
  fun code => if (code =? "USD")%string then Some (10 # 9) else None.

Definition online : Fetch :=
  fun base =>
    if (base =? "USD")%string then Some dollarRates
    else if (base =? "EUR")%string then Some euroRates
    else None.

Definition down : Fetch := fun _ => None.

(** One call of [getCurrencyRates]: the service at that moment, the time of
    the call, the time at which an answer of the service comes back, and
    the base currency asked for. *)
Module Call.
Record t := mk {
  fetch : Fetch;
  now : Date;
  arrival : Date;
  baseCurrency : string
}.
End Call.

Definition call (c : Call.t) (cache : RateCache.t)
  : option RateTable * RateCache.t :=
  RateCache.getCurrencyRates (Call.fetch c) (Call.now c) (Call.arrival c)
    (Call.baseCurrency c) cache.

(** The cache after a sequence of calls, each finished before the next
    begins; the module-level variables are shared by all of them. *)
Fixpoint after (calls : list Call.t) (cache : RateCache.t) : RateCache.t :=
  match calls with
  | [] => cache
  | c :: rest => after rest (snd (call c cache))
  end.

(** Every call of the sequence that asks for [baseCurrency] is made while
    the cache, as the calls before it left it, is recent. *)
Fixpoint inTime (baseCurrency : string) (calls : list Call.t)
  (cache : RateCache.t) : bool :=
  match calls with
  | [] => true
  | c :: rest =>
    (negb (Call.baseCurrency c =? baseCurrency)%string
     || RateCache.recent cache (Call.now c))
    && inTime baseCurrency rest (snd (call c cache))
  end.

(** ** User management (routes/users.js) *)

(** A document of the users collection, as far as the routes read or write
    it: the fields the workflow uses ([user]), the names, the email and
    [isActive].  The password, which only the User model handles, is left
    out. *)
Module Account.
Record t := mk {
  user : User.t;
  firstName : string;
  lastName : string;
  email : string;
  isActive : bool
}.

Definition _id (a : t) : ObjectId := User._id (user a).
Definition role (a : t) : string := User.role (user a).
Definition company (a : t) : ObjectId := User.company (user a).
End Account.


(** The 400 and 404 answers of the user routes. *)
Inductive UserFailure :=
| InvalidBody       (* 400 { errors: errors.array() } *)
| UserExists        (* 400 'User already exists' *)
| InvalidManager    (* 400 'Invalid manager' *)
| OwnRole           (* 400 'Cannot change your own role' *)
| OwnAccount        (* 400 'Cannot delete your own account' *)
| UserNotFound.     (* 404 'User not found' *)

(** The users collection after the write, or the error answered. *)
Inductive Written :=
| Users (accounts : list Account.t)
| Denied (f : UserFailure).

Definition roles : list string := ["admin"; "manager"; "employee"].

(** [User.findOne({ _id: managerId, company: myCompany,
                     role: { $in: ['admin', 'manager'] } })] finds a user. *)
Definition managerFound (accounts : list Account.t) (reqUser : User.t)
  (managerId : ObjectId) : bool :=
  existsb (fun a =>
             (Account._id a =? managerId)
             && (Account.company a =? User.company reqUser)
             && isIn ["admin"; "manager"] (Account.role a))
          accounts.

Module NewUser.
Record t := mk {
  firstName : string;
  lastName : string;
  email : string;
  password : string;
  role : string;
  managerId : option ObjectId;
  isManagerApprover : option bool
}.
End NewUser.

(** [flag || false] *)
Definition orFalse (flag : option bool) : bool :=
  match flag with
  | Some b => b
  | None => false
  end.

(** POST /api/users.  [isEmail] is the validator's test of an email
    address, [newId] the id the database gives the document and
    [activeByDefault] the User schema's default for [isActive]. *)
Definition createUser (isEmail : string -> bool) (activeByDefault : bool)
  (accounts : list Account.t) (reqUser : User.t) (newId : ObjectId)
  (body : NewUser.t) : Written :=
  if (NewUser.firstName body =? "")%string
     || (NewUser.lastName body =? "")%string
     || negb (isEmail (NewUser.email body))
     || (String.length (NewUser.password body) <? 6)
     || negb (isIn roles (NewUser.role body))
  then Denied InvalidBody
  else if existsb (fun a => (Account.email a =? NewUser.email body)%string)
                  accounts
  then Denied UserExists
  else if match NewUser.managerId body with
          | Some managerId => negb (managerFound accounts reqUser managerId)
          | None => false
          end
  then Denied InvalidManager
  else
    Users (accounts
           ++ [Account.mk
                 (User.mk newId (NewUser.role body) (User.company reqUser)
                    (NewUser.managerId body)
                    (orFalse (NewUser.isManagerApprover body)))
                 (NewUser.firstName body) (NewUser.lastName body)
                 (NewUser.email body) activeByDefault]).

Module UserUpdate.
Record t := mk {
  firstName : option string;
  lastName : option string;
  email : option string;
  role : option string;
  managerId : option ObjectId;
  isManagerApprover : option bool;
  isActive : option bool
}.
End UserUpdate.

(** [updateData], applied by [findByIdAndUpdate]: a name, the email and
    the role are set when truthy, the other three when defined. *)
Definition applyUpdate (body : UserUpdate.t) (a : Account.t) : Account.t :=
  Account.mk
    (User.mk (Account._id a)
       (if truthy (UserUpdate.role body)
        then orEmpty (UserUpdate.role body) else Account.role a)
       (Account.company a)
       (match UserUpdate.managerId body with
        | Some managerId => Some managerId
        | None => User.manager (Account.user a)
        end)
       (match UserUpdate.isManagerApprover body with
        | Some flag => flag
        | None => User.isManagerApprover (Account.user a)
        end))
    (if truthy (UserUpdate.firstName body)
     then orEmpty (UserUpdate.firstName body) else Account.firstName a)
    (if truthy (UserUpdate.lastName body)
     then orEmpty (UserUpdate.lastName body) else Account.lastName a)
    (if truthy (UserUpdate.email body)
     then orEmpty (UserUpdate.email body) else Account.email a)
    (match UserUpdate.isActive body with
     | Some flag => flag
     | None => Account.isActive a
     end).

(** A field that is optional and must not be empty when given. *)
Definition emptyGiven (field : option string) : bool :=
  match field with
  | Some v => (v =? "")%string
  | None => false
  end.

(** PUT /api/users/:id *)
Definition updateUser (isEmail : string -> bool)
  (accounts : list Account.t) (reqUser : User.t) (userId : ObjectId)
  (body : UserUpdate.t) : Written :=
  if emptyGiven (UserUpdate.firstName body)
     || emptyGiven (UserUpdate.lastName body)
     || match UserUpdate.email body with
        | Some v => negb (isEmail v)
        | None => false
        end
     || match UserUpdate.role body with
        | Some v => negb (isIn roles v)
        | None => false
        end
  then Denied InvalidBody
  else
    match find (fun a => (Account._id a =? userId)
                         && (Account.company a =? User.company reqUser))
               accounts with
    | None => Denied UserNotFound
    | Some user =>
      if (Account._id user =? User._id reqUser)
         && truthy (UserUpdate.role body)
         && negb (orEmpty (UserUpdate.role body) =? "admin")%string
      then Denied OwnRole
      else if match UserUpdate.managerId body with
              | Some managerId =>
                  negb (managerFound accounts reqUser managerId)
              | None => false
              end
      then Denied InvalidManager
      else
        Users (updateFirst (fun a => Account._id a =? userId)
                 (applyUpdate body) accounts)
    end.

(** [{ isActive: false }] *)
Definition deactivate (a : Account.t) : Account.t :=
  Account.mk (Account.user a) (Account.firstName a) (Account.lastName a)
    (Account.email a) false.

(** DELETE /api/users/:id *)
Definition deleteUser (accounts : list Account.t) (reqUser : User.t)
  (userId : ObjectId) : Written :=
  if userId =? User._id reqUser then Denied OwnAccount
  else
    match find (fun a => (Account._id a =? userId)
                         && (Account.company a =? User.company reqUser))
               accounts with
    | None => Denied UserNotFound
    | Some _ =>
      Users (updateFirst
               (fun a => (Account._id a =? userId)
                         && (Account.company a =? User.company reqUser))
               deactivate accounts)
    end.

(** The three requests an admin sends to manage users. *)
Inductive UserRequest :=
| CreateUser (newId : ObjectId) (body : NewUser.t)
| UpdateUser (userId : ObjectId) (body : UserUpdate.t)
| DeleteUser (userId : ObjectId).

Definition manage (isEmail : string -> bool) (activeByDefault : bool)
  (accounts : list Account.t) (reqUser : User.t) (r : UserRequest)
  : Written :=
  match r with
  | CreateUser newId body =>
      createUser isEmail activeByDefault accounts reqUser newId body
  | UpdateUser userId body => updateUser isEmail accounts reqUser userId body
  | DeleteUser userId => deleteUser accounts reqUser userId
  end.

(** An admin of company [c]. *)
Definition adminOf (c : ObjectId) (a : Account.t) : Prop :=
  Account.role a = "admin" /\ Account.company a = c.

(** The accounts of the sample company. *)
Definition office : list Account.t :=
  [Account.mk alice "Alice" "Ames" "alice@acme.example" true;
   Account.mk dave "Dave" "Dunn" "dave@acme.example" true;
   Account.mk bob "Bob" "Byrd" "bob@acme.example" true;
   Account.mk carol "Carol" "Cole" "carol@acme.example" true;
   Account.mk erin "Erin" "Egan" "erin@acme.example" true].

(** A stand-in for the validator's email test: the text holds an [@]. *)
Definition hasAt (s : string) : bool :=
  existsb (fun c => (nat_of_ascii c =? 64)) (list_ascii_of_string s).

(** The users collection after a request on collection [before]. *)
Definition written (before : list Account.t) (w : Written)
  : list Account.t :=
  match w with
  | Users accounts => accounts
  | Denied _ => before
  end.

(** Alice makes Bob an employee; Alice removes Dave. *)
Definition demoteBob : UserRequest :=
  UpdateUser 2
    (UserUpdate.mk None None None (Some "employee") None None None).

Definition removeDave : UserRequest := DeleteUser 4.

(** * Properties *)

(** ** The sample company at work *)

Lemma staff_ids_unique : NoDup (map User._id staff).
Proof. repeat constructor; simpl; intuition discriminate. Qed.

Lemma taxiClaim_created :
  createExpense offline staff (Some acmeDefault) carol taxi = Saved taxiClaim.
Proof. vm_compute. reflexivity. Qed.

Lemma laptopClaim_created :
  createExpense offline staff (Some acmeDefault) carol laptop
  = Saved laptopClaim.
Proof. vm_compute. reflexivity. Qed.


Lemma taxiClaim_reachable : reachable taxiClaim.
Proof.
  exact (reach_create offline staff (Some acmeDefault) carol taxi
           staff_ids_unique taxiClaim_created).
Qed.

Lemma laptopClaim_reachable : reachable laptopClaim.
Proof.
  exact (reach_create offline staff (Some acmeDefault) carol laptop
           staff_ids_unique laptopClaim_created).
Qed.


(** One approval out of two is 50 percent. *)
Example percentage_one_of_two :
  (getApprovalPercentage
     (record Flow.approved History.approved bob "" decided laptopClaim)
   == 50)%Q.
Proof. reflexivity. Qed.

(** A single-step chain under a percentage rule of 60: approving the sole
    step gives 100 percent and the expense is approved. *)
Example sole_step_approved :
  perform
    (Company.mk acme "USD"
       (Settings.mk
          (ApprovalRules.mk (PercentageRule.mk true 60)
             (SpecificApproverRule.mk false "CFO")
             (HybridRule.mk false 60 "CFO"))
          defaultThresholds))
    taxiClaim (Approve bob None decided)
  = Saved
      (Expense.mk 3 acme 100 "USD" 100 "USD" "transport"
         "Taxi to the airport" submitted Expense.approved None
         [History.mk 2 History.approved "" decided]
         [Flow.mk bob 1 Flow.approved (Some "") (Some decided)]).
Proof. reflexivity. Qed.

(** Fifty-seven approvals out of a hundred are 56.99999999999999 percent
    to doubles: a percentage rule of 57 is not met. *)
Example fifty_seven_of_hundred :
  let flow :=
    (repeat (Flow.mk bob 1 Flow.approved None None) 57
     ++ repeat (Flow.mk bob 1 Flow.pending None None) 43)%list in
  let company :=
    Company.mk acme "USD"
      (Settings.mk
         (ApprovalRules.mk (PercentageRule.mk true 57)
            (SpecificApproverRule.mk false "CFO")
            (HybridRule.mk false 60 "CFO"))
         defaultThresholds) in
  getApprovalPercentage (Expense.set_approvalFlow flow taxiClaim)
  = (8022036836253695 # 140737488355328)%Q
  /\ checkApprovalCriteria (Expense.set_approvalFlow flow taxiClaim) company
     = false.
Proof. vm_compute. split; reflexivity. Qed.

(** 100 at a rate written 1.15 is 114.99999999999999. *)
Example convertCurrency_rounds :
  convertCurrency (fun _ => Some (fun _ => Some (115 # 100)%Q)) 100
    "EUR" "USD"
  = Some (8092405580431359 # 70368744177664)%Q.
Proof. vm_compute. reflexivity. Qed.

(** [trim] drops the white space at both ends only. *)
Example trim_sample : trim "  no  receipt " = "no  receipt".
Proof. reflexivity. Qed.

(** A no-break space (C2 A0) in front and a byte order mark (EF BB BF)
    behind are white space too. *)
Example trim_wide_sample :
  trim (String (ascii_of_nat 194) (String (ascii_of_nat 160) "Taxi")
        ++ String (ascii_of_nat 239)
             (String (ascii_of_nat 187) (String (ascii_of_nat 191) " ")))
  = "Taxi".
Proof. reflexivity. Qed.

(** ** Rule engine *)

Lemma status_eqb_eq (a b : Flow.status_t) :
  Flow.status_eqb a b = true <-> a = b.
Proof. destruct a, b; simpl; split; congruence. Qed.

Lemma isApproved_iff (flow : Flow.t) :
  isApproved flow = true <-> Flow.status flow = Flow.approved.
Proof. apply status_eqb_eq. Qed.

Lemma isPending_iff (flow : Flow.t) :
  isPending flow = true <-> Flow.status flow = Flow.pending.
Proof. apply status_eqb_eq. Qed.

Lemma filter_isApproved_length (steps : list Flow.t) :
  List.length (filter isApproved steps) = countApproved steps.
Proof.
  induction steps as [| step rest IH]; simpl; [reflexivity |].
  unfold isApproved at 1.
  destruct (Flow.status step); simpl; rewrite IH; reflexivity.
Qed.



(** ** Doubles *)

Lemma pow2_pos (e : Z) : (0 < Double.pow2 e)%Q.
Proof. apply Qpower_0_lt. reflexivity. Qed.

Lemma pow2_add (a b : Z) :
  (Double.pow2 (a + b) == Double.pow2 a * Double.pow2 b)%Q.
Proof. apply Qpower_plus. discriminate. Qed.

Lemma pow2_lt (a b : Z) : (a < b)%Z -> (Double.pow2 a < Double.pow2 b)%Q.
Proof. intros H. apply Qpower_lt_compat_l; [exact H | reflexivity]. Qed.

Lemma pow2_le (a b : Z) : (a <= b)%Z -> (Double.pow2 a <= Double.pow2 b)%Q.
Proof. intros H. apply Qpower_le_compat_l; [exact H | discriminate]. Qed.

Lemma pow2_lt_inv (a b : Z) :
  (Double.pow2 a < Double.pow2 b)%Q -> (a < b)%Z.
Proof.
  intros H. apply (Qpower_lt_compat_l_inv 2); [exact H | reflexivity].
Qed.

Lemma pow2_Z (a : Z) : (0 <= a)%Z -> (inject_Z (2 ^ a) == Double.pow2 a)%Q.
Proof. intros H. apply (Zpower_Qpower 2 a H). Qed.

Lemma pow2_succ (a : Z) : (Double.pow2 (a + 1) == 2 * Double.pow2 a)%Q.
Proof. rewrite pow2_add. change (Double.pow2 1) with 2%Q. ring. Qed.

Lemma pow2_sub (a b : Z) :
  (Double.pow2 (a - b) == Double.pow2 a / Double.pow2 b)%Q.
Proof.
  unfold Z.sub. rewrite pow2_add. unfold Double.pow2 at 2.
  rewrite Qpower_opp. reflexivity.
Qed.

(** Every positive natural lies between two powers of two. *)
Lemma log2_bounds (n : Z) :
  (0 < n)%Z ->
  (Double.pow2 (Z.log2 n) <= inject_Z n
   /\ inject_Z n < Double.pow2 (Z.log2 n + 1))%Q.
Proof.
  intros Hn. destruct (Z.log2_spec n Hn) as [Hlo Hhi].
  pose proof (Z.log2_nonneg n) as H0.
  rewrite <- !pow2_Z by lia. rewrite <- Zle_Qle, <- Zlt_Qlt.
  replace (Z.log2 n + 1)%Z with (Z.succ (Z.log2 n)) by lia. auto.
Qed.

(** The exponent [ilog2] finds is the right one. *)
Lemma ilog2_spec (q : Q) :
  (0 < q)%Q ->
  (Double.pow2 (Double.ilog2 q) <= q
   /\ q < Double.pow2 (Double.ilog2 q + 1))%Q.
Proof.
  intros Hq. destruct q as [n d].
  assert (Hn : (0 < n)%Z).
  { unfold Qlt in Hq. simpl in Hq. lia. }
  unfold Double.ilog2. cbn [Qnum Qden].
  set (a := Z.log2 n). set (b := Z.log2 (Zpos d)).
  destruct (log2_bounds Hn) as [Halo Hahi]. fold a in Halo, Hahi.
  destruct (@log2_bounds (Zpos d)) as [Hblo Hbhi]; [reflexivity |].
  fold b in Hblo, Hbhi.
  assert (Hd : (0 < inject_Z (Zpos d))%Q) by reflexivity.
  assert (Hqd : (n # d == inject_Z n / inject_Z (Zpos d))%Q)
    by apply Qmake_Qdiv.
  pose proof (pow2_pos b) as Hpb. pose proof (pow2_pos (b + 1)) as Hpb1.
  assert (Hup : (n # d < Double.pow2 (a - b + 1))%Q).
  { rewrite Hqd. apply Qlt_shift_div_r; [exact Hd |].
    apply Qlt_le_trans with (Double.pow2 (a + 1)); [exact Hahi |].
    replace (a + 1)%Z with ((a - b + 1) + b)%Z by lia.
    rewrite pow2_add. apply Qmult_le_l; [apply pow2_pos | exact Hblo]. }
  assert (Hlow : (Double.pow2 (a - b - 1) <= n # d)%Q).
  { rewrite Hqd. apply Qle_shift_div_l; [exact Hd |].
    apply Qle_trans with (Double.pow2 a); [| exact Halo].
    replace a with ((a - b - 1) + (b + 1))%Z at 2 by lia.
    rewrite pow2_add.
    apply Qmult_le_l; [apply pow2_pos | apply Qlt_le_weak, Hbhi]. }
  destruct (Qle_bool (Double.pow2 (a - b)) (n # d)) eqn:E.
  - apply Qle_bool_iff in E. split; assumption.
  - split; [exact Hlow |].
    replace (a - b - 1 + 1)%Z with (a - b)%Z by lia.
    apply Qnot_le_lt. intros H. apply Qle_bool_iff in H. congruence.
Qed.

Lemma ilog2_le (x y : Q) :
  (0 < x)%Q -> (x <= y)%Q -> (Double.ilog2 x <= Double.ilog2 y)%Z.
Proof.
  intros Hx Hxy.
  assert (Hy : (0 < y)%Q) by (eapply Qlt_le_trans; eauto).
  destruct (ilog2_spec Hx) as [Hlo _]. destruct (ilog2_spec Hy) as [_ Hhi].
  assert (H : (Double.ilog2 x < Double.ilog2 y + 1)%Z).
  { apply pow2_lt_inv. eapply Qle_lt_trans; [exact Hlo |].
    eapply Qle_lt_trans; eauto. }
  lia.
Qed.

(** ** Rounding to the nearest integer, ties to even *)

Lemma rne_cases (q : Q) :
  Double.rne q = Qfloor q \/ Double.rne q = (Qfloor q + 1)%Z.
Proof.
  unfold Double.rne. destruct (_ ?= _)%Q; auto. destruct (Z.even _); auto.
Qed.


Lemma rne_ge (q : Q) (z : Z) : (inject_Z z <= q)%Q -> (z <= Double.rne q)%Z.
Proof.
  intros H. apply Qfloor_resp_le in H. rewrite Qfloor_Z in H.
  destruct (rne_cases q) as [-> | ->]; lia.
Qed.

Lemma rne_le (q : Q) (z : Z) : (q <= inject_Z z)%Q -> (Double.rne q <= z)%Z.
Proof.
  intros H.
  assert (Hf : (Qfloor q <= z)%Z).
  { apply Qfloor_resp_le in H. rewrite Qfloor_Z in H. exact H. }
  destruct (Z.eq_dec (Qfloor q) z) as [Heq | Hne].
  - (* q is the integer z itself *)
    assert (Hq : (q == inject_Z z)%Q).
    { apply Qle_antisym; [exact H |]. rewrite <- Heq. apply Qfloor_le. }
    unfold Double.rne. rewrite Heq.
    assert (E : (q - inject_Z z ?= 1 # 2)%Q = Lt).
    { apply (proj1 (Qlt_alt _ _)). lra. }
    rewrite E. lia.
  - destruct (rne_cases q) as [-> | ->]; lia.
Qed.

Lemma rne_mono (x y : Q) : (x <= y)%Q -> (Double.rne x <= Double.rne y)%Z.
Proof.
  intros Hxy. pose proof (Qfloor_resp_le _ _ Hxy) as Hf.
  destruct (Z.eq_dec (Qfloor x) (Qfloor y)) as [Heq | Hne].
  - unfold Double.rne. rewrite <- Heq.
    destruct (x - inject_Z (Qfloor x) ?= 1 # 2)%Q eqn:Ex;
      destruct (y - inject_Z (Qfloor x) ?= 1 # 2)%Q eqn:Ey;
      try (destruct (Z.even (Qfloor x))); try lia;
      repeat match goal with
             | H : (_ ?= _)%Q = Eq |- _ => apply Qeq_alt in H
             | H : (_ ?= _)%Q = Lt |- _ => apply Qlt_alt in H
             | H : (_ ?= _)%Q = Gt |- _ => apply Qgt_alt in H
             end; exfalso; lra.
  - destruct (rne_cases x) as [-> | ->], (rne_cases y) as [-> | ->]; lia.
Qed.

(** ** Rounding a positive number to 53 significant bits *)

Lemma scaled_bounds (q : Q) :
  (0 < q)%Q ->
  (Double.pow2 52 <= q / Double.pow2 (Double.ilog2 q - 52)
   /\ q / Double.pow2 (Double.ilog2 q - 52) < Double.pow2 53)%Q.
Proof.
  intros Hq. destruct (ilog2_spec Hq) as [Hlo Hhi].
  pose proof (pow2_pos (Double.ilog2 q - 52)) as He.
  split.
  - apply Qle_shift_div_l; [exact He |].
    rewrite <- pow2_add.
    replace (52 + (Double.ilog2 q - 52))%Z with (Double.ilog2 q) by lia.
    exact Hlo.
  - apply Qlt_shift_div_r; [exact He |].
    rewrite <- pow2_add.
    replace (53 + (Double.ilog2 q - 52))%Z with (Double.ilog2 q + 1)%Z by lia.
    exact Hhi.
Qed.

Lemma mantissa_bounds (q : Q) :
  (0 < q)%Q ->
  (2 ^ 52 <= Double.rne (q / Double.pow2 (Double.ilog2 q - 52)) <= 2 ^ 53)%Z.
Proof.
  intros Hq. destruct (scaled_bounds Hq) as [Hlo Hhi]. split.
  - apply rne_ge. rewrite pow2_Z by lia. exact Hlo.
  - apply rne_le. rewrite pow2_Z by lia. apply Qlt_le_weak, Hhi.
Qed.

Lemma roundPos_bounds (q : Q) :
  (0 < q)%Q ->
  (Double.pow2 (Double.ilog2 q) <= Double.roundPos q
   /\ Double.roundPos q <= Double.pow2 (Double.ilog2 q + 1))%Q.
Proof.
  intros Hq. destruct (mantissa_bounds Hq) as [Hlo Hhi].
  unfold Double.roundPos. cbv zeta.
  set (e := (Double.ilog2 q - 52)%Z) in *.
  set (m := Double.rne (q / Double.pow2 e)) in *.
  pose proof (pow2_pos e) as He.
  split.
  - replace (Double.ilog2 q) with (52 + e)%Z by (unfold e; lia).
    rewrite pow2_add. apply Qmult_le_compat_r; [| apply Qlt_le_weak, He].
    rewrite <- pow2_Z by lia. rewrite <- Zle_Qle. exact Hlo.
  - replace (Double.ilog2 q + 1)%Z with (53 + e)%Z by (unfold e; lia).
    rewrite pow2_add. apply Qmult_le_compat_r; [| apply Qlt_le_weak, He].
    rewrite <- pow2_Z by lia. rewrite <- Zle_Qle. exact Hhi.
Qed.

Lemma roundPos_pos (q : Q) : (0 < q)%Q -> (0 < Double.roundPos q)%Q.
Proof.
  intros Hq. eapply Qlt_le_trans; [apply (pow2_pos (Double.ilog2 q)) |].
  apply roundPos_bounds, Hq.
Qed.

Lemma roundPos_mono (x y : Q) :
  (0 < x)%Q -> (x <= y)%Q -> (Double.roundPos x <= Double.roundPos y)%Q.
Proof.
  intros Hx Hxy.
  assert (Hy : (0 < y)%Q) by (eapply Qlt_le_trans; eauto).
  pose proof (ilog2_le Hx Hxy) as He.
  destruct (Z.eq_dec (Double.ilog2 x) (Double.ilog2 y)) as [Heq | Hne].
  - unfold Double.roundPos. cbv zeta. rewrite Heq.
    pose proof (pow2_pos (Double.ilog2 y - 52)) as Hp.
    apply Qmult_le_compat_r; [| apply Qlt_le_weak, Hp].
    rewrite <- Zle_Qle. apply rne_mono.
    apply Qmult_le_compat_r; [exact Hxy |].
    apply Qinv_le_0_compat, Qlt_le_weak, Hp.
  - destruct (roundPos_bounds Hx) as [_ Hhi].
    destruct (roundPos_bounds Hy) as [Hlo _].
    eapply Qle_trans; [exact Hhi |]. eapply Qle_trans; [| exact Hlo].
    apply pow2_le. lia.
Qed.


(** [round] in terms of [roundPos]. *)
Lemma round_zero (q : Q) : (q == 0)%Q -> Double.round q = 0%Q.
Proof.
  intros H. unfold Double.round.
  destruct q as [[| p | p] d]; try discriminate.
  reflexivity.
Qed.

Lemma round_positive (q : Q) :
  (0 < q)%Q -> (Double.round q == Double.roundPos q)%Q.
Proof.
  intros H. unfold Double.round.
  destruct q as [[| p | p] d]; try discriminate.
  cbn [Qnum]. apply Qred_correct.
Qed.

Lemma round_negative (q : Q) :
  (q < 0)%Q -> (Double.round q == - Double.roundPos (- q))%Q.
Proof.
  intros H. unfold Double.round.
  destruct q as [[| p | p] d]; try discriminate.
  cbn [Qnum]. apply Qred_correct.
Qed.

Lemma Q_sign (q : Q) : (q < 0 \/ q == 0 \/ 0 < q)%Q.
Proof. destruct (Q_dec q 0) as [[H | H] | H]; auto. Qed.

(** Rounding keeps the sign. *)
Lemma round_nonneg (q : Q) : (0 <= q)%Q -> (0 <= Double.round q)%Q.
Proof.
  intros H. destruct (Q_sign q) as [Hn | [Hz | Hp]].
  - exfalso. lra.
  - rewrite (round_zero Hz). apply Qle_refl.
  - rewrite (round_positive Hp). apply Qlt_le_weak, roundPos_pos, Hp.
Qed.

Lemma round_nonpos (q : Q) : (q <= 0)%Q -> (Double.round q <= 0)%Q.
Proof.
  intros H. destruct (Q_sign q) as [Hn | [Hz | Hp]].
  - rewrite (round_negative Hn).
    assert (Hq : (0 < - q)%Q) by lra.
    pose proof (roundPos_pos Hq). lra.
  - rewrite (round_zero Hz). apply Qle_refl.
  - exfalso. lra.
Qed.

(** Rounding is monotone: the larger number never gets the smaller
    double. *)
Lemma round_mono (x y : Q) :
  (x <= y)%Q -> (Double.round x <= Double.round y)%Q.
Proof.
  intros Hxy.
  destruct (Q_sign x) as [Hxn | [Hxz | Hxp]].
  - destruct (Q_sign y) as [Hyn | [Hyz | Hyp]].
    + rewrite (round_negative Hxn), (round_negative Hyn).
      assert (Hy' : (0 < - y)%Q) by lra.
      assert (Hle : (- y <= - x)%Q) by lra.
      pose proof (roundPos_mono Hy' Hle). lra.
    + rewrite (round_zero Hyz). apply round_nonpos. lra.
    + eapply Qle_trans; [apply round_nonpos | apply round_nonneg]; lra.
  - rewrite (round_zero Hxz). apply round_nonneg. lra.
  - assert (Hyp : (0 < y)%Q) by lra.
    rewrite (round_positive Hxp), (round_positive Hyp).
    apply roundPos_mono; assumption.
Qed.

(** Equal numbers have the same double. *)
Lemma round_comp (x y : Q) : (x == y)%Q -> Double.round x = Double.round y.
Proof.
  intros H.
  assert (Heq : (Double.round x == Double.round y)%Q)
    by (apply Qle_antisym; apply round_mono; lra).
  unfold Double.round in *. apply Qred_complete.
  rewrite !Qred_correct in Heq. exact Heq.
Qed.


(** ** The approval percentage *)

Lemma getApprovalPercentage_spec (this : Expense.t) :
  getApprovalPercentage this = percentageOf (Expense.approvalFlow this).
Proof.
  unfold getApprovalPercentage, percentageOf.
  rewrite filter_isApproved_length.
  destruct (Expense.approvalFlow this); reflexivity.
Qed.

Lemma ofNat_pos (n : nat) : 0 < n -> (0 < ofNat n)%Q.
Proof.
  intros H. unfold ofNat. change 0%Q with (inject_Z 0).
  rewrite <- Zlt_Qlt. lia.
Qed.

Lemma ofNat_nonneg (n : nat) : (0 <= ofNat n)%Q.
Proof.
  unfold ofNat. change 0%Q with (inject_Z 0). rewrite <- Zle_Qle. lia.
Qed.

(** [x / y * 100] on doubles grows with the exact quotient. *)
Lemma percent_mono (a b c d : Q) :
  (a / b <= c / d)%Q ->
  (Double.mul (Double.div a b) 100 <= Double.mul (Double.div c d) 100)%Q.
Proof.
  intros H. unfold Double.mul, Double.div.
  apply round_mono. apply Qmult_le_compat_r; [| discriminate].
  apply round_mono, H.
Qed.



Lemma quotient_nonneg (a t : nat) : (0 <= ofNat a / ofNat t)%Q.
Proof.
  apply Qmult_le_0_compat; [apply ofNat_nonneg |].
  apply Qinv_le_0_compat, ofNat_nonneg.
Qed.

Lemma ratio_nonneg (a t : nat) :
  (0 <= Double.mul (Double.div (ofNat a) (ofNat t)) 100)%Q.
Proof.
  unfold Double.mul, Double.div. apply round_nonneg.
  apply Qmult_le_0_compat; [| discriminate].
  apply round_nonneg, quotient_nonneg.
Qed.

Lemma percentageOf_nonneg (steps : list Flow.t) : (0 <= percentageOf steps)%Q.
Proof.
  unfold percentageOf. destruct steps as [| s rest]; [discriminate |].
  apply ratio_nonneg.
Qed.

Lemma percentageOf_nonempty (steps : list Flow.t) :
  steps <> [] ->
  percentageOf steps
  = Double.mul
      (Double.div (ofNat (countApproved steps)) (ofNat (List.length steps)))
      100.
Proof. destruct steps; [congruence | reflexivity]. Qed.






Lemma approvedByRole_iff (role : string) (flow : Flow.t) :
  approvedByRole role flow = true
  <-> Flow.status flow = Flow.approved
      /\ User.role (Flow.approver flow) = role.
Proof.
  unfold approvedByRole.
  rewrite andb_true_iff, String.eqb_eq, isApproved_iff. tauto.
Qed.

Lemma existsb_approvedByRole (role : string) (steps : list Flow.t) :
  existsb (approvedByRole role) steps = true <-> approvedBy role steps.
Proof.
  rewrite existsb_exists. unfold approvedBy.
  split; intros [step [Hin H]]; exists step; split; trivial;
    apply approvedByRole_iff; tauto.
Qed.

Lemma find_approvedByRole (role : string) (steps : list Flow.t) :
  (exists flow, find (approvedByRole role) steps = Some flow)
  <-> approvedBy role steps.
Proof.
  split.
  - intros [flow Hf]. exists flow. apply find_some in Hf.
    destruct Hf as [Hin H]. apply approvedByRole_iff in H. tauto.
  - intros [step [Hin H]].
    destruct (find (approvedByRole role) steps) as [flow |] eqn:E;
      [eauto |].
    apply (find_none _ _ E) in Hin.
    assert (approvedByRole role step = true)
      by (apply approvedByRole_iff; tauto).
    congruence.
Qed.

Lemma Qle_bool_percentage (this : Expense.t) (p : Q) :
  Qle_bool p (getApprovalPercentage this) = true
  <-> (p <= percentageOf (Expense.approvalFlow this))%Q.
Proof. rewrite Qle_bool_iff, getApprovalPercentage_spec. tauto. Qed.

Lemma checkApprovalCriteria_iff (this : Expense.t) (company : Company.t) :
  checkApprovalCriteria this company = true
  <-> someRuleSatisfied (Expense.approvalFlow this) company.
Proof.
  unfold checkApprovalCriteria, someRuleSatisfied, percentageRuleSatisfied,
    specificApproverRuleSatisfied, hybridRuleSatisfied.
  destruct company as [cid cur [[[pe pp] [se sr] [he hp hr]] th]]; simpl.
  rewrite <- !(Qle_bool_percentage this), <- find_approvedByRole,
    <- existsb_approvedByRole.
  destruct pe, se, he,
    (Qle_bool pp (getApprovalPercentage this)),
    (Qle_bool hp (getApprovalPercentage this)),
    (find (approvedByRole sr) (Expense.approvalFlow this)),
    (existsb (approvedByRole hr) (Expense.approvalFlow this));
    simpl; split; intros H;
    repeat match goal with
           | _ => discriminate
           | _ => reflexivity
           | H : _ /\ _ |- _ => destruct H
           | H : _ \/ _ |- _ => destruct H
           | H : exists _, _ |- _ => destruct H
           end;
    eauto 8.
Qed.

(** C3.  [checkApprovalCriteria] returns true exactly when at least one
    enabled rule is satisfied (percentage rule, specific-approver rule, or
    hybrid rule with its percentage or its role), and false when no rule is
    enabled.  The approval percentage the rules compare is the one doubles
    compute, [percentageOf]. *)
Theorem checkApprovalCriteria_or_composition
  (this : Expense.t) (company : Company.t) :
  (checkApprovalCriteria this company = true
   <-> someRuleSatisfied (Expense.approvalFlow this) company)
  /\ (noRuleEnabled company -> checkApprovalCriteria this company = false).
Proof.
  split; [apply checkApprovalCriteria_iff |].
  intros [Hp [Hs Hh]].
  destruct (checkApprovalCriteria this company) eqn:E; [| reflexivity].
  apply checkApprovalCriteria_iff in E.
  destruct E as [[H _] | [[H _] | [H _]]]; congruence.
Qed.

(** ** In-place update of the step found *)

Lemma updateFirst_split {A : Type} (p : A -> bool) (f : A -> A)
  (l : list A) (x : A) :
  find p l = Some x ->
  exists before after,
    l = (before ++ x :: after)%list
    /\ (forall y, In y before -> p y = false)
    /\ p x = true
    /\ updateFirst p f l = (before ++ f x :: after)%list.
Proof.
  induction l as [| a rest IH]; simpl; [discriminate |].
  destruct (p a) eqn:Ea.
  - intros H. injection H as ->. exists [], rest. simpl.
    repeat split; trivial. intros y [].
  - intros H. destruct (IH H) as [before [after [-> [Hb [Hx Hu]]]]].
    exists (a :: before), after. simpl. rewrite Hu.
    repeat split; trivial. intros y [<- | Hy]; auto.
Qed.

Lemma updateFirst_length {A : Type} (p : A -> bool) (f : A -> A)
  (l : list A) :
  List.length (updateFirst p f l) = List.length l.
Proof.
  induction l as [| a rest IH]; simpl; [reflexivity |].
  destruct (p a); simpl; congruence.
Qed.

(** ** Reject *)

(** C2.  Whatever the company's rules, a Reject by the current approver on
    their pending step (with the comments the route requires) is saved
    with that step Rejected in place, a rejected entry appended to the
    history, status Rejected and no current approver. *)
Theorem reject_vetoes
  (company : Company.t) (expense : Expense.t) (reqUser : User.t)
  (comments : string) (now : Date) (found : Flow.t) :
  comments <> "" ->
  Expense.currentApprover expense = Some (User._id reqUser) ->
  find (pendingFor reqUser) (Expense.approvalFlow expense) = Some found ->
  exists (e' : Expense.t) (before after : list Flow.t),
    perform company expense (Reject reqUser (Some comments) now) = Saved e'
    /\ Expense.approvalFlow expense = (before ++ found :: after)%list
    /\ Expense.approvalFlow e'
       = (before
          ++ Flow.mk (Flow.approver found) (Flow.order found) Flow.rejected
               (Some comments) (Some now)
          :: after)%list
    /\ Expense.approvalHistory e'
       = (Expense.approvalHistory expense
          ++ [History.mk (User._id reqUser) History.rejected
                (trim comments) now])%list
    /\ Expense.status e' = Expense.rejected
    /\ Expense.currentApprover e' = None.
Proof.
  intros Hc Hcur Hfind.
  destruct (updateFirst_split (pendingFor reqUser)
              (stamp Flow.rejected comments now) _ Hfind)
    as [before [after [Hflow [_ [_ Hupd]]]]].
  eexists; exists before, after.
  unfold perform, reject, record. simpl orEmpty.
  apply String.eqb_neq in Hc. rewrite Hc, Hcur, Nat.eqb_refl, Hfind. simpl.
  rewrite Hupd.
  repeat split; trivial.
Qed.

Lemma reject_vetoes_witness :
  exists (e' : Expense.t) (before after : list Flow.t),
    perform acmeCfo laptopClaim (Reject bob (Some "no receipt") decided)
    = Saved e'
    /\ Expense.approvalFlow laptopClaim
       = (before ++ Flow.mk bob 1 Flow.pending None None :: after)%list
    /\ Expense.approvalFlow e'
       = (before
          ++ Flow.mk bob 1 Flow.rejected (Some "no receipt") (Some decided)
          :: after)%list
    /\ Expense.approvalHistory e'
       = (Expense.approvalHistory laptopClaim
          ++ [History.mk (User._id bob) History.rejected
                (trim "no receipt") decided])%list
    /\ Expense.status e' = Expense.rejected
    /\ Expense.currentApprover e' = None.
Proof.
  apply (@reject_vetoes acmeCfo laptopClaim bob "no receipt" decided
           (Flow.mk bob 1 Flow.pending None None)).
  - discriminate.
  - reflexivity.
  - reflexivity.
Defined.

(** ** Approve: the chain is exhausted *)

Lemma find_none_iff {A : Type} (p : A -> bool) (l : list A) :
  find p l = None <-> forall x, In x l -> p x = false.
Proof.
  split; [apply find_none |].
  induction l as [| a rest IH]; simpl; intros H; [reflexivity |].
  rewrite (H a) by auto. apply IH. auto.
Qed.

Lemma pendingAfter_iff (currentApproval flow : Flow.t) :
  pendingAfter currentApproval flow = true
  <-> Flow.status flow = Flow.pending
      /\ Flow.order currentApproval < Flow.order flow.
Proof.
  unfold pendingAfter. rewrite andb_true_iff, isPending_iff, Nat.ltb_lt.
  tauto.
Qed.

Lemma no_later_step (currentApproval : Flow.t) (steps : list Flow.t) :
  (forall later, In later steps -> Flow.status later = Flow.pending ->
                 Flow.order later <= Flow.order currentApproval) ->
  find (pendingAfter currentApproval) steps = None.
Proof.
  intros H. apply find_none_iff. intros x Hin.
  destruct (pendingAfter currentApproval x) eqn:E; [| reflexivity].
  apply pendingAfter_iff in E. destruct E as [Hp Hlt].
  specialize (H x Hin Hp). lia.
Qed.

Lemma fullyApproved_status (expense : Expense.t) :
  Expense.status (fullyApproved expense) = Expense.approved
  /\ Expense.currentApprover (fullyApproved expense) = None.
Proof. split; reflexivity. Qed.

(** C1, as the code has it.  When the Approve of the current approver meets
    no completion rule and no pending step of greater order is left, and the
    specific-approver rule is not enabled, the expense is saved with status
    Approved and no current approver. *)
Theorem approve_exhausted_default
  (company : Company.t) (expense : Expense.t) (reqUser : User.t)
  (comments : option string) (now : Date) (found : Flow.t) :
  Expense.currentApprover expense = Some (User._id reqUser) ->
  find (pendingFor reqUser) (Expense.approvalFlow expense) = Some found ->
  checkApprovalCriteria
    (record Flow.approved History.approved reqUser (orEmpty comments) now
       expense)
    company = false ->
  (forall later,
      In later
         (Expense.approvalFlow
            (record Flow.approved History.approved reqUser
               (orEmpty comments) now expense)) ->
      Flow.status later = Flow.pending ->
      Flow.order later <= Flow.order found) ->
  SpecificApproverRule.enabled
    (ApprovalRules.specificApproverRule
       (Settings.approvalRules (Company.settings company))) = false ->
  exists e',
    perform company expense (Approve reqUser comments now) = Saved e'
    /\ Expense.status e' = Expense.approved
    /\ Expense.currentApprover e' = None.
Proof.
  intros Hcur Hfind Hcrit Hlast Hspecific.
  unfold perform, approve.
  rewrite Hcur, Nat.eqb_refl, Hfind. simpl negb. cbv iota zeta.
  rewrite Hcrit.
  rewrite (no_later_step (stamp Flow.approved (orEmpty comments) now found))
    by exact Hlast.
  eexists. split; [reflexivity |].
  unfold noMoreApprovers. rewrite Hspecific.
  destruct (_ && _); apply fullyApproved_status.
Qed.

Lemma approve_exhausted_default_witness :
  exists e',
    perform acmeDefault taxiClaim (Approve bob None decided)
    = Saved e'
    /\ Expense.status e' = Expense.approved
    /\ Expense.currentApprover e' = None.
Proof.
  apply (@approve_exhausted_default acmeDefault taxiClaim bob None
           decided (Flow.mk bob 1 Flow.pending None None)).
  - reflexivity.
  - reflexivity.
  - reflexivity.
  - simpl. intros later [<- | []]. discriminate.
  - reflexivity.
Defined.

(** C1 fails as stated: with the specific-approver rule enabled and no
    approver of that role in the chain, Bob's approval of the one-step taxi
    claim meets no rule, leaves no later pending step, and the expense is
    saved still Pending with Bob as current approver. *)
Lemma approve_exhausted_stays_pending :
  Expense.status taxiClaim = Expense.pending
  /\ Expense.currentApprover taxiClaim = Some (User._id bob)
  /\ checkApprovalCriteria
       (record Flow.approved History.approved bob "" decided taxiClaim)
       acmeCfo = false
  /\ find (pendingAfter (Flow.mk bob 1 Flow.approved (Some "")
                           (Some decided)))
          (Expense.approvalFlow
             (record Flow.approved History.approved bob "" decided
                taxiClaim)) = None
  /\ perform acmeCfo taxiClaim (Approve bob None decided)
     = Saved taxiClaimStuck
  /\ Expense.status taxiClaimStuck = Expense.pending
  /\ Expense.currentApprover taxiClaimStuck = Some 2.
Proof. repeat split. Qed.

(** ** What a saved action looks like *)

Lemma noMoreApprovers_cases (expense : Expense.t) (company : Company.t) :
  noMoreApprovers expense company = fullyApproved expense
  \/ noMoreApprovers expense company = expense.
Proof.
  unfold noMoreApprovers.
  destruct (_ && _); [auto |].
  destruct (SpecificApproverRule.enabled _); [| auto].
  destruct (existsb _ _); auto.
Qed.

Lemma approve_saved (company : Company.t) (expense : Expense.t)
  (reqUser : User.t) (comments : option string) (now : Date)
  (e' : Expense.t) :
  approve company (Some expense) reqUser comments now = Saved e' ->
  let recorded :=
    record Flow.approved History.approved reqUser (orEmpty comments) now
      expense in
  Expense.currentApprover expense = Some (User._id reqUser)
  /\ exists found,
      find (pendingFor reqUser) (Expense.approvalFlow expense) = Some found
      /\ (e' = fullyApproved recorded
          \/ (exists nextApproval,
                 find (pendingAfter
                         (stamp Flow.approved (orEmpty comments) now found))
                      (Expense.approvalFlow recorded) = Some nextApproval
                 /\ e' = Expense.set_currentApprover
                           (Some (User._id (Flow.approver nextApproval)))
                           recorded)
          \/ e' = noMoreApprovers recorded company).
Proof.
  unfold approve.
  destruct (Expense.currentApprover expense) as [current |] eqn:Hcur;
    [| discriminate].
  destruct (current =? User._id reqUser) eqn:Heq; simpl; [| discriminate].
  apply Nat.eqb_eq in Heq. subst current.
  destruct (find (pendingFor reqUser) (Expense.approvalFlow expense))
    as [found |] eqn:Hfind; [| discriminate].
  intros H. split; [reflexivity |]. exists found. split; [reflexivity |].
  destruct (checkApprovalCriteria _ company).
  - injection H as <-. auto.
  - destruct (find (pendingAfter _) _) as [nextApproval |] eqn:Hnext.
    + injection H as <-. right. left. exists nextApproval. auto.
    + injection H as <-. auto.
Qed.

Lemma reject_saved (expense : Expense.t) (reqUser : User.t)
  (comments : option string) (now : Date) (e' : Expense.t) :
  reject (Some expense) reqUser comments now = Saved e' ->
  Expense.currentApprover expense = Some (User._id reqUser)
  /\ e' = Expense.set_currentApprover None
            (Expense.set_status Expense.rejected
               (record Flow.rejected History.rejected reqUser
                  (orEmpty comments) now expense)).
Proof.
  unfold reject.
  destruct (orEmpty comments =? "")%string; [discriminate |].
  destruct (Expense.currentApprover expense) as [current |] eqn:Hcur;
    [| discriminate].
  destruct (current =? User._id reqUser) eqn:Heq; simpl; [| discriminate].
  apply Nat.eqb_eq in Heq. subst current.
  destruct (find (pendingFor reqUser) (Expense.approvalFlow expense));
    [| discriminate].
  intros H. injection H as <-. auto.
Qed.

Lemma createExpense_saved (getCurrencyRates : RateService)
  (users : list User.t) (company : option Company.t) (reqUser : User.t)
  (body : CreateBody.t) (e : Expense.t) :
  createExpense getCurrencyRates users company reqUser body = Saved e ->
  exists c fresh,
    company = Some c
    /\ Expense.status fresh = Expense.pending
    /\ e = setupApprovalFlow users fresh reqUser c.
Proof.
  unfold createExpense.
  destruct (createBodyValid body); simpl; [| discriminate].
  destruct company as [c |]; [| discriminate].
  destruct (convertCurrency _ _ _ _) as [convertedAmount |];
    [| discriminate].
  unfold save. destruct (validates _); [| discriminate].
  intros H. injection H as <-.
  do 2 eexists. split; [reflexivity |]. split; [| reflexivity]. reflexivity.
Qed.

(** ** Orders along the chain *)

Lemma stamp_orders (s : Flow.status_t) (c : string) (now : Date)
  (p : Flow.t -> bool) (steps : list Flow.t) :
  map Flow.order (updateFirst p (stamp s c now) steps)
  = map Flow.order steps.
Proof.
  induction steps as [| a rest IH]; simpl; [reflexivity |].
  destruct (p a); simpl; congruence.
Qed.

Lemma record_orders (s : Flow.status_t) (action : History.action_t)
  (reqUser : User.t) (c : string) (now : Date) (expense : Expense.t) :
  map Flow.order (Expense.approvalFlow (record s action reqUser c now expense))
  = map Flow.order (Expense.approvalFlow expense).
Proof. apply stamp_orders. Qed.

Lemma perform_orders (company : Company.t) (expense : Expense.t)
  (a : Action) (e' : Expense.t) :
  perform company expense a = Saved e' ->
  map Flow.order (Expense.approvalFlow e')
  = map Flow.order (Expense.approvalFlow expense).
Proof.
  destruct a as [reqUser comments now | reqUser comments now]; simpl;
    intros H.
  - apply approve_saved in H.
    destruct H as [_ [found [_ [-> | [[nextApproval [_ ->]] | ->]]]]];
      try apply record_orders.
    destruct (noMoreApprovers_cases
                (record Flow.approved History.approved reqUser
                   (orEmpty comments) now expense) company) as [-> | ->];
      apply record_orders.
  - apply reject_saved in H. destruct H as [_ ->]. apply record_orders.
Qed.

Lemma seq_sorted (n start : nat) : StronglySorted lt (seq start n).
Proof.
  revert start. induction n as [| n IH]; intros start; simpl; constructor.
  - apply IH.
  - apply Forall_forall. intros x Hx. apply in_seq in Hx. lia.
Qed.

Lemma managerStep_numbered (users : list User.t) (user : User.t) :
  numbered (managerStep users user).
Proof.
  unfold managerStep, numbered.
  destruct (User.manager user) as [m |]; [| simpl; auto].
  destruct (User.isManagerApprover user); [| simpl; auto].
  destruct (findById users m); simpl; auto.
Qed.

Lemma pushNext_numbered (u : User.t) (c : Chain.t) :
  numbered c -> numbered (pushNext u c).
Proof.
  intros [Hmap Hord]. unfold numbered, pushNext. simpl.
  rewrite map_app, length_app, Hmap, Hord. simpl.
  rewrite seq_app. simpl.
  split; [do 2 f_equal |]; lia.
Qed.

Lemma financeStep_numbered (users : list User.t) (amount : Q)
  (company : Company.t) (c : Chain.t) :
  numbered c -> numbered (financeStep users amount company c).
Proof.
  intros H. unfold financeStep.
  destruct (Qle_bool _ _); [| exact H].
  destruct (find _ users) as [u |]; [| exact H].
  destruct (differsFrom _ _); [apply pushNext_numbered |]; exact H.
Qed.

Lemma directorStep_numbered (users : list User.t) (amount : Q)
  (company : Company.t) (c : Chain.t) :
  numbered c -> numbered (directorStep users amount company c).
Proof.
  intros H. unfold directorStep.
  destruct (Qle_bool _ _); [| exact H].
  destruct (find _ users) as [u |]; [| exact H].
  destruct (differsFrom _ _); [apply pushNext_numbered |]; exact H.
Qed.

Lemma adminFallback_orders (users : list User.t) (company : Company.t)
  (c : Chain.t) :
  numbered c ->
  map Flow.order (Chain.approvalFlow (adminFallback users company c))
  = seq 1 (List.length (Chain.approvalFlow (adminFallback users company c))).
Proof.
  intros [Hmap Hord]. unfold adminFallback.
  destruct (Chain.approvalFlow c) as [| s rest] eqn:E; simpl.
  - destruct (find _ users); simpl; rewrite ?E; reflexivity.
  - rewrite E. exact Hmap.
Qed.

Lemma setupApprovalFlow_ordered (users : list User.t) (expense : Expense.t)
  (user : User.t) (company : Company.t) :
  ordered (Expense.approvalFlow (setupApprovalFlow users expense user company)).
Proof.
  unfold ordered, setupApprovalFlow. simpl.
  rewrite adminFallback_orders; [apply seq_sorted |].
  apply directorStep_numbered, financeStep_numbered, managerStep_numbered.
Qed.

Lemma reachable_ordered (e : Expense.t) :
  reachable e -> ordered (Expense.approvalFlow e).
Proof.
  induction 1 as [rates users company reqUser body e _ H
                 | company e a e' _ IH H].
  - apply createExpense_saved in H.
    destruct H as [c [fresh [_ [_ ->]]]]. apply setupApprovalFlow_ordered.
  - unfold ordered. rewrite (perform_orders _ _ _ H). exact IH.
Qed.

Lemma setupApprovalFlow_status (users : list User.t) (expense : Expense.t)
  (user : User.t) (company : Company.t) :
  Expense.status (setupApprovalFlow users expense user company)
  = Expense.status expense.
Proof. reflexivity. Qed.

Lemma record_status (s : Flow.status_t) (action : History.action_t)
  (reqUser : User.t) (c : string) (now : Date) (expense : Expense.t) :
  Expense.status (record s action reqUser c now expense)
  = Expense.status expense
  /\ Expense.currentApprover (record s action reqUser c now expense)
     = Expense.currentApprover expense.
Proof. split; reflexivity. Qed.

(** A terminal expense has no current approver. *)
Lemma reachable_terminal (e : Expense.t) :
  reachable e ->
  Expense.status e <> Expense.pending -> Expense.currentApprover e = None.
Proof.
  induction 1 as [rates users company reqUser body e _ H
                 | company e a e' _ IH H].
  - apply createExpense_saved in H.
    destruct H as [c [fresh [_ [Hs ->]]]].
    rewrite setupApprovalFlow_status. congruence.
  - destruct a as [reqUser comments now | reqUser comments now]; simpl in H.
    + apply approve_saved in H.
      destruct H as [Hcur [found [_ [-> | [[nextApproval [_ ->]] | ->]]]]];
        [ reflexivity
        | simpl; intros Hs; apply IH in Hs; congruence
        | ].
      match goal with
      | |- context [noMoreApprovers ?r ?c] =>
          destruct (noMoreApprovers_cases r c) as [-> | ->]
      end; [reflexivity |].
      simpl. intros Hs. apply IH in Hs. congruence.
    + apply reject_saved in H. destruct H as [_ ->]. reflexivity.
Qed.

Lemma ordered_first_least (p : Flow.t -> bool) (steps : list Flow.t)
  (x : Flow.t) :
  ordered steps ->
  find p steps = Some x ->
  forall y, In y steps -> p y = true -> Flow.order x <= Flow.order y.
Proof.
  unfold ordered.
  induction steps as [| a rest IH]; simpl; [discriminate |].
  intros Hsorted Hfind y Hy Hpy.
  apply StronglySorted_inv in Hsorted. destruct Hsorted as [Hrest Hall].
  rewrite Forall_forall in Hall.
  destruct (p a) eqn:Ea.
  - injection Hfind as <-. destruct Hy as [<- | Hy]; [lia |].
    apply Nat.lt_le_incl, Hall, in_map, Hy.
  - destruct Hy as [<- | Hy]; [congruence |]. apply IH; trivial.
Qed.

Lemma ordered_order_inj (steps : list Flow.t) (x y : Flow.t) :
  ordered steps ->
  In x steps -> In y steps -> Flow.order x = Flow.order y -> x = y.
Proof.
  unfold ordered.
  induction steps as [| a rest IH]; simpl; [intros _ [] |].
  intros Hsorted Hx Hy Heq.
  apply StronglySorted_inv in Hsorted. destruct Hsorted as [Hrest Hall].
  rewrite Forall_forall in Hall.
  destruct Hx as [<- | Hx], Hy as [<- | Hy]; trivial.
  - apply (in_map Flow.order), Hall in Hy. lia.
  - apply (in_map Flow.order), Hall in Hx. lia.
  - apply IH; trivial.
Qed.

(** ** Approve: the next approver *)

(** C4.  On a pending expense of the system, when the Approve of the
    current approver meets no completion rule and a pending step of greater
    order exists, the expense is saved still Pending and its current
    approver is the approver of the one such step of least order. *)
Theorem approve_advances
  (company : Company.t) (expense : Expense.t) (reqUser : User.t)
  (comments : option string) (now : Date) (found : Flow.t) :
  reachable expense ->
  Expense.status expense = Expense.pending ->
  Expense.currentApprover expense = Some (User._id reqUser) ->
  find (pendingFor reqUser) (Expense.approvalFlow expense) = Some found ->
  checkApprovalCriteria
    (record Flow.approved History.approved reqUser (orEmpty comments) now
       expense)
    company = false ->
  (exists later,
      In later
         (Expense.approvalFlow
            (record Flow.approved History.approved reqUser
               (orEmpty comments) now expense))
      /\ Flow.status later = Flow.pending
      /\ Flow.order found < Flow.order later) ->
  exists e' nextApproval,
    perform company expense (Approve reqUser comments now) = Saved e'
    /\ Expense.status e' = Expense.pending
    /\ Expense.currentApprover e'
       = Some (User._id (Flow.approver nextApproval))
    /\ In nextApproval (Expense.approvalFlow e')
    /\ Flow.status nextApproval = Flow.pending
    /\ Flow.order found < Flow.order nextApproval
    /\ forall other,
        In other (Expense.approvalFlow e') ->
        Flow.status other = Flow.pending ->
        Flow.order found < Flow.order other ->
        Flow.order nextApproval <= Flow.order other
        /\ (Flow.order other = Flow.order nextApproval ->
            other = nextApproval).
Proof.
  intros Hreach Hstatus Hcur Hfind Hcrit [later [Hin [Hpend Hlt]]].
  set (recorded := record Flow.approved History.approved reqUser
                     (orEmpty comments) now expense) in *.
  set (currentApproval := stamp Flow.approved (orEmpty comments) now found).
  assert (Hord : ordered (Expense.approvalFlow recorded)).
  { unfold ordered, recorded. rewrite record_orders.
    apply reachable_ordered, Hreach. }
  destruct (find (pendingAfter currentApproval)
                 (Expense.approvalFlow recorded))
    as [nextApproval |] eqn:Hnext.
  - exists (Expense.set_currentApprover
              (Some (User._id (Flow.approver nextApproval))) recorded),
           nextApproval.
    pose proof (find_some _ _ Hnext) as [Hnin Hnp].
    apply pendingAfter_iff in Hnp. destruct Hnp as [Hnpend Hnlt].
    split.
    { unfold perform, approve.
      rewrite Hcur, Nat.eqb_refl, Hfind. simpl negb. cbv iota zeta.
      fold recorded. rewrite Hcrit. fold currentApproval. rewrite Hnext.
      reflexivity. }
    repeat split; trivial.
    + eapply ordered_first_least; eauto.
      apply pendingAfter_iff. auto.
    + intros Heq. eapply ordered_order_inj; eauto.
  - apply find_none_iff with (x := later) in Hnext; trivial.
    assert (pendingAfter currentApproval later = true)
      by (apply pendingAfter_iff; auto).
    congruence.
Qed.

Lemma approve_advances_witness :
  exists e' nextApproval,
    perform acmeDefault laptopClaim (Approve bob (Some "ok") decided)
    = Saved e'
    /\ Expense.status e' = Expense.pending
    /\ Expense.currentApprover e'
       = Some (User._id (Flow.approver nextApproval))
    /\ In nextApproval (Expense.approvalFlow e')
    /\ Flow.status nextApproval = Flow.pending
    /\ Flow.order (Flow.mk bob 1 Flow.pending None None)
       < Flow.order nextApproval
    /\ forall other,
        In other (Expense.approvalFlow e') ->
        Flow.status other = Flow.pending ->
        Flow.order (Flow.mk bob 1 Flow.pending None None)
        < Flow.order other ->
        Flow.order nextApproval <= Flow.order other
        /\ (Flow.order other = Flow.order nextApproval ->
            other = nextApproval).
Proof.
  apply (@approve_advances acmeDefault laptopClaim bob (Some "ok") decided
           (Flow.mk bob 1 Flow.pending None None)).
  - exact laptopClaim_reachable.
  - reflexivity.
  - reflexivity.
  - reflexivity.
  - vm_compute. reflexivity.
  - exists (Flow.mk dave 2 Flow.pending None None).
    simpl. repeat split; auto.
Defined.

(** ** The current approver *)

Lemma same_user (users : list User.t) (u v : User.t) :
  NoDup (map User._id users) ->
  In u users -> In v users -> User._id u = User._id v -> u = v.
Proof.
  induction users as [| a rest IH]; simpl; [intros _ [] |].
  intros Hnd Hu Hv Heq.
  apply NoDup_cons_iff in Hnd. destruct Hnd as [Hnotin Hrest].
  destruct Hu as [<- | Hu], Hv as [<- | Hv]; trivial.
  - destruct Hnotin. rewrite Heq. apply in_map, Hv.
  - destruct Hnotin. rewrite <- Heq. apply in_map, Hu.
  - apply IH; trivial.
Qed.

Lemma finance_is_not_director (users : list User.t) (company : Company.t)
  (financeManager director : User.t) :
  NoDup (map User._id users) ->
  find (financeQuery company) users = Some financeManager ->
  find (adminQuery company) users = Some director ->
  User._id financeManager <> User._id director.
Proof.
  intros Hnd Hf Hd Heq.
  apply find_some in Hf. destruct Hf as [Hfin Hfq].
  apply find_some in Hd. destruct Hd as [Hdin Hdq].
  assert (financeManager = director) by (eapply same_user; eauto).
  subst director.
  unfold financeQuery in Hfq. unfold adminQuery in Hdq.
  apply andb_true_iff in Hfq. destruct Hfq as [Hfq _].
  apply andb_true_iff in Hfq. destruct Hfq as [_ Hrole].
  apply andb_true_iff in Hdq. destruct Hdq as [_ Hrole'].
  apply String.eqb_eq in Hrole. apply String.eqb_eq in Hrole'. congruence.
Qed.

Lemma differsFrom_head (current : option ObjectId) (id : ObjectId) :
  differsFrom current id = true ->
  forall c, current = Some c -> id <> c.
Proof.
  intros H c ->. simpl in H. apply negb_true_iff, Nat.eqb_neq in H. exact H.
Qed.

Lemma setupApprovalFlow_fresh (users : list User.t) (expense : Expense.t)
  (user : User.t) (company : Company.t) :
  NoDup (map User._id users) ->
  freshChain (setupApprovalFlow users expense user company).
Proof.
  intros Hnd.
  unfold freshChain, setupApprovalFlow, adminFallback, thresholdSteps,
    directorStep, financeStep.
  set (amount := Expense.convertedAmount expense).
  assert (Hm : managerStep users user = Chain.mk [] None 1
               \/ exists manager,
                   managerStep users user
                   = Chain.mk [newStep manager 1] (Some (User._id manager)) 2).
  { unfold managerStep.
    destruct (User.manager user) as [m |]; [| simpl; auto].
    destruct (User.isManagerApprover user); [| simpl; auto].
    destruct (findById users m) as [manager |]; simpl; eauto. }
  destruct (Qle_bool (Thresholds.financeApproval _) amount);
    destruct (Qle_bool (Thresholds.directorApproval _) amount);
    destruct (find (financeQuery company) users) as [fm |] eqn:Hfm;
    destruct (find (adminQuery company) users) as [dir |] eqn:Hdir;
    destruct Hm as [-> | [manager ->]]; simpl;
    repeat match goal with
           | |- context [if negb (?a =? ?b) then _ else _] =>
               destruct (a =? b) eqn:?; simpl
           end;
    try rewrite ?Hdir; simpl;
    repeat match goal with
           | H : (_ =? _) = false |- _ => apply Nat.eqb_neq in H
           | H : (_ =? _) = true |- _ => apply Nat.eqb_eq in H
           end;
    (split; [repeat constructor |]);
    (split; [| reflexivity]);
    repeat constructor; simpl; try tauto;
    try (pose proof (finance_is_not_director _ _ Hnd Hfm Hdir)); 
    intuition congruence.
Qed.

Lemma stamp_approverIds (s : Flow.status_t) (c : string) (now : Date)
  (p : Flow.t -> bool) (steps : list Flow.t) :
  approverIds (updateFirst p (stamp s c now) steps) = approverIds steps.
Proof.
  induction steps as [| a rest IH]; simpl; [reflexivity |].
  destruct (p a); simpl; congruence.
Qed.

Lemma perform_approverIds (company : Company.t) (expense : Expense.t)
  (a : Action) (e' : Expense.t) :
  perform company expense a = Saved e' ->
  approverIds (Expense.approvalFlow e')
  = approverIds (Expense.approvalFlow expense).
Proof.
  destruct a as [reqUser comments now | reqUser comments now]; simpl;
    intros H.
  - apply approve_saved in H.
    destruct H as [_ [found [_ [-> | [[nextApproval [_ ->]] | ->]]]]];
      try apply stamp_approverIds.
    match goal with
    | |- context [noMoreApprovers ?r ?c] =>
        destruct (noMoreApprovers_cases r c) as [-> | ->]
    end; apply stamp_approverIds.
  - apply reject_saved in H. destruct H as [_ ->]. apply stamp_approverIds.
Qed.

(** No approver occurs twice in the chain of an expense of the system. *)
Lemma reachable_distinct (e : Expense.t) :
  reachable e -> NoDup (approverIds (Expense.approvalFlow e)).
Proof.
  induction 1 as [rates users company reqUser body e Hnd H
                 | company e a e' _ IH H].
  - apply createExpense_saved in H.
    destruct H as [c [fresh [_ [_ ->]]]].
    apply setupApprovalFlow_fresh, Hnd.
  - rewrite (perform_approverIds _ _ _ H). exact IH.
Qed.

Lemma pendingStepsOf_one (steps : list Flow.t) (x : Flow.t) :
  NoDup (approverIds steps) ->
  In x steps ->
  Flow.status x = Flow.pending ->
  pendingStepsOf (User._id (Flow.approver x)) steps = 1.
Proof.
  unfold pendingStepsOf.
  induction steps as [| a rest IH]; simpl; [intros _ [] |].
  intros Hnd Hin Hpend.
  apply NoDup_cons_iff in Hnd. destruct Hnd as [Hnotin Hrest].
  destruct Hin as [<- | Hin].
  - rewrite Nat.eqb_refl. unfold isPending at 1. rewrite Hpend. simpl.
    f_equal.
    replace (filter _ rest) with (@nil Flow.t); [reflexivity |].
    symmetry. apply length_zero_iff_nil.
    destruct (filter _ rest) as [| y l] eqn:E; [reflexivity |].
    assert (Hy : In y (filter
                         (fun step =>
                            (User._id (Flow.approver step)
                             =? User._id (Flow.approver a))
                            && isPending step) rest))
      by (rewrite E; left; reflexivity).
    apply filter_In in Hy. destruct Hy as [Hy Hp].
    apply andb_true_iff in Hp. destruct Hp as [Hid _].
    apply Nat.eqb_eq in Hid. destruct Hnotin. rewrite <- Hid.
    apply (in_map (fun step => User._id (Flow.approver step))), Hy.
  - destruct (User._id (Flow.approver a) =? User._id (Flow.approver x))
      eqn:Hid.
    + apply Nat.eqb_eq in Hid. destruct Hnotin. rewrite Hid.
      apply (in_map (fun step => User._id (Flow.approver step))), Hin.
    + simpl. apply IH; trivial.
Qed.

(** Creation establishes the invariant of [currentApprover]. *)
Lemma create_invariant (getCurrencyRates : RateService)
  (users : list User.t) (company : option Company.t) (reqUser : User.t)
  (body : CreateBody.t) (e : Expense.t) :
  NoDup (map User._id users) ->
  createExpense getCurrencyRates users company reqUser body = Saved e ->
  currentApproverInvariant e.
Proof.
  intros Hnd H. apply createExpense_saved in H.
  destruct H as [c [fresh [_ [Hs ->]]]].
  destruct (@setupApprovalFlow_fresh users fresh reqUser c Hnd)
    as [Hpending [Hdistinct Hcur]].
  split.
  - intros id Hid. rewrite Hcur in Hid.
    destruct (Expense.approvalFlow (setupApprovalFlow users fresh reqUser c))
      as [| first rest] eqn:E; [discriminate |].
    injection Hid as <-. apply pendingStepsOf_one; simpl; auto.
    apply Forall_inv in Hpending. exact Hpending.
  - rewrite setupApprovalFlow_status, Hs. intros [H | H]; discriminate.
Qed.

Lemma noMoreApprovers_default (expense : Expense.t) (company : Company.t) :
  SpecificApproverRule.enabled
    (ApprovalRules.specificApproverRule
       (Settings.approvalRules (Company.settings company))) = false ->
  noMoreApprovers expense company = fullyApproved expense.
Proof.
  intros H. unfold noMoreApprovers. rewrite H.
  destruct (_ && _); reflexivity.
Qed.

(** Every action saved under a company whose specific-approver rule is off
    leaves the invariant of [currentApprover] in place. *)
Lemma perform_invariant (company : Company.t) (expense : Expense.t)
  (a : Action) (e' : Expense.t) :
  reachable expense ->
  SpecificApproverRule.enabled
    (ApprovalRules.specificApproverRule
       (Settings.approvalRules (Company.settings company))) = false ->
  perform company expense a = Saved e' ->
  currentApproverInvariant e'.
Proof.
  intros Hreach Hoff H.
  pose proof (reachable_distinct Hreach) as Hdistinct.
  rewrite <- (perform_approverIds _ _ _ H) in Hdistinct.
  assert (Hnull : Expense.currentApprover e' = None
                  -> currentApproverInvariant e').
  { intros E. split; [rewrite E; discriminate | auto]. }
  destruct a as [reqUser comments now | reqUser comments now]; simpl in H.
  - apply approve_saved in H.
    destruct H as [Hcur [found [_ [-> | [[nextApproval [Hnext ->]] | ->]]]]].
    + apply Hnull. reflexivity.
    + apply find_some in Hnext. destruct Hnext as [Hin Hp].
      apply pendingAfter_iff in Hp. destruct Hp as [Hpend _].
      split.
      * intros id Hid. simpl in Hid. injection Hid as <-.
        apply pendingStepsOf_one; trivial.
      * simpl. intros Hterm.
        assert (Expense.status expense <> Expense.pending)
          by (destruct Hterm; congruence).
        pose proof (reachable_terminal Hreach H). congruence.
    + apply Hnull. rewrite noMoreApprovers_default by exact Hoff.
      reflexivity.
  - apply reject_saved in H. destruct H as [_ ->]. apply Hnull. reflexivity.
Qed.

(** ** The approval that leaves its approver behind *)

(** C6 does not hold of the code.  Carol's taxi claim is created with the
    one step of her manager Bob; Bob approves it while the specific-approver
    rule asks for a role nobody in the chain has.  The state reached is
    Pending with Bob as current approver, and Bob has no pending step. *)
Theorem currentApprover_dangles :
  reachable taxiClaimStuck
  /\ Expense.status taxiClaimStuck = Expense.pending
  /\ Expense.currentApprover taxiClaimStuck = Some (User._id bob)
  /\ pendingStepsOf (User._id bob) (Expense.approvalFlow taxiClaimStuck) = 0
  /\ (currentApproverInvariant taxiClaimStuck -> False).
Proof.
  split.
  { apply (@reach_perform acmeCfo taxiClaim (Approve bob None decided)).
    - apply (@reach_create offline staff (Some acmeCfo) carol taxi).
      + exact staff_ids_unique.
      + vm_compute. reflexivity.
    - reflexivity. }
  repeat split.
  intros [H _]. specialize (H 2 eq_refl). discriminate H.
Qed.

(** ** Late and duplicate actions *)

(** C8, as the code has it.  An Approve or Reject by a user who is not the
    current approver, or who holds no pending step (a repeated approval
    included), or on an expense of the system that is already terminal,
    is answered with an error and leaves the stored expense as it was.  For
    a request that passes validation on an expense with a current approver,
    the error is the state error when the acting user is that approver and
    the authorization error otherwise. *)
Theorem late_action_fails
  (company : Company.t) (expense : Expense.t) (a : Action) :
  lateOrDuplicate expense (actor a) ->
  exists f,
    perform company expense a = Failed f
    /\ stored expense (perform company expense a) = expense
    /\ (passesValidation a = true ->
        forall current,
          Expense.currentApprover expense = Some current ->
          errorClass f
          = if current =? User._id (actor a)
            then StateError else AuthorizationError).
Proof.
  intros Hlate.
  assert (Hcase :
    Expense.currentApprover expense = None
    \/ (exists current, Expense.currentApprover expense = Some current
                        /\ current <> User._id (actor a))
    \/ (Expense.currentApprover expense = Some (User._id (actor a))
        /\ find (pendingFor (actor a)) (Expense.approvalFlow expense)
           = None)).
  { destruct (Expense.currentApprover expense) as [current |] eqn:Hcur;
      [| auto].
    destruct (Nat.eq_dec current (User._id (actor a))) as [-> | Hne];
      [| eauto].
    destruct Hlate as [H | [H | [Hreach Hterm]]].
    - congruence.
    - auto.
    - apply (reachable_terminal Hreach) in Hterm. congruence. }
  assert (Hfail : exists f, perform company expense a = Failed f
    /\ (passesValidation a = true ->
        forall current,
          Expense.currentApprover expense = Some current ->
          errorClass f
          = if current =? User._id (actor a)
            then StateError else AuthorizationError)).
  { destruct a as [reqUser comments now | reqUser comments now];
      simpl in *; unfold approve, reject;
      [| destruct (orEmpty comments =? "")%string;
         [eexists; split; [reflexivity | discriminate] |] ];
      (destruct Hcase as [Hnone | [[current [Hcur Hne]] | [Hcur Hfind]]];
       [ rewrite Hnone; eexists; split; [reflexivity | discriminate]
       | rewrite Hcur; apply Nat.eqb_neq in Hne; rewrite Hne; simpl;
         eexists; split; [reflexivity |];
         intros _ c Hc; injection Hc as <-; rewrite Hne; reflexivity
       | rewrite Hcur, Nat.eqb_refl, Hfind; simpl;
         eexists; split; [reflexivity |];
         intros _ c Hc; injection Hc as <-; rewrite Nat.eqb_refl;
         reflexivity ]). }
  destruct Hfail as [f [Hf Hclass]].
  exists f. rewrite Hf. simpl. auto.
Qed.

Lemma late_action_fails_witness :
  exists f,
    perform acmeDefault taxiClaimStuck (Approve bob None decided) = Failed f
    /\ stored taxiClaimStuck
         (perform acmeDefault taxiClaimStuck (Approve bob None decided))
       = taxiClaimStuck
    /\ (passesValidation (Approve bob None decided) = true ->
        forall current,
          Expense.currentApprover taxiClaimStuck = Some current ->
          errorClass f
          = if current =? User._id bob
            then StateError else AuthorizationError).
Proof.
  apply (@late_action_fails acmeDefault taxiClaimStuck
           (Approve bob None decided)).
  right. left. reflexivity.
Defined.

(** C8 fails as stated.  Alice, who is not the current approver of the taxi
    claim, is answered 403, the authorization error; and Bob's approval of
    the claim he has already rejected is answered 500.  Neither is the
    state error, though the stored expense stays as it was. *)
Lemma late_action_not_state_error :
  Expense.currentApprover taxiClaim <> Some (User._id alice)
  /\ perform acmeDefault taxiClaim (Approve alice None decided)
     = Failed NotAuthorized
  /\ httpStatus NotAuthorized = 403
  /\ errorClass NotAuthorized <> StateError
  /\ perform acmeDefault taxiClaim (Reject bob (Some "no receipt") decided)
     = Saved taxiClaimRejected
  /\ perform acmeDefault taxiClaimRejected (Approve bob None decided)
     = Failed ServerError
  /\ httpStatus ServerError = 500
  /\ errorClass ServerError <> StateError.
Proof. repeat split; discriminate. Qed.

(** ** Building the chain *)

Lemma pushNext_nonempty (u : User.t) (c : Chain.t) :
  Chain.approvalFlow (pushNext u c) <> [].
Proof.
  unfold pushNext. simpl. destruct (Chain.approvalFlow c); discriminate.
Qed.

Lemma managerStep_unassigned (users : list User.t) (user : User.t) :
  unassigned (managerStep users user).
Proof.
  unfold managerStep, unassigned.
  destruct (User.manager user) as [m |]; [| reflexivity].
  destruct (User.isManagerApprover user); [| reflexivity].
  destruct (findById users m); [discriminate | reflexivity].
Qed.

Lemma financeStep_unassigned (users : list User.t) (amount : Q)
  (company : Company.t) (c : Chain.t) :
  unassigned c -> unassigned (financeStep users amount company c).
Proof.
  intros H. unfold financeStep.
  destruct (Qle_bool _ _); [| exact H].
  destruct (find _ users) as [u |]; [| exact H].
  destruct (differsFrom _ _); [| exact H].
  intros E. destruct (pushNext_nonempty _ _ E).
Qed.

Lemma directorStep_unassigned (users : list User.t) (amount : Q)
  (company : Company.t) (c : Chain.t) :
  unassigned c -> unassigned (directorStep users amount company c).
Proof.
  intros H. unfold directorStep.
  destruct (Qle_bool _ _); [| exact H].
  destruct (find _ users) as [u |]; [| exact H].
  destruct (differsFrom _ _); [| exact H].
  intros E. destruct (pushNext_nonempty _ _ E).
Qed.

Lemma thresholdSteps_unassigned (users : list User.t) (amount : Q)
  (user : User.t) (company : Company.t) :
  unassigned (thresholdSteps users amount user company).
Proof.
  apply directorStep_unassigned, financeStep_unassigned,
    managerStep_unassigned.
Qed.

(** C7, as the code has it.  When the manager, finance and director steps
    produce no step and no admin is found for the fallback, a creation
    request that passes validation, conversion and the schema validators
    raises no error: the expense is saved Pending with an empty chain and
    no current approver. *)
Theorem create_without_approver
  (getCurrencyRates : RateService) (users : list User.t)
  (company : Company.t) (reqUser : User.t) (body : CreateBody.t)
  (convertedAmount : Q) :
  createBodyValid body = true ->
  convertCurrency getCurrencyRates (CreateBody.amount body)
    (CreateBody.originalCurrency body) (Company.currency company)
  = Some convertedAmount ->
  (0 <= CreateBody.amount body)%Q ->
  trim (CreateBody.description body) <> "" ->
  Chain.approvalFlow (thresholdSteps users convertedAmount reqUser company)
  = [] ->
  find (adminQuery company) users = None ->
  exists e,
    createExpense getCurrencyRates users (Some company) reqUser body = Saved e
    /\ Expense.approvalFlow e = []
    /\ Expense.currentApprover e = None
    /\ Expense.status e = Expense.pending.
Proof.
  intros Hvalid Hconv Hamount Hdesc Hsteps Hadmin.
  unfold createExpense. rewrite Hvalid, Hconv. simpl negb. cbv iota.
  unfold save, validates. simpl Expense.amount. simpl Expense.description.
  apply round_nonneg, Qle_bool_iff in Hamount. apply String.eqb_neq in Hdesc.
  rewrite Hamount, Hdesc. simpl.
  eexists. split; [reflexivity |].
  unfold setupApprovalFlow, adminFallback. simpl.
  rewrite Hsteps, Hadmin. simpl. rewrite Hsteps.
  repeat split.
  apply thresholdSteps_unassigned, Hsteps.
Qed.

Lemma create_without_approver_witness :
  exists e,
    createExpense offline [erin] (Some acmeDefault) erin taxi = Saved e
    /\ Expense.approvalFlow e = []
    /\ Expense.currentApprover e = None
    /\ Expense.status e = Expense.pending.
Proof.
  apply (@create_without_approver offline [erin] acmeDefault erin taxi 100).
  - reflexivity.
  - reflexivity.
  - discriminate.
  - discriminate.
  - reflexivity.
  - reflexivity.
Defined.

(** C7 fails as stated.  Erin has no manager, her claim of 100 is below
    both thresholds and the users collection holds no admin: the chain is
    empty, yet creation succeeds and saves the expense without any step. *)
Lemma chainless_expense_is_saved :
  Chain.approvalFlow (thresholdSteps [erin] 100 erin acmeDefault) = []
  /\ find (adminQuery acmeDefault) [erin] = None
  /\ createExpense offline [erin] (Some acmeDefault) erin taxi
     = Saved orphanClaim
  /\ Expense.approvalFlow orphanClaim = []
  /\ Expense.status orphanClaim = Expense.pending.
Proof. repeat split. Qed.

Lemma Qle_bool_eq (a b a' b' : Q) :
  (a == a')%Q -> (b == b')%Q -> Qle_bool a b = Qle_bool a' b'.
Proof.
  intros Ha Hb.
  destruct (Qle_bool a b) eqn:E, (Qle_bool a' b') eqn:E'; trivial.
  - apply Qle_bool_iff in E. rewrite Ha, Hb in E.
    apply Qle_bool_iff in E. congruence.
  - apply Qle_bool_iff in E'. rewrite <- Ha, <- Hb in E'.
    apply Qle_bool_iff in E'. congruence.
Qed.

(** C5.  An employee whose manager is set and found, with
    [isManagerApprover] true; a converted amount of 6000 against thresholds
    of 5000 (finance) and 10000 (director); a finance approver found who is
    not the manager.  The chain built is the manager at order 1 then the
    finance approver at order 2, both Pending, and the manager is the
    current approver. *)
Theorem setupApprovalFlow_manager_then_finance
  (users : list User.t) (expense : Expense.t) (user : User.t)
  (company : Company.t) (managerId : ObjectId)
  (manager financeManager : User.t) :
  User.manager user = Some managerId ->
  User.isManagerApprover user = true ->
  findById users managerId = Some manager ->
  (Expense.convertedAmount expense == 6000)%Q ->
  (Thresholds.financeApproval (Settings.thresholds (Company.settings company))
   == 5000)%Q ->
  (Thresholds.directorApproval
     (Settings.thresholds (Company.settings company)) == 10000)%Q ->
  find (financeQuery company) users = Some financeManager ->
  User._id financeManager <> User._id manager ->
  Expense.approvalFlow (setupApprovalFlow users expense user company)
  = [Flow.mk manager 1 Flow.pending None None;
     Flow.mk financeManager 2 Flow.pending None None]
  /\ Expense.currentApprover (setupApprovalFlow users expense user company)
     = Some (User._id manager).
Proof.
  intros Hm Hflag Hfound Hamount Hfin Hdir Hfm Hne.
  unfold setupApprovalFlow, thresholdSteps, directorStep, financeStep,
    managerStep.
  rewrite Hm, Hflag, Hfound. simpl.
  rewrite (Qle_bool_eq Hfin Hamount), (Qle_bool_eq Hdir Hamount).
  change (Qle_bool 5000 6000) with true.
  change (Qle_bool 10000 6000) with false.
  cbv iota. rewrite Hfm. simpl.
  apply Nat.eqb_neq in Hne. rewrite Hne. simpl. auto.
Qed.

Lemma setupApprovalFlow_manager_then_finance_witness :
  Expense.approvalFlow (setupApprovalFlow staff laptopClaim carol acmeDefault)
  = [Flow.mk bob 1 Flow.pending None None;
     Flow.mk dave 2 Flow.pending None None]
  /\ Expense.currentApprover
       (setupApprovalFlow staff laptopClaim carol acmeDefault)
     = Some (User._id bob).
Proof.
  apply (@setupApprovalFlow_manager_then_finance staff laptopClaim carol
           acmeDefault 2 bob dave).
  - reflexivity.
  - reflexivity.
  - reflexivity.
  - reflexivity.
  - reflexivity.
  - reflexivity.
  - reflexivity.
  - discriminate.
Defined.

(** ** Update *)

Lemma status_eqb_pending (s : Expense.status_t) :
  Expense.status_eqb s Expense.pending = true <-> s = Expense.pending.
Proof. destruct s; simpl; split; congruence. Qed.

Lemma save_saved (expense e' : Expense.t) :
  save expense = Saved e' -> e' = expense.
Proof.
  unfold save. destruct (validates expense); [| discriminate].
  intros H. injection H as <-. reflexivity.
Qed.

(** C10.  A successful Update happens on a pending expense and changes at
    most [amount], [convertedAmount], [category], [description] and
    [expenseDate]: the approval chain is not rebuilt, so [approvalFlow],
    [currentApprover], [status] and [approvalHistory] stay as they were,
    whatever the new amount. *)
Theorem update_frame
  (getCurrencyRates : RateService) (expense : Expense.t)
  (company : option Company.t) (reqUser : User.t) (body : UpdateBody.t)
  (e' : Expense.t) :
  updateExpense getCurrencyRates (Some expense) company reqUser body
  = Saved e' ->
  Expense.status expense = Expense.pending
  /\ Expense.approvalFlow e' = Expense.approvalFlow expense
  /\ Expense.currentApprover e' = Expense.currentApprover expense
  /\ Expense.status e' = Expense.status expense
  /\ Expense.approvalHistory e' = Expense.approvalHistory expense
  /\ e' = Expense.mk (Expense.employee expense) (Expense.company expense)
            (Expense.amount e') (Expense.originalCurrency expense)
            (Expense.convertedAmount e') (Expense.companyCurrency expense)
            (Expense.category e') (Expense.description e')
            (Expense.expenseDate e') (Expense.status expense)
            (Expense.currentApprover expense)
            (Expense.approvalHistory expense)
            (Expense.approvalFlow expense).
Proof.
  unfold updateExpense.
  destruct (_ || _); [discriminate |].
  destruct (_ && _); [discriminate |].
  destruct (Expense.status_eqb (Expense.status expense) Expense.pending)
    eqn:Hs; simpl; [| discriminate].
  apply status_eqb_pending in Hs.
  destruct (match UpdateBody.amount body with
            | Some _ => _
            | None => _
            end) as [amended |] eqn:Hamount; [| discriminate].
  intros H. apply save_saved in H. subst e'.
  assert (Hframe :
    amended
    = Expense.mk (Expense.employee expense) (Expense.company expense)
        (Expense.amount amended) (Expense.originalCurrency expense)
        (Expense.convertedAmount amended) (Expense.companyCurrency expense)
        (Expense.category expense) (Expense.description expense)
        (Expense.expenseDate expense) (Expense.status expense)
        (Expense.currentApprover expense) (Expense.approvalHistory expense)
        (Expense.approvalFlow expense)).
  { destruct expense.
    destruct (UpdateBody.amount body) as [newAmount |].
    - destruct (negb (Numeral.truthy newAmount)).
      + injection Hamount as <-. reflexivity.
      + destruct company as [c |]; [| discriminate].
        destruct (convertCurrency _ _ _ _); [| discriminate].
        injection Hamount as <-. reflexivity.
    - injection Hamount as <-. reflexivity. }
  rewrite Hframe.
  destruct (truthy (UpdateBody.category body)),
    (truthy (UpdateBody.description body)),
    (UpdateBody.expenseDate body); simpl; auto 10.
Qed.

Lemma update_frame_witness :
  Expense.status taxiClaim = Expense.pending
  /\ Expense.approvalFlow taxiClaimRaised = Expense.approvalFlow taxiClaim
  /\ Expense.currentApprover taxiClaimRaised
     = Expense.currentApprover taxiClaim
  /\ Expense.status taxiClaimRaised = Expense.status taxiClaim
  /\ Expense.approvalHistory taxiClaimRaised
     = Expense.approvalHistory taxiClaim
  /\ taxiClaimRaised
     = Expense.mk (Expense.employee taxiClaim) (Expense.company taxiClaim)
         (Expense.amount taxiClaimRaised) (Expense.originalCurrency taxiClaim)
         (Expense.convertedAmount taxiClaimRaised)
         (Expense.companyCurrency taxiClaim)
         (Expense.category taxiClaimRaised)
         (Expense.description taxiClaimRaised)
         (Expense.expenseDate taxiClaimRaised) (Expense.status taxiClaim)
         (Expense.currentApprover taxiClaim)
         (Expense.approvalHistory taxiClaim)
         (Expense.approvalFlow taxiClaim).
Proof.
  apply (@update_frame offline taxiClaim (Some acmeDefault) carol
           (UpdateBody.mk (Some (Numeral.number 20000)) None None None)
           taxiClaimRaised).
  reflexivity.
Defined.

(** The raised amount is above both thresholds: built anew, the chain of
    the raised claim would have three steps, but the stored chain is the
    one step of creation time. *)
Example update_keeps_chain_across_thresholds :
  updateExpense offline (Some taxiClaim) (Some acmeDefault) carol
    (UpdateBody.mk (Some (Numeral.number 20000)) None None None)
  = Saved taxiClaimRaised
  /\ Expense.approvalFlow taxiClaimRaised
     = [Flow.mk bob 1 Flow.pending None None]
  /\ Expense.approvalFlow
       (setupApprovalFlow staff taxiClaimRaised carol acmeDefault)
     = [Flow.mk bob 1 Flow.pending None None;
        Flow.mk dave 2 Flow.pending None None;
        Flow.mk alice 3 Flow.pending None None].
Proof. repeat split. Qed.

(** * Further properties of the workflow *)

(** ** One saved action *)

(** Every saved action is the [record] of its decision, with a status and a
    current approver chosen afterwards. *)
Lemma perform_saved (company : Company.t) (expense : Expense.t) (a : Action)
  (e' : Expense.t) :
  perform company expense a = Saved e' ->
  Expense.currentApprover expense = Some (User._id (actor a))
  /\ (exists found,
         find (pendingFor (actor a)) (Expense.approvalFlow expense)
         = Some found)
  /\ e' = Expense.set_currentApprover (Expense.currentApprover e')
            (Expense.set_status (Expense.status e')
               (record (decisionStatus a) (decisionAction a) (actor a)
                  (decisionComments a) (decisionTime a) expense)).
Proof.
  destruct a as [reqUser comments now | reqUser comments now]; simpl;
    intros H.
  - apply approve_saved in H.
    destruct H as [Hcur [found [Hfind Hcases]]].
    split; [exact Hcur |]. split; [eauto |].
    destruct Hcases as [-> | [[nextApproval [_ ->]] | ->]];
      try reflexivity.
    match goal with
    | |- context [noMoreApprovers ?r ?c] =>
        destruct (noMoreApprovers_cases r c) as [-> | ->]
    end; reflexivity.
  - pose proof (reject_saved _ _ _ _ H) as [Hcur ->].
    split; [exact Hcur |]. split; [| reflexivity].
    unfold reject in H.
    destruct (orEmpty comments =? "")%string; [discriminate |].
    rewrite Hcur, Nat.eqb_refl in H. simpl in H.
    destruct (find (pendingFor reqUser) (Expense.approvalFlow expense))
      as [found |]; [eauto | discriminate].
Qed.

Lemma pendingFor_iff (reqUser : User.t) (flow : Flow.t) :
  pendingFor reqUser flow = true
  <-> User._id (Flow.approver flow) = User._id reqUser
      /\ Flow.status flow = Flow.pending.
Proof.
  unfold pendingFor. rewrite andb_true_iff, Nat.eqb_eq, isPending_iff.
  tauto.
Qed.

(** The chain after a saved action: the first pending step of the acting
    user, stamped where it stood. *)
Lemma perform_flow (company : Company.t) (expense : Expense.t) (a : Action)
  (e' : Expense.t) :
  perform company expense a = Saved e' ->
  exists before found after,
    Expense.approvalFlow expense = (before ++ found :: after)%list
    /\ (forall y, In y before -> pendingFor (actor a) y = false)
    /\ pendingFor (actor a) found = true
    /\ Expense.approvalFlow e'
       = (before
          ++ stamp (decisionStatus a) (decisionComments a) (decisionTime a)
               found
          :: after)%list.
Proof.
  intros H. apply perform_saved in H.
  destruct H as [_ [[found Hfind] ->]].
  destruct (updateFirst_split (pendingFor (actor a))
              (stamp (decisionStatus a) (decisionComments a)
                 (decisionTime a)) _ Hfind)
    as [before [after [Hflow [Hb [Hx Hupd]]]]].
  exists before, found, after. simpl. auto.
Qed.

(** X1.  A saved Approve or Reject appends exactly one entry to the
    approval history - the acting user, the action, the trimmed comments
    and the time - and leaves the earlier entries as they were. *)
Theorem perform_appends_history
  (company : Company.t) (expense : Expense.t) (a : Action)
  (e' : Expense.t) :
  perform company expense a = Saved e' ->
  Expense.approvalHistory e'
  = (Expense.approvalHistory expense
     ++ [History.mk (User._id (actor a)) (decisionAction a)
           (trim (decisionComments a)) (decisionTime a)])%list.
Proof.
  intros H. apply perform_saved in H. destruct H as [_ [_ ->]].
  reflexivity.
Qed.

Lemma perform_appends_history_witness :
  Expense.approvalHistory taxiClaimRejected
  = (Expense.approvalHistory taxiClaim
     ++ [History.mk (User._id bob) History.rejected (trim "no receipt")
           decided])%list.
Proof.
  apply (@perform_appends_history acmeDefault taxiClaim
           (Reject bob (Some "no receipt") decided) taxiClaimRejected).
  reflexivity.
Defined.

(** X2.  A saved Approve or Reject rewrites one step only: the first
    pending step of the acting user gets the new status, the comments and
    the time, in place.  Every other step, every approver and order, and
    the expense's own data (employee, company, amounts, currencies,
    category, description, date) stay as they were. *)
Theorem perform_touches_one_step
  (company : Company.t) (expense : Expense.t) (a : Action)
  (e' : Expense.t) :
  perform company expense a = Saved e' ->
  (exists before found after,
      Expense.approvalFlow expense = (before ++ found :: after)%list
      /\ (forall y, In y before ->
                    ~ (User._id (Flow.approver y) = User._id (actor a)
                       /\ Flow.status y = Flow.pending))
      /\ User._id (Flow.approver found) = User._id (actor a)
      /\ Flow.status found = Flow.pending
      /\ Expense.approvalFlow e'
         = (before
            ++ Flow.mk (Flow.approver found) (Flow.order found)
                 (decisionStatus a) (Some (decisionComments a))
                 (Some (decisionTime a))
            :: after)%list)
  /\ Expense.employee e' = Expense.employee expense
  /\ Expense.company e' = Expense.company expense
  /\ Expense.amount e' = Expense.amount expense
  /\ Expense.originalCurrency e' = Expense.originalCurrency expense
  /\ Expense.convertedAmount e' = Expense.convertedAmount expense
  /\ Expense.companyCurrency e' = Expense.companyCurrency expense
  /\ Expense.category e' = Expense.category expense
  /\ Expense.description e' = Expense.description expense
  /\ Expense.expenseDate e' = Expense.expenseDate expense.
Proof.
  intros H. split.
  - destruct (perform_flow _ _ _ H)
      as [before [found [after [Hflow [Hb [Hx Hflow']]]]]].
    exists before, found, after.
    apply pendingFor_iff in Hx. destruct Hx as [Hid Hpend].
    repeat split; trivial.
    intros y Hy Hboth. apply pendingFor_iff in Hboth.
    rewrite (Hb y Hy) in Hboth. discriminate.
  - apply perform_saved in H. destruct H as [_ [_ ->]].
    repeat split.
Qed.

Lemma perform_touches_one_step_witness :
  (exists before found after,
      Expense.approvalFlow laptopClaim = (before ++ found :: after)%list
      /\ (forall y, In y before ->
                    ~ (User._id (Flow.approver y) = User._id bob
                       /\ Flow.status y = Flow.pending))
      /\ User._id (Flow.approver found) = User._id bob
      /\ Flow.status found = Flow.pending
      /\ Expense.approvalFlow
           (stored laptopClaim
              (perform acmeDefault laptopClaim (Approve bob None decided)))
         = (before
            ++ Flow.mk (Flow.approver found) (Flow.order found)
                 Flow.approved (Some "") (Some decided)
            :: after)%list)
  /\ Expense.employee
       (stored laptopClaim
          (perform acmeDefault laptopClaim (Approve bob None decided)))
     = Expense.employee laptopClaim
  /\ Expense.company
       (stored laptopClaim
          (perform acmeDefault laptopClaim (Approve bob None decided)))
     = Expense.company laptopClaim
  /\ Expense.amount
       (stored laptopClaim
          (perform acmeDefault laptopClaim (Approve bob None decided)))
     = Expense.amount laptopClaim
  /\ Expense.originalCurrency
       (stored laptopClaim
          (perform acmeDefault laptopClaim (Approve bob None decided)))
     = Expense.originalCurrency laptopClaim
  /\ Expense.convertedAmount
       (stored laptopClaim
          (perform acmeDefault laptopClaim (Approve bob None decided)))
     = Expense.convertedAmount laptopClaim
  /\ Expense.companyCurrency
       (stored laptopClaim
          (perform acmeDefault laptopClaim (Approve bob None decided)))
     = Expense.companyCurrency laptopClaim
  /\ Expense.category
       (stored laptopClaim
          (perform acmeDefault laptopClaim (Approve bob None decided)))
     = Expense.category laptopClaim
  /\ Expense.description
       (stored laptopClaim
          (perform acmeDefault laptopClaim (Approve bob None decided)))
     = Expense.description laptopClaim
  /\ Expense.expenseDate
       (stored laptopClaim
          (perform acmeDefault laptopClaim (Approve bob None decided)))
     = Expense.expenseDate laptopClaim.
Proof.
  apply (@perform_touches_one_step acmeDefault laptopClaim
           (Approve bob None decided)).
  reflexivity.
Defined.

(** ** Invariants of the expenses of the system *)

Lemma taxiClaimApproved_reachable : reachable taxiClaimApproved.
Proof.
  apply (@reach_perform acmeDefault taxiClaim (Approve bob None decided)).
  - exact taxiClaim_reachable.
  - reflexivity.
Qed.

Lemma taxiClaimRejected_reachable : reachable taxiClaimRejected.
Proof.
  apply (@reach_perform acmeDefault taxiClaim
           (Reject bob (Some "no receipt") decided)).
  - exact taxiClaim_reachable.
  - reflexivity.
Qed.

Lemma laptopClaimAdvanced_reachable : reachable laptopClaimAdvanced.
Proof.
  apply (@reach_perform acmeDefault laptopClaim (Approve bob None decided)).
  - exact laptopClaim_reachable.
  - reflexivity.
Qed.

Lemma createExpense_fresh (getCurrencyRates : RateService)
  (users : list User.t) (company : option Company.t) (reqUser : User.t)
  (body : CreateBody.t) (e : Expense.t) :
  NoDup (map User._id users) ->
  createExpense getCurrencyRates users company reqUser body = Saved e ->
  freshChain e
  /\ Expense.status e = Expense.pending
  /\ Expense.approvalHistory e = [].
Proof.
  intros Hnd H. unfold createExpense in H.
  destruct (createBodyValid body); simpl in H; [| discriminate].
  destruct company as [c |]; [| discriminate].
  destruct (convertCurrency _ _ _ _) as [convertedAmount |];
    [| discriminate].
  apply save_saved in H. subst e.
  split; [apply setupApprovalFlow_fresh, Hnd |]. split; reflexivity.
Qed.

Lemma isDecided_stamp (a : Action) (found : Flow.t) :
  isDecided (stamp (decisionStatus a) (decisionComments a) (decisionTime a)
               found) = true.
Proof. destruct a; reflexivity. Qed.

Lemma decided_count_insert (before after : list Flow.t) (x : Flow.t) :
  List.length (filter isDecided (before ++ x :: after))
  = (if isDecided x then 1 else 0)
    + List.length (filter isDecided (before ++ after)).
Proof.
  rewrite !filter_app, !length_app. simpl.
  destruct (isDecided x); simpl; lia.
Qed.

(** X3.  In every expense reachable by Create, Approve and Reject the
    approval history has as many entries as the chain has decided (not
    pending) steps: no step is decided without its history entry and no
    entry is logged without a step. *)
Theorem history_counts_decisions (e : Expense.t) :
  reachable e ->
  List.length (Expense.approvalHistory e)
  = List.length (filter isDecided (Expense.approvalFlow e)).
Proof.
  induction 1 as [rates users company reqUser body e Hnd H
                 | company e a e' _ IH H].
  - destruct (createExpense_fresh _ _ _ _ _ Hnd H) as [[Hp _] [_ ->]].
    simpl. symmetry. apply length_zero_iff_nil.
    induction Hp as [| x l Hx _ IHl]; simpl; [reflexivity |].
    unfold isDecided, isPending. rewrite Hx. exact IHl.
  - rewrite (perform_appends_history _ _ _ H), length_app. simpl.
    destruct (perform_flow _ _ _ H)
      as [before [found [after [Hflow [_ [Hx ->]]]]]].
    rewrite IH, Hflow, !decided_count_insert, isDecided_stamp.
    apply pendingFor_iff in Hx. destruct Hx as [_ Hpend].
    replace (isDecided found) with false; [lia |].
    unfold isDecided, isPending. rewrite Hpend. reflexivity.
Qed.

Lemma history_counts_decisions_witness :
  List.length (Expense.approvalHistory laptopClaimAdvanced)
  = List.length (filter isDecided (Expense.approvalFlow laptopClaimAdvanced)).
Proof.
  apply (@history_counts_decisions laptopClaimAdvanced).
  exact laptopClaimAdvanced_reachable.
Defined.

Lemma stamp_not_skipped (a : Action) (found : Flow.t) :
  Flow.status (stamp (decisionStatus a) (decisionComments a)
                 (decisionTime a) found) <> Flow.skipped.
Proof. destruct a; discriminate. Qed.

(** X4.  Two values the schema declares are never produced: no expense
    reachable by Create, Approve and Reject has status
    [partially_approved], and none of its steps has status [skipped]. *)
Theorem unused_statuses (e : Expense.t) :
  reachable e ->
  Expense.status e <> Expense.partially_approved
  /\ Forall (fun step => Flow.status step <> Flow.skipped)
            (Expense.approvalFlow e).
Proof.
  induction 1 as [rates users company reqUser body e Hnd H
                 | company e a e' _ [IHs IHf] H].
  - destruct (createExpense_fresh _ _ _ _ _ Hnd H) as [[Hp _] [-> _]].
    split; [discriminate |].
    eapply Forall_impl; [| exact Hp]. simpl. intros step ->. discriminate.
  - split.
    + destruct a as [reqUser comments now | reqUser comments now];
        simpl in H.
      * apply approve_saved in H.
        destruct H as [_ [found [_ [-> | [[next [_ ->]] | ->]]]]];
          [discriminate | exact IHs |].
        match goal with
        | |- context [noMoreApprovers ?r ?c] =>
            destruct (noMoreApprovers_cases r c) as [-> | ->]
        end; [discriminate | exact IHs].
      * apply reject_saved in H. destruct H as [_ ->]. discriminate.
    + destruct (perform_flow _ _ _ H)
        as [before [found [after [Hflow [_ [_ ->]]]]]].
      rewrite Hflow in IHf. apply Forall_app in IHf.
      destruct IHf as [Hb Ha]. apply Forall_cons_iff in Ha.
      apply Forall_app. split; [exact Hb |].
      constructor; [apply stamp_not_skipped | tauto].
Qed.

Lemma unused_statuses_witness :
  Expense.status taxiClaimRejected <> Expense.partially_approved
  /\ Forall (fun step => Flow.status step <> Flow.skipped)
            (Expense.approvalFlow taxiClaimRejected).
Proof.
  apply (@unused_statuses taxiClaimRejected).
  exact taxiClaimRejected_reachable.
Defined.

Lemma acted_on_pending (company : Company.t) (e : Expense.t) (a : Action)
  (e' : Expense.t) :
  reachable e ->
  perform company e a = Saved e' ->
  Expense.status e = Expense.pending.
Proof.
  intros Hreach H. apply perform_saved in H. destruct H as [Hcur _].
  destruct (Expense.status e) eqn:Es; trivial;
    (assert (Hne : Expense.status e <> Expense.pending) by congruence;
     apply (reachable_terminal Hreach) in Hne; congruence).
Qed.

Lemma perform_status (company : Company.t) (e : Expense.t) (a : Action)
  (e' : Expense.t) :
  perform company e a = Saved e' ->
  match a with
  | Approve _ _ _ =>
      Expense.status e' = Expense.approved
      \/ Expense.status e' = Expense.status e
  | Reject _ _ _ => Expense.status e' = Expense.rejected
  end.
Proof.
  destruct a as [reqUser comments now | reqUser comments now]; simpl;
    intros H.
  - apply approve_saved in H.
    destruct H as [_ [found [_ [-> | [[next [_ ->]] | ->]]]]]; auto.
    match goal with
    | |- context [noMoreApprovers ?r ?c] =>
        destruct (noMoreApprovers_cases r c) as [-> | ->]
    end; auto.
  - apply reject_saved in H. destruct H as [_ ->]. reflexivity.
Qed.

(** X5.  The status of an expense of the system agrees with its steps: it
    is Rejected exactly when some step is Rejected, and when it is Approved
    some step is Approved (and, by the first part, none is Rejected). *)
Theorem verdict_matches_steps (e : Expense.t) :
  reachable e ->
  (Expense.status e = Expense.rejected
   <-> exists step, In step (Expense.approvalFlow e)
                    /\ Flow.status step = Flow.rejected)
  /\ (Expense.status e = Expense.approved ->
      exists step, In step (Expense.approvalFlow e)
                   /\ Flow.status step = Flow.approved).
Proof.
  induction 1 as [rates users company reqUser body e Hnd H
                 | company e a e' Hreach [IHr _] H].
  - destruct (createExpense_fresh _ _ _ _ _ Hnd H) as [[Hp _] [Hs _]].
    rewrite Hs. rewrite Forall_forall in Hp.
    split; [split |]; try discriminate.
    intros [step [Hin Hrej]]. rewrite (Hp step Hin) in Hrej. discriminate.
  - pose proof (acted_on_pending _ _ Hreach H) as Hpend.
    pose proof (perform_status _ _ _ H) as Hstatus.
    destruct (perform_flow _ _ _ H)
      as [before [found [after [Hflow [_ [_ Hflow']]]]]].
    assert (Hclean : forall step, In step (before ++ after)%list ->
                                  Flow.status step <> Flow.rejected).
    { intros step Hin Hrej.
      assert (Expense.status e = Expense.rejected); [| congruence].
      apply IHr. exists step. split; [| exact Hrej].
      rewrite Hflow. apply in_app_iff. apply in_app_iff in Hin.
      simpl. tauto. }
    rewrite Hflow'.
    clear H.
    destruct a as [reqUser comments now | reqUser comments now];
      simpl in Hstatus; simpl.
    + split; [split |].
      * intros Hr. destruct Hstatus; congruence.
      * intros [step [Hin Hrej]]. apply in_app_iff in Hin.
        destruct Hin as [Hin | [<- | Hin]]; [| discriminate |];
          destruct (Hclean step); trivial; apply in_app_iff; auto.
      * intros _. exists (stamp Flow.approved (orEmpty comments) now found).
        split; [| reflexivity].
        apply in_app_iff. right. left. reflexivity.
    + split; [split |].
      * intros _. exists (stamp Flow.rejected (orEmpty comments) now found).
        split; [| reflexivity].
        apply in_app_iff. right. left. reflexivity.
      * intros _. exact Hstatus.
      * congruence.
Qed.

Lemma verdict_matches_steps_witness :
  (Expense.status taxiClaimRejected = Expense.rejected
   <-> exists step, In step (Expense.approvalFlow taxiClaimRejected)
                    /\ Flow.status step = Flow.rejected)
  /\ (Expense.status taxiClaimRejected = Expense.approved ->
      exists step, In step (Expense.approvalFlow taxiClaimRejected)
                   /\ Flow.status step = Flow.approved).
Proof.
  apply (@verdict_matches_steps taxiClaimRejected).
  exact taxiClaimRejected_reachable.
Defined.

(** ** Approvals follow the chain *)

Lemma updateFirst_at {A : Type} (p : A -> bool) (f : A -> A)
  (before after : list A) (x : A) :
  (forall y, In y before -> p y = false) ->
  p x = true ->
  updateFirst p f (before ++ x :: after) = (before ++ f x :: after)%list
  /\ find p (before ++ x :: after) = Some x.
Proof.
  intros Hb Hx. induction before as [| b rest IH]; simpl.
  - rewrite Hx. auto.
  - rewrite (Hb b) by (left; reflexivity).
    destruct IH as [-> ->]; [intros y Hy; apply Hb; right; exact Hy |].
    auto.
Qed.

Lemma find_skip {A : Type} (p : A -> bool) (before after : list A) :
  (forall y, In y before -> p y = false) ->
  find p (before ++ after) = find p after.
Proof.
  intros Hb. induction before as [| b rest IH]; simpl; [reflexivity |].
  rewrite (Hb b) by (left; reflexivity).
  apply IH. intros y Hy. apply Hb. right. exact Hy.
Qed.

Lemma same_approver (steps : list Flow.t) (x y : Flow.t) :
  NoDup (approverIds steps) ->
  In x steps -> In y steps ->
  User._id (Flow.approver x) = User._id (Flow.approver y) -> x = y.
Proof.
  unfold approverIds.
  induction steps as [| a rest IH]; simpl; [intros _ [] |].
  intros Hnd Hx Hy Heq.
  apply NoDup_cons_iff in Hnd. destruct Hnd as [Hnotin Hrest].
  destruct Hx as [<- | Hx], Hy as [<- | Hy]; trivial.
  - destruct Hnotin. rewrite Heq.
    apply (in_map (fun step => User._id (Flow.approver step))), Hy.
  - destruct Hnotin. rewrite <- Heq.
    apply (in_map (fun step => User._id (Flow.approver step))), Hx.
  - apply IH; trivial.
Qed.

Lemma ordered_after (before after : list Flow.t) (x : Flow.t) :
  ordered (before ++ x :: after) ->
  Forall (fun y => Flow.order x < Flow.order y) after.
Proof.
  unfold ordered. induction before as [| b rest IH]; simpl; intros H;
    apply StronglySorted_inv in H; destruct H as [Hrest Hall].
  - rewrite Forall_forall in *. intros y Hy.
    apply Hall, in_map, Hy.
  - apply IH, Hrest.
Qed.

Lemma not_pending_after (current : Flow.t) (steps : list Flow.t) :
  Forall (fun step => Flow.status step <> Flow.pending) steps ->
  forall y, In y steps -> pendingAfter current y = false.
Proof.
  intros H y Hy. rewrite Forall_forall in H. specialize (H y Hy).
  destruct (pendingAfter current y) eqn:E; [| reflexivity].
  apply pendingAfter_iff in E. tauto.
Qed.

Lemma not_pending_for (reqUser : User.t) (steps : list Flow.t) :
  Forall (fun step => Flow.status step <> Flow.pending) steps ->
  forall y, In y steps -> pendingFor reqUser y = false.
Proof.
  intros H y Hy. rewrite Forall_forall in H. specialize (H y Hy).
  destruct (pendingFor reqUser y) eqn:E; [| reflexivity].
  apply pendingFor_iff in E. tauto.
Qed.

Lemma reachable_queued (e : Expense.t) : reachable e -> queued e.
Proof.
  induction 1 as [rates users company reqUser body e Hnd H
                 | company e a e' Hreach IH H].
  - destruct (createExpense_fresh _ _ _ _ _ Hnd H)
      as [[Hp [Hdistinct Hcur]] _].
    exists [], (Expense.approvalFlow e). simpl.
    repeat split; trivial.
    intros id step Hid Hin Hstep. rewrite Hcur in Hid.
    destruct (Expense.approvalFlow e) as [| first rest] eqn:E;
      [discriminate |].
    injection Hid as <-. exists rest. f_equal.
    symmetry. apply (@same_approver _ _ _ Hdistinct); simpl; auto.
  - destruct IH as [done [todo [Hflow [Hdone [Htodo Hhead]]]]].
    pose proof (reachable_distinct Hreach) as Hdistinct.
    pose proof (reachable_ordered Hreach) as Hordered.
    pose proof (perform_saved _ _ _ H) as [Hcur [[found Hfind] He']].
    pose proof (find_some _ _ Hfind) as [Hin Hp].
    pose proof Hp as Hp'. apply pendingFor_iff in Hp'.
    destruct Hp' as [Hid Hpend].
    assert (Htodo' : exists rest, todo = found :: rest).
    { apply (Hhead (User._id (actor a))); trivial.
      rewrite Hflow in Hin. apply in_app_iff in Hin.
      destruct Hin as [Hin | Hin]; [| exact Hin].
      rewrite Forall_forall in Hdone. destruct (Hdone found Hin Hpend). }
    destruct Htodo' as [rest ->].
    apply Forall_cons_iff in Htodo. destruct Htodo as [_ Hrest].
    set (stamped := stamp (decisionStatus a) (decisionComments a)
                      (decisionTime a) found) in *.
    assert (Hflow' : Expense.approvalFlow e'
                     = (done ++ stamped :: rest)%list).
    { rewrite He'. simpl. rewrite Hflow.
      apply updateFirst_at; [apply not_pending_for, Hdone | exact Hp]. }
    assert (Hstamped : Flow.status stamped <> Flow.pending)
      by (unfold stamped; destruct a; discriminate).
    exists (done ++ [stamped])%list, rest.
    split; [rewrite Hflow', <- app_assoc; reflexivity |].
    split; [apply Forall_app; auto |].
    split; [exact Hrest |].
    intros id step Hid' Hstep Hsame.
    assert (Hstuck : id <> User._id (actor a)).
    { intros ->. rewrite Hflow in Hdistinct. unfold approverIds in Hdistinct.
      rewrite map_app in Hdistinct. simpl in Hdistinct.
      apply NoDup_remove_2 in Hdistinct. apply Hdistinct.
      apply in_app_iff. right. rewrite Hid, <- Hsame.
      apply (in_map (fun s => User._id (Flow.approver s))), Hstep. }
    destruct a as [reqUser comments now | reqUser comments now];
      simpl in H.
    + apply approve_saved in H.
      destruct H as [_ [found' [Hfind' Hcases]]].
      simpl in Hfind. rewrite Hfind in Hfind'. injection Hfind' as <-.
      destruct Hcases as [-> | [[next [Hnext ->]] | ->]].
      * discriminate.
      * simpl in Hid'. injection Hid' as <-.
        simpl in Hnext. rewrite Hflow in Hnext.
        destruct (@updateFirst_at _ (pendingFor reqUser)
                    (stamp Flow.approved (orEmpty comments) now) done rest
                    found (not_pending_for reqUser Hdone) Hp) as [Hupd _].
        simpl in Hupd. rewrite Hupd in Hnext.
        rewrite find_skip in Hnext by (apply not_pending_after, Hdone).
        cbn [find] in Hnext.
        assert (Hself : pendingAfter
                          (stamp Flow.approved (orEmpty comments) now found)
                          (stamp Flow.approved (orEmpty comments) now found)
                        = false) by reflexivity.
        rewrite Hself in Hnext.
        destruct rest as [| r1 rest1]; [discriminate |].
        rewrite Hflow in Hordered. apply ordered_after in Hordered.
        apply Forall_inv in Hordered. apply Forall_inv in Hrest.
        cbn [find] in Hnext.
        assert (Hr1 : pendingAfter
                        (stamp Flow.approved (orEmpty comments) now found)
                        r1 = true)
          by (apply pendingAfter_iff; simpl; auto).
        rewrite Hr1 in Hnext. injection Hnext as <-.
        exists rest1. f_equal. symmetry.
        apply (@same_approver _ _ _ Hdistinct); trivial; rewrite Hflow;
          apply in_app_iff; right; right; simpl; auto.
      * match goal with
        | H : Expense.currentApprover (noMoreApprovers ?r ?c) = _ |- _ =>
            destruct (noMoreApprovers_cases r c) as [E | E];
              rewrite E in H
        end; [discriminate |].
        simpl in Hid'. rewrite Hcur in Hid'. injection Hid' as <-.
        destruct Hstuck. reflexivity.
    + apply reject_saved in H. destruct H as [_ ->]. discriminate.
Qed.

(** X6.  Approvals follow the chain.  In every expense reachable by
    Create, Approve and Reject the decided steps are a prefix of the chain
    and the pending steps its rest, and a pending step of the current
    approver is the first pending step. *)
Theorem approvals_follow_the_chain (e : Expense.t) :
  reachable e ->
  exists done todo,
    Expense.approvalFlow e = (done ++ todo)%list
    /\ Forall (fun step => Flow.status step <> Flow.pending) done
    /\ Forall (fun step => Flow.status step = Flow.pending) todo
    /\ forall id step,
        Expense.currentApprover e = Some id ->
        In step todo ->
        User._id (Flow.approver step) = id ->
        exists rest, todo = step :: rest.
Proof.
  intros Hreach.
  destruct (reachable_queued Hreach)
    as [done [todo [Hflow [Hdone [Htodo Hhead]]]]].
  exists done, todo.
  split; [exact Hflow |]. split; [exact Hdone |]. split; [exact Htodo |].
  intros id step Hcur Hin Hid. exact (Hhead id step Hcur Hin Hid).
Qed.

Lemma approvals_follow_the_chain_witness :
  exists done todo,
    Expense.approvalFlow laptopClaimAdvanced = (done ++ todo)%list
    /\ Forall (fun step => Flow.status step <> Flow.pending) done
    /\ Forall (fun step => Flow.status step = Flow.pending) todo
    /\ forall id step,
        Expense.currentApprover laptopClaimAdvanced = Some id ->
        In step todo ->
        User._id (Flow.approver step) = id ->
        exists rest, todo = step :: rest.
Proof.
  apply (@approvals_follow_the_chain laptopClaimAdvanced).
  exact laptopClaimAdvanced_reachable.
Defined.

(** ** Decided expenses, and who may touch an expense *)

(** X7.  A decision is final.  Once an expense of the system has left
    status Pending, every Approve, Reject, Update and Delete request on it
    is answered with an error, whoever sends it and whatever it carries:
    the stored expense can no longer change or disappear. *)
Theorem decided_is_final (e : Expense.t) :
  reachable e ->
  Expense.status e <> Expense.pending ->
  (forall company a, exists f, perform company e a = Failed f)
  /\ (forall getCurrencyRates company reqUser body,
         exists f,
           updateExpense getCurrencyRates (Some e) company reqUser body
           = Failed f)
  /\ (forall reqUser, exists f, deleteExpense (Some e) reqUser = Refused f).
Proof.
  intros Hreach Hterm.
  pose proof (reachable_terminal Hreach Hterm) as Hcur.
  assert (Hs : Expense.status_eqb (Expense.status e) Expense.pending = false).
  { destruct (Expense.status_eqb _ _) eqn:E; [| reflexivity].
    apply status_eqb_pending in E. contradiction. }
  split; [| split].
  - intros company [reqUser comments now | reqUser comments now]; simpl.
    + unfold approve. rewrite Hcur. eauto.
    + unfold reject. rewrite Hcur.
      destruct (orEmpty comments =? "")%string; eauto.
  - intros rates company reqUser body. unfold updateExpense.
    destruct (_ || _); [eauto |].
    destruct (_ && _); [eauto |].
    rewrite Hs. simpl. eauto.
  - intros reqUser. unfold deleteExpense.
    destruct (foreignEmployee e reqUser); [eauto |].
    rewrite Hs. simpl. eauto.
Qed.

Lemma decided_is_final_witness :
  (forall company a, exists f, perform company taxiClaimApproved a = Failed f)
  /\ (forall getCurrencyRates company reqUser body,
         exists f,
           updateExpense getCurrencyRates (Some taxiClaimApproved) company
             reqUser body
           = Failed f)
  /\ (forall reqUser,
         exists f, deleteExpense (Some taxiClaimApproved) reqUser = Refused f).
Proof.
  apply (@decided_is_final taxiClaimApproved).
  - exact taxiClaimApproved_reachable.
  - discriminate.
Defined.

(** X8.  An employee reaches only their own expenses.  For a user of role
    employee who is not the expense's employee, reading and deleting it are
    answered 403, updating it is answered with an error, and the expense is
    in no list the user is sent. *)
Theorem employee_sees_own_only (e : Expense.t) (reqUser : User.t) :
  User.role reqUser = "employee" ->
  Expense.employee e <> User._id reqUser ->
  getExpense (Some e) reqUser = Refused NotAuthorized
  /\ deleteExpense (Some e) reqUser = Refused NotAuthorized
  /\ (forall getCurrencyRates company body,
         exists f,
           updateExpense getCurrencyRates (Some e) company reqUser body
           = Failed f
           /\ (f = ValidationFailed \/ f = NotAuthorized))
  /\ (forall users expenses, ~ In e (listExpenses users expenses reqUser)).
Proof.
  intros Hrole Hother.
  assert (Hforeign : foreignEmployee e reqUser = true).
  { unfold foreignEmployee. rewrite Hrole. simpl.
    apply negb_true_iff, Nat.eqb_neq, Hother. }
  repeat split.
  - unfold getExpense. rewrite Hforeign. reflexivity.
  - unfold deleteExpense. rewrite Hforeign. reflexivity.
  - intros rates company body. unfold updateExpense.
    destruct (_ || _); [eauto |].
    unfold foreignEmployee in Hforeign. rewrite Hforeign. eauto.
  - intros users expenses Hin. unfold listExpenses in Hin.
    apply filter_In in Hin. destruct Hin as [_ Hq].
    rewrite Hrole in Hq. simpl in Hq.
    apply andb_true_iff in Hq. destruct Hq as [_ Hq].
    apply Nat.eqb_eq in Hq. contradiction.
Qed.

Lemma employee_sees_own_only_witness :
  getExpense (Some taxiClaim) erin = Refused NotAuthorized
  /\ deleteExpense (Some taxiClaim) erin = Refused NotAuthorized
  /\ (forall getCurrencyRates company body,
         exists f,
           updateExpense getCurrencyRates (Some taxiClaim) company erin body
           = Failed f
           /\ (f = ValidationFailed \/ f = NotAuthorized))
  /\ (forall users expenses, ~ In taxiClaim (listExpenses users expenses erin)).
Proof.
  apply (@employee_sees_own_only taxiClaim erin).
  - reflexivity.
  - discriminate.
Defined.

(** X9.  Delete goes through exactly when the expense is Pending and the
    user is not an employee other than its owner.  Nothing else is asked:
    a manager or an admin deletes any pending expense, of any employee and
    of any company. *)
Theorem deleteExpense_allowed (e : Expense.t) (reqUser : User.t) :
  deleteExpense (Some e) reqUser = Sent tt
  <-> Expense.status e = Expense.pending
      /\ (User.role reqUser = "employee" ->
          Expense.employee e = User._id reqUser).
Proof.
  unfold deleteExpense, foreignEmployee.
  destruct (User.role reqUser =? "employee")%string eqn:Er;
    [apply String.eqb_eq in Er | apply String.eqb_neq in Er];
    destruct (Expense.employee e =? User._id reqUser) eqn:Ee;
    [apply Nat.eqb_eq in Ee | apply Nat.eqb_neq in Ee
     | apply Nat.eqb_eq in Ee | apply Nat.eqb_neq in Ee];
    destruct (Expense.status e); simpl;
    split; try discriminate; try tauto;
    try (intros [Hs _]; discriminate);
    try (intros [_ Ho]; specialize (Ho Er); contradiction).
Qed.

(** ** The list of pending approvals *)

Lemma filter_nil_of_find {A : Type} (p : A -> bool) (l : list A) :
  find p l = None -> filter p l = [].
Proof.
  induction l as [| a rest IH]; simpl; [reflexivity |].
  destruct (p a); [discriminate | exact IH].
Qed.

Lemma pendingApprovals_In (expenses : list Expense.t) (reqUser : User.t)
  (e : Expense.t) :
  In e (pendingApprovals expenses reqUser) ->
  Expense.company e = User.company reqUser
  /\ Expense.currentApprover e = Some (User._id reqUser)
  /\ Expense.status e = Expense.pending.
Proof.
  unfold pendingApprovals, isCurrentApprover. intros H.
  apply filter_In in H. destruct H as [_ H].
  rewrite !andb_true_iff in H. destruct H as [[Hc Ha] Hs].
  apply Nat.eqb_eq in Hc. apply status_eqb_pending in Hs.
  destruct (Expense.currentApprover e) as [id |]; [| discriminate].
  apply Nat.eqb_eq in Ha. subst id. auto.
Qed.

(** X10.  What is listed can be decided.  When the invariant of
    [currentApprover] holds of an expense, the user whose list of pending
    approvals shows it can approve it, and can reject it with a comment:
    both requests are saved. *)
Theorem listed_is_actionable
  (expenses : list Expense.t) (reqUser : User.t) (e : Expense.t) :
  currentApproverInvariant e ->
  In e (pendingApprovals expenses reqUser) ->
  (forall company comments now,
      exists e', perform company e (Approve reqUser comments now) = Saved e')
  /\ (forall company comments now,
         comments <> "" ->
         exists e',
           perform company e (Reject reqUser (Some comments) now) = Saved e').
Proof.
  intros [Hinv _] Hin.
  apply pendingApprovals_In in Hin. destruct Hin as [_ [Hcur _]].
  specialize (Hinv _ Hcur). unfold pendingStepsOf in Hinv.
  destruct (find (pendingFor reqUser) (Expense.approvalFlow e))
    as [found |] eqn:Hfind.
  2:{ apply filter_nil_of_find in Hfind. unfold pendingFor in Hfind.
      rewrite Hfind in Hinv. discriminate. }
  split.
  - intros company comments now. simpl. unfold approve.
    rewrite Hcur, Nat.eqb_refl, Hfind. simpl negb. cbv iota zeta.
    destruct (checkApprovalCriteria _ _); [eauto |].
    destruct (find (pendingAfter _) _); eauto.
  - intros company comments now Hc. simpl. unfold reject. simpl orEmpty.
    apply String.eqb_neq in Hc.
    rewrite Hc, Hcur, Nat.eqb_refl, Hfind. simpl. eauto.
Qed.

Lemma listed_is_actionable_witness :
  (forall company comments now,
      exists e',
        perform company laptopClaimAdvanced (Approve dave comments now)
        = Saved e')
  /\ (forall company comments now,
         comments <> "" ->
         exists e',
           perform company laptopClaimAdvanced
             (Reject dave (Some comments) now) = Saved e').
Proof.
  apply (@listed_is_actionable ledger dave laptopClaimAdvanced).
  - split.
    + intros id Hid. injection Hid as <-. reflexivity.
    + intros [H | H]; discriminate.
  - left. reflexivity.
Defined.

Lemma no_second_step (before after : list Flow.t) (found : Flow.t)
  (reqUser : User.t) (s : Flow.status_t) (c : string) (now : Date) :
  NoDup (approverIds (before ++ found :: after)) ->
  User._id (Flow.approver found) = User._id reqUser ->
  s <> Flow.pending ->
  find (pendingFor reqUser) (before ++ stamp s c now found :: after) = None.
Proof.
  intros Hnd Hid Hs. apply find_none_iff. intros y Hy.
  destruct (pendingFor reqUser y) eqn:E; [| reflexivity].
  apply pendingFor_iff in E. destruct E as [Hy_id Hy_pending].
  unfold approverIds in Hnd. rewrite map_app in Hnd. simpl in Hnd.
  apply NoDup_remove_2 in Hnd. rewrite <- map_app in Hnd.
  apply in_app_iff in Hy. destruct Hy as [Hy | [<- | Hy]].
  - destruct Hnd. rewrite Hid, <- Hy_id.
    apply (in_map (fun step => User._id (Flow.approver step))).
    apply in_app_iff. auto.
  - simpl in Hy_pending. contradiction.
  - destruct Hnd. rewrite Hid, <- Hy_id.
    apply (in_map (fun step => User._id (Flow.approver step))).
    apply in_app_iff. auto.
Qed.

(** X11.  Nobody is asked twice.  After a saved Approve or Reject on an
    expense of the system, under a company whose specific-approver rule is
    off, the user who acted is no longer its current approver: put in any
    collection, the saved expense adds nothing to that user's list of
    pending approvals. *)
Theorem acted_leaves_the_list
  (company : Company.t) (e : Expense.t) (a : Action) (e' : Expense.t)
  (others : list Expense.t) :
  reachable e ->
  SpecificApproverRule.enabled
    (ApprovalRules.specificApproverRule
       (Settings.approvalRules (Company.settings company))) = false ->
  perform company e a = Saved e' ->
  isCurrentApprover e' (actor a) = false
  /\ pendingApprovals (e' :: others) (actor a)
     = pendingApprovals others (actor a).
Proof.
  intros Hreach Hoff H.
  assert (Hnot : isCurrentApprover e' (actor a) = false).
  { destruct (isCurrentApprover e' (actor a)) eqn:Hin; [| reflexivity].
    unfold isCurrentApprover in Hin.
    destruct (Expense.currentApprover e') as [id |] eqn:Hcur;
      [| discriminate].
    apply Nat.eqb_eq in Hin. subst id.
    destruct (@perform_invariant company e a e' Hreach Hoff H) as [Hinv _].
    specialize (Hinv _ Hcur). unfold pendingStepsOf in Hinv.
    destruct (perform_flow _ _ _ H)
      as [before [found [after [Hflow [_ [Hx Hflow']]]]]].
    apply pendingFor_iff in Hx. destruct Hx as [Hid _].
    pose proof (reachable_distinct Hreach) as Hnd. rewrite Hflow in Hnd.
    assert (Hs : decisionStatus a <> Flow.pending)
      by (destruct a; discriminate).
    pose proof (@no_second_step before after found (actor a)
                  (decisionStatus a) (decisionComments a)
                  (decisionTime a) Hnd Hid Hs) as Hnone.
    rewrite <- Hflow' in Hnone. apply filter_nil_of_find in Hnone.
    unfold pendingFor in Hnone. rewrite Hnone in Hinv. discriminate. }
  split; [exact Hnot |].
  unfold pendingApprovals. simpl. rewrite Hnot.
  rewrite andb_false_r. reflexivity.
Qed.

Lemma acted_leaves_the_list_witness :
  isCurrentApprover laptopClaimAdvanced (actor (Approve bob None decided))
  = false
  /\ pendingApprovals (laptopClaimAdvanced :: ledger)
       (actor (Approve bob None decided))
     = pendingApprovals ledger (actor (Approve bob None decided)).
Proof.
  apply (@acted_leaves_the_list acmeDefault laptopClaim
           (Approve bob None decided) laptopClaimAdvanced ledger).
  - exact laptopClaim_reachable.
  - reflexivity.
  - reflexivity.
Defined.

(** ** Approval statistics *)

Lemma ratio_bounds (a t : nat) :
  a <= t -> 0 < t ->
  (0 <= Double.mul (Double.div (ofNat a) (ofNat t)) 100
   /\ Double.mul (Double.div (ofNat a) (ofNat t)) 100 <= 100)%Q.
Proof.
  intros Hat Ht. split; [apply ratio_nonneg |].
  assert (Hq : (ofNat a / ofNat t <= 1)%Q).
  { apply Qle_shift_div_r; [apply ofNat_pos, Ht |].
    rewrite Qmult_1_l. unfold ofNat. rewrite <- Zle_Qle. lia. }
  apply round_mono in Hq. change (Double.round 1) with 1%Q in Hq.
  change 100%Q with (Double.round 100) at 2.
  unfold Double.mul, Double.div. apply round_mono. lra.
Qed.

Lemma groupByAction_counts (entries : list History.t) :
  let approvals :=
    List.length
      (filter (fun h => action_eqb (History.action h) History.approved)
              entries) in
  let rejections :=
    List.length
      (filter (fun h => action_eqb (History.action h) History.rejected)
              entries) in
  fold_left (fun sum stat => sum + snd stat) (groupByAction entries) 0
  = approvals + rejections
  /\ countOf History.approved (groupByAction entries) = approvals
  /\ countOf History.rejected (groupByAction entries) = rejections.
Proof.
  unfold groupByAction. simpl.
  destruct (List.length
              (filter (fun h => action_eqb (History.action h)
                                  History.approved) entries));
    destruct (List.length
                (filter (fun h => action_eqb (History.action h)
                                    History.rejected) entries));
    simpl; repeat split; lia.
Qed.

Lemma decisions_split (entries : list History.t) :
  List.length
    (filter (fun h => action_eqb (History.action h) History.approved) entries)
  + List.length
      (filter (fun h => action_eqb (History.action h) History.rejected)
              entries)
  = List.length entries.
Proof.
  induction entries as [| h rest IH]; simpl; [reflexivity |].
  destruct (History.action h); simpl; lia.
Qed.

(** X12.  The approval statistics add up.  [totalApprovals] is the number
    of history entries of the user in the expenses of the company,
    [approvedCount] and [rejectedCount] are the approvals and the
    rejections among them and sum to the total, and [approvalRate] lies
    between 0 and 100 (0 when the user has decided nothing). *)
Theorem approvalStats_add_up
  (expenses : list Expense.t) (reqUser : User.t) :
  let stats := approvalStats expenses reqUser in
  let mine := myDecisions expenses reqUser in
  Stats.totalApprovals stats = List.length mine
  /\ Stats.approvedCount stats
     = List.length
         (filter (fun h => action_eqb (History.action h) History.approved)
                 mine)
  /\ Stats.rejectedCount stats
     = List.length
         (filter (fun h => action_eqb (History.action h) History.rejected)
                 mine)
  /\ Stats.totalApprovals stats
     = Stats.approvedCount stats + Stats.rejectedCount stats
  /\ (0 <= Stats.approvalRate stats)%Q
  /\ (Stats.approvalRate stats <= 100)%Q
  /\ (mine = [] -> Stats.approvalRate stats = 0%Q).
Proof.
  intros stats mine. unfold stats, approvalStats. fold mine.
  cbv beta iota zeta delta [Stats.totalApprovals Stats.approvedCount
                              Stats.rejectedCount Stats.approvalRate].
  destruct (groupByAction_counts mine) as [Ht [Ha Hr]].
  cbv zeta in Ht, Ha, Hr. rewrite Ht, Ha, Hr. clear Ht Ha Hr.
  pose proof (decisions_split mine) as Hsplit.
  set (approvals :=
         List.length
           (filter (fun h => action_eqb (History.action h) History.approved)
                   mine)) in *.
  set (rejections :=
         List.length
           (filter (fun h => action_eqb (History.action h) History.rejected)
                   mine)) in *.
  refine (conj Hsplit (conj eq_refl (conj eq_refl (conj eq_refl _)))).
  destruct (0 <? approvals + rejections) eqn:E.
  - apply Nat.ltb_lt in E.
    destruct (@ratio_bounds approvals (approvals + rejections)) as [H0 H100];
      [lia | exact E |].
    refine (conj H0 (conj H100 _)).
    intros Hnil. rewrite Hnil in Hsplit. simpl in Hsplit. lia.
  - refine (conj _ (conj _ (fun _ => eq_refl))); discriminate.
Qed.

(** ** The list of expenses *)

(** X13.  What GET /api/expenses lists.  An expense is listed for a user
    exactly when it is in the collection, belongs to the user's company
    and: for an employee, is the user's own; for a manager, is the expense
    of a user of the same company who is the manager or reports to them;
    for any other role, without further condition. *)
Theorem listExpenses_contents
  (users : list User.t) (expenses : list Expense.t) (reqUser : User.t)
  (e : Expense.t) :
  In e (listExpenses users expenses reqUser)
  <-> In e expenses
      /\ Expense.company e = User.company reqUser
      /\ (User.role reqUser = "employee" ->
          Expense.employee e = User._id reqUser)
      /\ (User.role reqUser = "manager" ->
          exists member,
            In member users
            /\ User._id member = Expense.employee e
            /\ User.company member = User.company reqUser
            /\ (User.manager member = Some (User._id reqUser)
                \/ User._id member = User._id reqUser)).
Proof.
  unfold listExpenses. rewrite filter_In, andb_true_iff, Nat.eqb_eq.
  assert (Hteam :
    existsb (Nat.eqb (Expense.employee e)) (teamMembers users reqUser) = true
    <-> exists member,
          In member users
          /\ User._id member = Expense.employee e
          /\ User.company member = User.company reqUser
          /\ (User.manager member = Some (User._id reqUser)
              \/ User._id member = User._id reqUser)).
  { unfold teamMembers. rewrite existsb_exists. split.
    - intros [id [Hin Heq]]. apply Nat.eqb_eq in Heq. subst id.
      apply in_map_iff in Hin. destruct Hin as [member [Hid Hin]].
      apply filter_In in Hin. destruct Hin as [Hin Hq].
      apply andb_true_iff in Hq. destruct Hq as [Hq Hc].
      apply Nat.eqb_eq in Hc. apply orb_true_iff in Hq.
      exists member. repeat split; trivial.
      destruct Hq as [Hq | Hq].
      + left. destruct (User.manager member) as [m |]; [| discriminate].
        apply Nat.eqb_eq in Hq. congruence.
      + right. apply Nat.eqb_eq, Hq.
    - intros [member [Hin [Hid [Hc Hq]]]].
      exists (User._id member). split; [| apply Nat.eqb_eq; auto].
      apply in_map, filter_In. split; [exact Hin |].
      apply andb_true_iff. split; [| apply Nat.eqb_eq, Hc].
      apply orb_true_iff. destruct Hq as [-> | Hq].
      + left. apply Nat.eqb_refl.
      + right. apply Nat.eqb_eq, Hq. }
  destruct (User.role reqUser =? "employee")%string eqn:Ee.
  - apply String.eqb_eq in Ee. rewrite Nat.eqb_eq. rewrite Ee.
    split.
    + intros [Hin [Hc Ho]]. repeat split; trivial. discriminate.
    + intros [Hin [Hc [Ho _]]]. auto.
  - apply String.eqb_neq in Ee.
    destruct (User.role reqUser =? "manager")%string eqn:Em.
    + apply String.eqb_eq in Em. rewrite Hteam.
      split.
      * intros [Hin [Hc Ht]]. repeat split; trivial. contradiction.
      * intros [Hin [Hc [_ Ht]]]. auto.
    + apply String.eqb_neq in Em.
      split.
      * intros [Hin [Hc _]]. repeat split; trivial; contradiction.
      * intros [Hin [Hc _]]. auto.
Qed.

(** ** More about the chain that creation builds *)

Lemma thresholdSteps_length (users : list User.t) (amount : Q)
  (user : User.t) (company : Company.t) :
  List.length (Chain.approvalFlow (thresholdSteps users amount user company))
  <= 3.
Proof.
  unfold thresholdSteps, directorStep, financeStep.
  assert (Hm : List.length (Chain.approvalFlow (managerStep users user)) <= 1).
  { unfold managerStep.
    destruct (User.manager user) as [m |]; [| simpl; lia].
    destruct (User.isManagerApprover user); [| simpl; lia].
    destruct (findById users m); simpl; lia. }
  destruct (Qle_bool _ amount); destruct (Qle_bool _ amount);
    repeat match goal with
           | |- context [find ?p users] => destruct (find p users)
           | |- context [differsFrom ?c ?i] => destruct (differsFrom c i)
           end;
    unfold pushNext; cbn [Chain.approvalFlow];
    rewrite ?length_app; cbn [List.length]; lia.
Qed.

(** X14.  The chain creation builds.  For a users collection with unique
    ids, [setupApprovalFlow] leaves a chain of at most three steps, all
    Pending, numbered 1, 2, ... in order, with pairwise distinct
    approvers; the current approver is the approver of the first step, and
    is null exactly when the chain is empty. *)
Theorem setupApprovalFlow_chain
  (users : list User.t) (expense : Expense.t) (user : User.t)
  (company : Company.t) :
  NoDup (map User._id users) ->
  let built := setupApprovalFlow users expense user company in
  let chain := Expense.approvalFlow built in
  List.length chain <= 3
  /\ Forall (fun step => Flow.status step = Flow.pending) chain
  /\ map Flow.order chain = seq 1 (List.length chain)
  /\ NoDup (approverIds chain)
  /\ Expense.currentApprover built
     = match chain with
       | [] => None
       | first :: _ => Some (User._id (Flow.approver first))
       end.
Proof.
  intros Hnd built chain.
  destruct (@setupApprovalFlow_fresh users expense user company Hnd)
    as [Hp [Hd Hc]].
  split; [| split; [exact Hp | split; [| split; [exact Hd | exact Hc]]]].
  - unfold chain, built, setupApprovalFlow, adminFallback. simpl.
    pose proof (thresholdSteps_length users (Expense.convertedAmount expense)
                  user company) as Hlen.
    destruct (Chain.approvalFlow (thresholdSteps _ _ _ _)) eqn:E; simpl.
    + destruct (find _ users); simpl; rewrite ?E; simpl; lia.
    + rewrite E. simpl in *. lia.
  - apply adminFallback_orders.
    apply directorStep_numbered, financeStep_numbered, managerStep_numbered.
Qed.

Lemma setupApprovalFlow_chain_witness :
  let built := setupApprovalFlow staff taxiClaimRaised carol acmeDefault in
  let chain := Expense.approvalFlow built in
  List.length chain <= 3
  /\ Forall (fun step => Flow.status step = Flow.pending) chain
  /\ map Flow.order chain = seq 1 (List.length chain)
  /\ NoDup (approverIds chain)
  /\ Expense.currentApprover built
     = match chain with
       | [] => None
       | first :: _ => Some (User._id (Flow.approver first))
       end.
Proof.
  apply (@setupApprovalFlow_chain staff taxiClaimRaised carol acmeDefault).
  exact staff_ids_unique.
Defined.

(** X15.  With an admin there is always an approver.  When the users
    collection holds a user of role admin in the company,
    [setupApprovalFlow] never leaves the chain empty nor the current
    approver null. *)
Theorem admin_guarantees_approver
  (users : list User.t) (expense : Expense.t) (user : User.t)
  (company : Company.t) (admin : User.t) :
  In admin users ->
  User.company admin = Company._id company ->
  User.role admin = "admin" ->
  exists first rest id,
    Expense.approvalFlow (setupApprovalFlow users expense user company)
    = first :: rest
    /\ Expense.currentApprover (setupApprovalFlow users expense user company)
       = Some id.
Proof.
  intros Hin Hc Hr.
  assert (Hq : adminQuery company admin = true).
  { unfold adminQuery. rewrite Hc, Hr, Nat.eqb_refl. reflexivity. }
  destruct (find (adminQuery company) users) as [found |] eqn:Hfind.
  2:{ rewrite (find_none _ _ Hfind admin Hin) in Hq. discriminate. }
  unfold setupApprovalFlow.
  set (c := thresholdSteps users (Expense.convertedAmount expense) user
              company).
  cbn [Expense.approvalFlow Expense.currentApprover
       Expense.set_currentApprover Expense.set_approvalFlow].
  assert (Hassigned : Chain.approvalFlow c <> [] ->
                      exists id, Chain.currentApprover c = Some id).
  { unfold c, thresholdSteps, directorStep, financeStep.
    assert (Hm : Chain.approvalFlow (managerStep users user) <> [] ->
                 exists id,
                   Chain.currentApprover (managerStep users user) = Some id).
    { unfold managerStep.
      destruct (User.manager user) as [m |]; [| simpl; congruence].
      destruct (User.isManagerApprover user); [| simpl; congruence].
      destruct (findById users m); simpl; [eauto | congruence]. }
    destruct (Qle_bool _ _); destruct (Qle_bool _ _);
      rewrite ?Hfind;
      repeat match goal with
             | |- context [find ?p users] => destruct (find p users)
             | |- context [differsFrom ?x ?i] => destruct (differsFrom x i)
             end;
      trivial; unfold pushNext; simpl; intros _;
      repeat match goal with
             | |- context [match ?x with Some _ => _ | None => _ end] =>
                 destruct x
             end; eauto. }
  unfold adminFallback.
  destruct (Chain.approvalFlow c) as [| first rest] eqn:E;
    cbn [List.length Nat.eqb].
  - rewrite Hfind. cbn [Chain.approvalFlow Chain.currentApprover app]. eauto.
  - rewrite E. destruct Hassigned as [id Hid]; [discriminate |]. eauto.
Qed.

Lemma admin_guarantees_approver_witness :
  exists first rest id,
    Expense.approvalFlow (setupApprovalFlow staff orphanClaim erin acmeDefault)
    = first :: rest
    /\ Expense.currentApprover
         (setupApprovalFlow staff orphanClaim erin acmeDefault)
       = Some id.
Proof.
  apply (@admin_guarantees_approver staff orphanClaim erin acmeDefault alice).
  - left. reflexivity.
  - reflexivity.
  - reflexivity.
Defined.

(** X16.  What the chain does not depend on.  [setupApprovalFlow] reads the
    company's id and its finance and director thresholds only: two
    companies that agree on these get the same chain, whatever their
    [managerApproval] threshold, their approval rules and their
    currency. *)
Theorem setupApprovalFlow_ignores_manager_threshold
  (users : list User.t) (expense : Expense.t) (user : User.t)
  (c c' : Company.t) :
  Company._id c = Company._id c' ->
  Thresholds.financeApproval (Settings.thresholds (Company.settings c))
  = Thresholds.financeApproval (Settings.thresholds (Company.settings c')) ->
  Thresholds.directorApproval (Settings.thresholds (Company.settings c))
  = Thresholds.directorApproval (Settings.thresholds (Company.settings c')) ->
  setupApprovalFlow users expense user c
  = setupApprovalFlow users expense user c'.
Proof.
  intros Hid Hf Hd.
  unfold setupApprovalFlow, adminFallback, thresholdSteps, directorStep,
    financeStep, adminQuery, financeQuery.
  simpl. rewrite Hid, Hf, Hd. reflexivity.
Qed.

Lemma setupApprovalFlow_ignores_manager_threshold_witness :
  setupApprovalFlow staff laptopClaim carol acmeCfo
  = setupApprovalFlow staff laptopClaim carol
      (Company.mk acme "EUR"
         (Settings.mk defaultRules (Thresholds.mk 1 5000 10000))).
Proof.
  apply (@setupApprovalFlow_ignores_manager_threshold staff laptopClaim carol
           acmeCfo
           (Company.mk acme "EUR"
              (Settings.mk defaultRules (Thresholds.mk 1 5000 10000))));
    reflexivity.
Defined.

(** ** The cache of currency rates *)

Lemma getCurrencyRates_entry (fetch : Fetch) (now arrival : Date)
  (baseCurrency : string) (cache cache' : RateCache.t) (rates : RateTable) :
  RateCache.getCurrencyRates fetch now arrival baseCurrency cache
  = (Some rates, cache') ->
  RateCache.currencyRates cache' baseCurrency = Some rates.
Proof.
  unfold RateCache.getCurrencyRates.
  destruct (RateCache.currencyRates cache baseCurrency) as [cached |] eqn:E;
    [destruct (RateCache.recent cache now) |];
    try (intros H; injection H as <- <-; exact E);
    (destruct (fetch baseCurrency); [| discriminate];
     intros H; injection H as <- <-; simpl;
     rewrite String.eqb_refl; reflexivity).
Qed.

Lemma call_keeps_entry (c : Call.t) (baseCurrency : string)
  (cache : RateCache.t) (rates : RateTable) :
  RateCache.currencyRates cache baseCurrency = Some rates ->
  negb (Call.baseCurrency c =? baseCurrency)%string
  || RateCache.recent cache (Call.now c) = true ->
  RateCache.currencyRates (snd (call c cache)) baseCurrency = Some rates.
Proof.
  intros Hentry Hok. unfold call, RateCache.getCurrencyRates.
  destruct (Call.baseCurrency c =? baseCurrency)%string eqn:Hbase.
  - apply String.eqb_eq in Hbase. rewrite Hbase, Hentry.
    simpl in Hok. rewrite Hok. exact Hentry.
  - assert (Hkept :
      RateCache.currencyRates
        (snd match Call.fetch c (Call.baseCurrency c) with
             | Some fetched =>
               (Some fetched,
                RateCache.store (Call.baseCurrency c) fetched
                  (Call.arrival c) cache)
             | None => (None, cache)
             end) baseCurrency = Some rates).
    { destruct (Call.fetch c (Call.baseCurrency c)); simpl; [| exact Hentry].
      rewrite String.eqb_sym, Hbase. exact Hentry. }
    destruct (RateCache.currencyRates cache (Call.baseCurrency c));
      [destruct (RateCache.recent cache (Call.now c)) |];
      trivial.
Qed.

Lemma after_keeps_entry (calls : list Call.t) (baseCurrency : string)
  (cache : RateCache.t) (rates : RateTable) :
  RateCache.currencyRates cache baseCurrency = Some rates ->
  inTime baseCurrency calls cache = true ->
  RateCache.currencyRates (after calls cache) baseCurrency = Some rates.
Proof.
  revert cache. induction calls as [| c rest IH]; intros cache Hentry Hin.
  - exact Hentry.
  - simpl in Hin. apply andb_true_iff in Hin. destruct Hin as [Hc Hrest].
    simpl. apply IH; [| exact Hrest].
    apply call_keeps_entry; assumption.
Qed.

(** X17.  A table served is served again while the cache is recent.  Let a
    call for a base currency return a table, and let any calls follow it
    one after the other, for this base or for others, those for this base
    all made while the cache was recent.  Then a call for the base made
    while the cache they left is recent - its time stamp not zero and less
    than [CACHE_DURATION] old - returns the same table and leaves the cache
    alone, whatever the service would answer, also when it is down. *)
Theorem cached_rates_are_reused
  (fetch fetch' : Fetch) (now arrival now' arrival' : Date)
  (baseCurrency : string) (cache cache' : RateCache.t) (rates : RateTable)
  (calls : list Call.t) :
  RateCache.getCurrencyRates fetch now arrival baseCurrency cache
  = (Some rates, cache') ->
  inTime baseCurrency calls cache' = true ->
  RateCache.recent (after calls cache') now' = true ->
  RateCache.getCurrencyRates fetch' now' arrival' baseCurrency
    (after calls cache')
  = (Some rates, after calls cache').
Proof.
  intros H Hcalls Hrecent.
  apply getCurrencyRates_entry in H.
  pose proof (@after_keeps_entry calls baseCurrency cache' rates H Hcalls)
    as Hentry.
  unfold RateCache.getCurrencyRates.
  rewrite Hentry, Hrecent. reflexivity.
Qed.

(** Dollar rates are fetched; a day later euro rates are, which renews the
    time stamp; after that the dollar rates of the day before are served
    while the service is down. *)
Lemma cached_rates_are_reused_witness :
  RateCache.getCurrencyRates down
    (submitted + RateCache.CACHE_DURATION + 1000)%Z
    (submitted + RateCache.CACHE_DURATION + 1500)%Z "USD"
    (after [Call.mk online (submitted + RateCache.CACHE_DURATION)%Z
              (submitted + RateCache.CACHE_DURATION + 500)%Z "EUR"]
       (RateCache.store "USD" dollarRates submitted RateCache.empty))
  = (Some dollarRates,
     after [Call.mk online (submitted + RateCache.CACHE_DURATION)%Z
              (submitted + RateCache.CACHE_DURATION + 500)%Z "EUR"]
       (RateCache.store "USD" dollarRates submitted RateCache.empty)).
Proof.
  apply (@cached_rates_are_reused online down
           (submitted - 500)%Z submitted
           (submitted + RateCache.CACHE_DURATION + 1000)%Z
           (submitted + RateCache.CACHE_DURATION + 1500)%Z "USD"
           RateCache.empty
           (RateCache.store "USD" dollarRates submitted RateCache.empty)
           dollarRates
           [Call.mk online (submitted + RateCache.CACHE_DURATION)%Z
              (submitted + RateCache.CACHE_DURATION + 500)%Z "EUR"]).
  - reflexivity.
  - reflexivity.
  - reflexivity.
Defined.

(** X18.  A failed call changes nothing and uses no old table.
    [getCurrencyRates] fails exactly when the service fails and the cache
    has no table for the base that is still recent; an older table of the
    cache is not fallen back on, and the cache stays as it was. *)
Theorem failed_rates_call
  (fetch : Fetch) (now arrival : Date) (baseCurrency : string)
  (cache : RateCache.t) :
  (fst (RateCache.getCurrencyRates fetch now arrival baseCurrency cache)
   = None
   <-> fetch baseCurrency = None
       /\ (RateCache.currencyRates cache baseCurrency = None
           \/ RateCache.recent cache now = false))
  /\ (fst (RateCache.getCurrencyRates fetch now arrival baseCurrency cache)
      = None ->
      snd (RateCache.getCurrencyRates fetch now arrival baseCurrency cache)
      = cache).
Proof.
  unfold RateCache.getCurrencyRates.
  destruct (RateCache.currencyRates cache baseCurrency) as [cached |];
    destruct (RateCache.recent cache now);
    destruct (fetch baseCurrency) as [rates |]; simpl;
    (split; [split |]); try discriminate; try tauto;
    try (intros [H _]; discriminate);
    try (intros [_ [H | H]]; discriminate).
Qed.

(** X19.  One time stamp for all bases.  [lastUpdated] is shared: after a
    table for one base has been fetched, the table the cache holds for
    another base is served again for the next 24 hours without a request,
    however long ago that table was stored. *)
Theorem fetch_refreshes_other_bases
  (fetch fetch' : Fetch) (now arrival now' arrival' : Date)
  (base other : string) (cache : RateCache.t) (rates old : RateTable) :
  other <> base ->
  RateCache.currencyRates cache other = Some old ->
  RateCache.recent cache now = false ->
  fetch base = Some rates ->
  arrival <> 0%Z ->
  (now' - arrival < RateCache.CACHE_DURATION)%Z ->
  let cache' :=
    snd (RateCache.getCurrencyRates fetch now arrival base cache) in
  RateCache.getCurrencyRates fetch' now' arrival' other cache'
  = (Some old, cache').
Proof.
  intros Hother Hold Hstale Hfetch Hnonzero Hrecent cache'.
  assert (Hcache' : cache' = RateCache.store base rates arrival cache).
  { unfold cache', RateCache.getCurrencyRates. rewrite Hstale, Hfetch.
    destruct (RateCache.currencyRates cache base); reflexivity. }
  rewrite Hcache'.
  unfold RateCache.getCurrencyRates, RateCache.recent. simpl.
  apply String.eqb_neq in Hother. rewrite Hother, Hold.
  apply Z.eqb_neq in Hnonzero. apply Z.ltb_lt in Hrecent.
  rewrite Hnonzero, Hrecent. reflexivity.
Qed.

Lemma fetch_refreshes_other_bases_witness :
  let cache' :=
    snd (RateCache.getCurrencyRates online
           (submitted + 10 * RateCache.CACHE_DURATION)%Z
           (submitted + 10 * RateCache.CACHE_DURATION + 1)%Z
           "EUR"
           (RateCache.store "USD" dollarRates submitted RateCache.empty)) in
  RateCache.getCurrencyRates down
    (submitted + 10 * RateCache.CACHE_DURATION + 2)%Z
    (submitted + 10 * RateCache.CACHE_DURATION + 3)%Z "USD" cache'
  = (Some dollarRates, cache').
Proof.
  apply (@fetch_refreshes_other_bases online down
           (submitted + 10 * RateCache.CACHE_DURATION)%Z
           (submitted + 10 * RateCache.CACHE_DURATION + 1)%Z
           (submitted + 10 * RateCache.CACHE_DURATION + 2)%Z
           (submitted + 10 * RateCache.CACHE_DURATION + 3)%Z
           "EUR" "USD"
           (RateCache.store "USD" dollarRates submitted RateCache.empty)
           euroRates dollarRates).
  - discriminate.
  - reflexivity.
  - reflexivity.
  - reflexivity.
  - discriminate.
  - reflexivity.
Defined.

(** ** What creation and update save *)

(** X21.  What a created expense looks like.  When POST /api/expenses
    saves an expense, the company was found, the expense is Pending with an
    empty history, it belongs to the requesting user and the company, its
    amount is the body's number as a double and is not negative, its
    converted amount is the conversion of the body's amount into the
    company's currency, its category is one of the seven, and its
    description is the body's, trimmed and not empty. *)
Theorem createExpense_postcondition
  (getCurrencyRates : RateService) (users : list User.t)
  (company : option Company.t) (reqUser : User.t) (body : CreateBody.t)
  (e : Expense.t) :
  createExpense getCurrencyRates users company reqUser body = Saved e ->
  exists c,
    company = Some c
    /\ Expense.status e = Expense.pending
    /\ Expense.approvalHistory e = []
    /\ Expense.employee e = User._id reqUser
    /\ Expense.company e = Company._id c
    /\ Expense.companyCurrency e = Company.currency c
    /\ Expense.originalCurrency e = CreateBody.originalCurrency body
    /\ Expense.amount e = Double.round (CreateBody.amount body)
    /\ (0 <= Expense.amount e)%Q
    /\ convertCurrency getCurrencyRates (CreateBody.amount body)
         (CreateBody.originalCurrency body) (Company.currency c)
       = Some (Expense.convertedAmount e)
    /\ In (Expense.category e) categories
    /\ Expense.description e = trim (CreateBody.description body)
    /\ Expense.description e <> ""
    /\ Expense.expenseDate e = CreateBody.expenseDate body.
Proof.
  unfold createExpense.
  destruct (createBodyValid body) eqn:Hvalid; simpl; [| discriminate].
  destruct company as [c |]; [| discriminate].
  destruct (convertCurrency _ _ _ _) as [convertedAmount |] eqn:Hconv;
    [| discriminate].
  unfold save.
  destruct (validates _) eqn:Hv; [| discriminate].
  intros H. injection H as <-.
  unfold validates in Hv. simpl in Hv.
  apply andb_true_iff in Hv. destruct Hv as [Hamount Hdesc].
  apply Qle_bool_iff in Hamount.
  apply negb_true_iff, String.eqb_neq in Hdesc.
  unfold createBodyValid in Hvalid.
  rewrite !andb_true_iff in Hvalid. destruct Hvalid as [[_ Hcat] _].
  unfold isIn in Hcat. apply existsb_exists in Hcat.
  destruct Hcat as [x [Hin Heq]]. apply String.eqb_eq in Heq. subst x.
  exists c. simpl.
  refine (conj eq_refl (conj eq_refl (conj eq_refl (conj eq_refl
            (conj eq_refl (conj eq_refl (conj eq_refl (conj eq_refl
              (conj Hamount (conj Hconv (conj Hin (conj eq_refl
                (conj Hdesc eq_refl))))))))))))).
Qed.

Lemma createExpense_postcondition_witness :
  exists c,
    Some acmeDefault = Some c
    /\ Expense.status laptopClaim = Expense.pending
    /\ Expense.approvalHistory laptopClaim = []
    /\ Expense.employee laptopClaim = User._id carol
    /\ Expense.company laptopClaim = Company._id c
    /\ Expense.companyCurrency laptopClaim = Company.currency c
    /\ Expense.originalCurrency laptopClaim
       = CreateBody.originalCurrency laptop
    /\ Expense.amount laptopClaim = Double.round (CreateBody.amount laptop)
    /\ (0 <= Expense.amount laptopClaim)%Q
    /\ convertCurrency offline (CreateBody.amount laptop)
         (CreateBody.originalCurrency laptop) (Company.currency c)
       = Some (Expense.convertedAmount laptopClaim)
    /\ In (Expense.category laptopClaim) categories
    /\ Expense.description laptopClaim = trim (CreateBody.description laptop)
    /\ Expense.description laptopClaim <> ""
    /\ Expense.expenseDate laptopClaim = CreateBody.expenseDate laptop.
Proof.
  apply (@createExpense_postcondition offline staff (Some acmeDefault) carol
           laptop laptopClaim).
  exact laptopClaim_created.
Defined.

(** X22.  What an update does to the amount.  In a saved update, a body
    amount that is a numeric string, or a number other than 0, becomes the
    expense's amount, as a double, and its converted amount becomes that
    amount converted from the expense's original currency into the
    currency of the company found for the request; with no amount, or the
    number 0, both stay as they were.  The saved amount is never negative,
    and [originalCurrency] and [companyCurrency] are not rewritten. *)
Theorem updateExpense_amount
  (getCurrencyRates : RateService) (expense : Expense.t)
  (company : option Company.t) (reqUser : User.t) (body : UpdateBody.t)
  (e' : Expense.t) :
  updateExpense getCurrencyRates (Some expense) company reqUser body
  = Saved e' ->
  match UpdateBody.amount body with
  | Some amount =>
    if Numeral.truthy amount
    then Expense.amount e' = Double.round (Numeral.written amount)
         /\ exists c,
             company = Some c
             /\ convertCurrency getCurrencyRates (Numeral.written amount)
                  (Expense.originalCurrency expense) (Company.currency c)
                = Some (Expense.convertedAmount e')
    else Expense.amount e' = Expense.amount expense
         /\ Expense.convertedAmount e' = Expense.convertedAmount expense
  | None =>
    Expense.amount e' = Expense.amount expense
    /\ Expense.convertedAmount e' = Expense.convertedAmount expense
  end
  /\ (0 <= Expense.amount e')%Q
  /\ Expense.originalCurrency e' = Expense.originalCurrency expense
  /\ Expense.companyCurrency e' = Expense.companyCurrency expense.
Proof.
  unfold updateExpense.
  destruct (_ || _); [discriminate |].
  destruct (_ && _); [discriminate |].
  destruct (negb _); [discriminate |].
  destruct (match UpdateBody.amount body with
            | Some _ => _
            | None => _
            end) as [amended |] eqn:Hamount; [| discriminate].
  unfold save.
  destruct (validates _) eqn:Hv; [| discriminate].
  intros H. injection H as <-.
  assert (Hnonneg :
    (0 <= Expense.amount amended)%Q).
  { unfold validates in Hv. apply andb_true_iff in Hv.
    destruct Hv as [Hv _]. apply Qle_bool_iff in Hv.
    destruct (truthy (UpdateBody.category body)),
      (truthy (UpdateBody.description body)),
      (UpdateBody.expenseDate body); exact Hv. }
  assert (Hkept : forall (P : Expense.t -> Prop),
    (forall x, P x ->
       P (Expense.set_category (orEmpty (UpdateBody.category body)) x)) ->
    (forall x, P x ->
       P (Expense.set_description
            (trim (orEmpty (UpdateBody.description body))) x)) ->
    (forall d x, P x -> P (Expense.set_expenseDate d x)) ->
    P amended ->
    P (match UpdateBody.expenseDate body with
       | Some d =>
         Expense.set_expenseDate d
           (if truthy (UpdateBody.description body)
            then Expense.set_description
                   (trim (orEmpty (UpdateBody.description body)))
                   (if truthy (UpdateBody.category body)
                    then Expense.set_category
                           (orEmpty (UpdateBody.category body)) amended
                    else amended)
            else if truthy (UpdateBody.category body)
                 then Expense.set_category
                        (orEmpty (UpdateBody.category body)) amended
                 else amended)
       | None =>
         if truthy (UpdateBody.description body)
         then Expense.set_description
                (trim (orEmpty (UpdateBody.description body)))
                (if truthy (UpdateBody.category body)
                 then Expense.set_category
                        (orEmpty (UpdateBody.category body)) amended
                 else amended)
         else if truthy (UpdateBody.category body)
              then Expense.set_category
                     (orEmpty (UpdateBody.category body)) amended
              else amended
       end)).
  { intros P Hc Hd Hdate Hp.
    destruct (UpdateBody.expenseDate body), (truthy (UpdateBody.description body)),
      (truthy (UpdateBody.category body)); auto. }
  apply (Hkept (fun x =>
    match UpdateBody.amount body with
    | Some amount =>
      if Numeral.truthy amount
      then Expense.amount x = Double.round (Numeral.written amount)
           /\ exists c,
               company = Some c
               /\ convertCurrency getCurrencyRates (Numeral.written amount)
                    (Expense.originalCurrency expense) (Company.currency c)
                  = Some (Expense.convertedAmount x)
      else Expense.amount x = Expense.amount expense
           /\ Expense.convertedAmount x = Expense.convertedAmount expense
    | None =>
      Expense.amount x = Expense.amount expense
      /\ Expense.convertedAmount x = Expense.convertedAmount expense
    end
    /\ (0 <= Expense.amount x)%Q
    /\ Expense.originalCurrency x = Expense.originalCurrency expense
    /\ Expense.companyCurrency x = Expense.companyCurrency expense));
    try (intros; assumption).
  destruct (UpdateBody.amount body) as [amount |].
  - destruct (Numeral.truthy amount); simpl in Hamount.
    + destruct company as [c |]; [| discriminate].
      destruct (convertCurrency _ _ _ _) as [converted |] eqn:Hconv;
        [| discriminate].
      injection Hamount as <-. simpl. eauto 10.
    + injection Hamount as <-. auto.
  - injection Hamount as <-. auto.
Qed.

Lemma updateExpense_amount_witness :
  (Expense.amount taxiClaimRaised = Double.round 20000
   /\ exists c,
       Some acmeDefault = Some c
       /\ convertCurrency offline 20000
            (Expense.originalCurrency taxiClaim) (Company.currency c)
          = Some (Expense.convertedAmount taxiClaimRaised))
  /\ (0 <= Expense.amount taxiClaimRaised)%Q
  /\ Expense.originalCurrency taxiClaimRaised
     = Expense.originalCurrency taxiClaim
  /\ Expense.companyCurrency taxiClaimRaised
     = Expense.companyCurrency taxiClaim.
Proof.
  apply (@updateExpense_amount offline taxiClaim (Some acmeDefault) carol
           (UpdateBody.mk (Some (Numeral.number 20000)) None None None)
           taxiClaimRaised).
  reflexivity.
Defined.

(** The string "0" is an amount, the number 0 is none. *)
Example update_with_zero :
  updateExpense offline (Some taxiClaim) (Some acmeDefault) carol
    (UpdateBody.mk (Some (Numeral.text 0)) None None None)
  = Saved (Expense.set_convertedAmount 0 (Expense.set_amount 0 taxiClaim))
  /\ updateExpense offline (Some taxiClaim) (Some acmeDefault) carol
       (UpdateBody.mk (Some (Numeral.number 0)) None None None)
     = Saved taxiClaim.
Proof. split; reflexivity. Qed.

(** ** User management *)

Lemma updateFirst_keeps {A : Type} (p : A -> bool) (f : A -> A)
  (l : list A) (a : A) :
  In a l -> p a = false -> In a (updateFirst p f l).
Proof.
  induction l as [| x rest IH]; simpl; [intros [] |].
  intros [<- | Hin] Hp.
  - rewrite Hp. left. reflexivity.
  - destruct (p x); [right; exact Hin | right; apply IH; trivial].
Qed.

Lemma updateFirst_image {A : Type} (p : A -> bool) (f : A -> A)
  (l : list A) (a : A) :
  In a l ->
  In a (updateFirst p f l) \/ (p a = true /\ In (f a) (updateFirst p f l)).
Proof.
  induction l as [| x rest IH]; simpl; [intros [] |].
  intros [<- | Hin].
  - destruct (p x) eqn:E; [right | left]; simpl; auto.
  - destruct (p x); [left; right; exact Hin |].
    destruct (IH Hin) as [H | [Hp H]]; [left | right]; simpl; auto.
Qed.

Lemma same_account (accounts : list Account.t) (a b : Account.t) :
  NoDup (map Account._id accounts) ->
  In a accounts -> In b accounts -> Account._id a = Account._id b -> a = b.
Proof.
  induction accounts as [| x rest IH]; simpl; [intros _ [] |].
  intros Hnd Ha Hb Heq.
  apply NoDup_cons_iff in Hnd. destruct Hnd as [Hnotin Hrest].
  destruct Ha as [<- | Ha], Hb as [<- | Hb]; trivial.
  - destruct Hnotin. rewrite Heq. apply in_map, Hb.
  - destruct Hnotin. rewrite <- Heq. apply in_map, Ha.
  - apply IH; trivial.
Qed.


(** An update of the requesting admin's own account leaves it admin. *)
Lemma applyUpdate_own_role (body : UserUpdate.t) (me : Account.t) :
  Account.role me = "admin" ->
  truthy (UserUpdate.role body)
  && negb (orEmpty (UserUpdate.role body) =? "admin")%string = false ->
  Account.role (applyUpdate body me) = "admin"
  /\ Account.company (applyUpdate body me) = Account.company me
  /\ Account._id (applyUpdate body me) = Account._id me.
Proof.
  intros Hrole Hguard. unfold applyUpdate, Account.role at 1. simpl.
  repeat split.
  destruct (truthy (UserUpdate.role body)); [| exact Hrole].
  simpl in Hguard. apply negb_false_iff, String.eqb_eq in Hguard.
  exact Hguard.
Qed.

(** X23.  Admins outlast user management.  Let the requesting user be an
    admin and a document of a users collection with unique ids.  After any
    create, update or delete of a user that goes through, the requesting
    user is still an admin of their company, and every company that had an
    admin still has one. *)
Theorem admins_outlast_user_management
  (isEmail : string -> bool) (activeByDefault : bool)
  (accounts accounts' : list Account.t) (reqUser : User.t)
  (r : UserRequest) (me : Account.t) :
  NoDup (map Account._id accounts) ->
  In me accounts ->
  Account.user me = reqUser ->
  User.role reqUser = "admin" ->
  manage isEmail activeByDefault accounts reqUser r = Users accounts' ->
  (exists me',
      In me' accounts'
      /\ Account._id me' = User._id reqUser
      /\ adminOf (User.company reqUser) me')
  /\ forall c,
      (exists a, In a accounts /\ adminOf c a) ->
      exists a, In a accounts' /\ adminOf c a.
Proof.
  intros Hnd Hme Huser Hrole H.
  assert (Hadmin : adminOf (User.company reqUser) me)
    by (subst reqUser; split; [exact Hrole | reflexivity]).
  assert (Hid : Account._id me = User._id reqUser)
    by (subst reqUser; reflexivity).
  destruct r as [newId body | userId body | userId]; simpl in H.
  - (* create *)
    unfold createUser in H.
    destruct (_ || _); [discriminate |].
    destruct (existsb _ accounts); [discriminate |].
    destruct (match NewUser.managerId body with
              | Some _ => _
              | None => _
              end); [discriminate |].
    injection H as <-. split.
    + exists me. rewrite in_app_iff. auto.
    + intros c [a [Ha Hc]]. exists a. rewrite in_app_iff. auto.
  - (* update *)
    unfold updateUser in H.
    destruct (_ || _); [discriminate |].
    destruct (find _ accounts) as [target |] eqn:Hfind; [| discriminate].
    destruct ((Account._id target =? User._id reqUser) && _ && _)
      eqn:Hguard; [discriminate |].
    destruct (match UserUpdate.managerId body with
              | Some _ => _
              | None => _
              end); [discriminate |].
    injection H as <-.
    apply find_some in Hfind. destruct Hfind as [Htarget Hq].
    apply andb_true_iff in Hq. destruct Hq as [Htid Htc].
    apply Nat.eqb_eq in Htid. apply Nat.eqb_eq in Htc.
    assert (Hmine :
      exists me',
        In me' (updateFirst (fun a => Account._id a =? userId)
                  (applyUpdate body) accounts)
        /\ Account._id me' = User._id reqUser
        /\ adminOf (User.company reqUser) me').
    { destruct (updateFirst_image (fun a => Account._id a =? userId)
                  (applyUpdate body) accounts me Hme)
        as [Hkept | [Hp Hchanged]].
      - exists me. auto.
      - apply Nat.eqb_eq in Hp.
        assert (target = me)
          by (apply (@same_account accounts); trivial; congruence).
        subst target. rewrite Hid, Nat.eqb_refl in Hguard.
        simpl in Hguard.
        destruct Hadmin as [Hr Hc].
        destruct (applyUpdate_own_role body me Hr Hguard)
          as [Hr' [Hc' Hid']].
        exists (applyUpdate body me).
        split; [exact Hchanged |]. split; [congruence |].
        split; congruence. }
    split; [exact Hmine |].
    intros c [a [Ha Hc]].
    destruct (Account._id a =? userId) eqn:Ea.
    + apply Nat.eqb_eq in Ea.
      assert (target = a)
        by (apply (@same_account accounts); trivial; congruence).
      subst target. destruct Hc as [_ Hc].
      destruct Hmine as [me' [Hin' [_ Hadmin']]].
      exists me'. split; [exact Hin' |]. congruence.
    + exists a. split; [| exact Hc]. apply updateFirst_keeps; trivial.
  - (* delete *)
    unfold deleteUser in H.
    destruct (userId =? User._id reqUser); [discriminate |].
    destruct (find _ accounts); [| discriminate].
    injection H as <-.
    assert (Hsame : forall a,
      In a accounts ->
      exists a',
        In a' (updateFirst
                 (fun x => (Account._id x =? userId)
                           && (Account.company x =? User.company reqUser))
                 deactivate accounts)
        /\ Account.user a' = Account.user a).
    { intros a Ha.
      destruct (updateFirst_image
                  (fun x => (Account._id x =? userId)
                            && (Account.company x =? User.company reqUser))
                  deactivate accounts a Ha) as [Hkept | [_ Hchanged]];
        eauto. }
    split.
    + destruct (Hsame me Hme) as [me' [Hin' Hu]].
      exists me'. split; [exact Hin' |].
      unfold adminOf, Account._id, Account.role, Account.company in *.
      rewrite Hu. auto.
    + intros c [a [Ha Hc]]. destruct (Hsame a Ha) as [a' [Hin' Hu]].
      exists a'. split; [exact Hin' |].
      unfold adminOf, Account.role, Account.company in *.
      rewrite Hu. exact Hc.
Qed.

Lemma office_ids_unique : NoDup (map Account._id office).
Proof. repeat constructor; simpl; intuition discriminate. Qed.

Lemma admins_outlast_user_management_witness :
  (exists me',
      In me' (written office (manage hasAt true office alice demoteBob))
      /\ Account._id me' = User._id alice
      /\ adminOf (User.company alice) me')
  /\ forall c,
      (exists a, In a office /\ adminOf c a) ->
      exists a,
        In a (written office (manage hasAt true office alice demoteBob))
        /\ adminOf c a.
Proof.
  apply (@admins_outlast_user_management hasAt true office
           (written office (manage hasAt true office alice demoteBob))
           alice demoteBob
           (Account.mk alice "Alice" "Ames" "alice@acme.example" true)).
  - exact office_ids_unique.
  - left. reflexivity.
  - reflexivity.
  - reflexivity.
  - reflexivity.
Defined.



(** X25.  User management stays inside the company.  In a users collection
    with unique ids, a create, update or delete that goes through leaves
    every account of another company than the requesting user's exactly as
    it was. *)
Theorem other_companies_untouched
  (isEmail : string -> bool) (activeByDefault : bool)
  (accounts accounts' : list Account.t) (reqUser : User.t)
  (r : UserRequest) (a : Account.t) :
  NoDup (map Account._id accounts) ->
  manage isEmail activeByDefault accounts reqUser r = Users accounts' ->
  In a accounts ->
  Account.company a <> User.company reqUser ->
  In a accounts'.
Proof.
  intros Hnd H Ha Hother.
  destruct r as [newId body | userId body | userId]; simpl in H.
  - unfold createUser in H.
    destruct (_ || _); [discriminate |].
    destruct (existsb _ accounts); [discriminate |].
    destruct (match NewUser.managerId body with
              | Some _ => _
              | None => _
              end); [discriminate |].
    injection H as <-. apply in_app_iff. auto.
  - unfold updateUser in H.
    destruct (_ || _); [discriminate |].
    destruct (find _ accounts) as [target |] eqn:Hfind; [| discriminate].
    destruct (_ && _); [discriminate |].
    destruct (match UserUpdate.managerId body with
              | Some _ => _
              | None => _
              end); [discriminate |].
    injection H as <-.
    apply find_some in Hfind. destruct Hfind as [Htarget Hq].
    apply andb_true_iff in Hq. destruct Hq as [Htid Htc].
    apply Nat.eqb_eq in Htid. apply Nat.eqb_eq in Htc.
    apply updateFirst_keeps; [exact Ha |].
    apply Nat.eqb_neq. intros Hid.
    assert (target = a)
      by (apply (@same_account accounts); trivial; congruence).
    subst target. contradiction.
  - unfold deleteUser in H.
    destruct (userId =? User._id reqUser); [discriminate |].
    destruct (find _ accounts); [| discriminate].
    injection H as <-.
    apply updateFirst_keeps; [exact Ha |].
    apply andb_false_iff. right. apply Nat.eqb_neq, Hother.
Qed.

Lemma other_companies_untouched_witness :
  In (Account.mk (User.mk 9 "admin" 8 None false) "Zoe" "Zane"
        "zoe@other.example" true)
     (written
        (Account.mk (User.mk 9 "admin" 8 None false) "Zoe" "Zane"
           "zoe@other.example" true :: office)
        (manage hasAt true
           (Account.mk (User.mk 9 "admin" 8 None false) "Zoe" "Zane"
              "zoe@other.example" true :: office)
           alice removeDave)).
Proof.
  apply (@other_companies_untouched hasAt true
           (Account.mk (User.mk 9 "admin" 8 None false) "Zoe" "Zane"
              "zoe@other.example" true :: office)
           (written
              (Account.mk (User.mk 9 "admin" 8 None false) "Zoe" "Zane"
                 "zoe@other.example" true :: office)
              (manage hasAt true
                 (Account.mk (User.mk 9 "admin" 8 None false) "Zoe" "Zane"
                    "zoe@other.example" true :: office)
                 alice removeDave))
           alice removeDave).
  - repeat constructor; simpl; intuition discriminate.
  - reflexivity.
  - left. reflexivity.
  - discriminate.
Defined.

(** ** Rules and approvals *)

Lemma ratio_more (a b t : nat) :
  a <= b -> 0 < t ->
  (Double.mul (Double.div (ofNat a) (ofNat t)) 100
   <= Double.mul (Double.div (ofNat b) (ofNat t)) 100)%Q.
Proof.
  intros Hab Ht. apply percent_mono.
  unfold Qdiv. apply Qmult_le_compat_r.
  - unfold ofNat. rewrite <- Zle_Qle. lia.
  - apply Qinv_le_0_compat, Qlt_le_weak, ofNat_pos, Ht.
Qed.

Lemma countApproved_app (l1 l2 : list Flow.t) :
  countApproved (l1 ++ l2) = countApproved l1 + countApproved l2.
Proof.
  induction l1 as [| x rest IH]; simpl; [reflexivity |].
  rewrite IH. destruct (Flow.status x); reflexivity.
Qed.

Lemma percentageOf_approve (before after : list Flow.t) (found : Flow.t)
  (c : string) (now : Date) :
  (percentageOf (before ++ found :: after)
   <= percentageOf (before ++ stamp Flow.approved c now found :: after))%Q.
Proof.
  rewrite !percentageOf_nonempty by (destruct before; discriminate).
  rewrite !length_app, !countApproved_app. simpl List.length.
  apply ratio_more; [| lia].
  simpl. destruct (Flow.status found); lia.
Qed.

Lemma approvedBy_approve (role : string) (before after : list Flow.t)
  (found : Flow.t) (c : string) (now : Date) :
  approvedBy role (before ++ found :: after) ->
  approvedBy role (before ++ stamp Flow.approved c now found :: after).
Proof.
  intros [step [Hin [Hs Hr]]]. apply in_app_iff in Hin.
  destruct Hin as [Hin | [<- | Hin]].
  - exists step. rewrite in_app_iff. auto.
  - exists (stamp Flow.approved c now found). rewrite in_app_iff.
    simpl. auto.
  - exists step. rewrite in_app_iff. simpl. auto.
Qed.

(** X26.  An approval never undoes the rules.  If an expense meets the
    company's completion rules, it still meets them after one more step
    has been stamped Approved by the approve handler: the approval
    percentage does not go down and no approved role is lost. *)
Theorem criteria_survive_approval
  (company : Company.t) (expense : Expense.t) (reqUser : User.t)
  (comments : string) (now : Date) (found : Flow.t) :
  find (pendingFor reqUser) (Expense.approvalFlow expense) = Some found ->
  checkApprovalCriteria expense company = true ->
  checkApprovalCriteria
    (record Flow.approved History.approved reqUser comments now expense)
    company = true
  /\ (getApprovalPercentage expense
      <= getApprovalPercentage
           (record Flow.approved History.approved reqUser comments now
              expense))%Q.
Proof.
  intros Hfind Hmet.
  destruct (updateFirst_split (pendingFor reqUser)
              (stamp Flow.approved comments now) _ Hfind)
    as [before [after [Hflow [_ [_ Hupd]]]]].
  assert (Hflow' :
    Expense.approvalFlow
      (record Flow.approved History.approved reqUser comments now expense)
    = (before ++ stamp Flow.approved comments now found :: after)%list)
    by exact Hupd.
  split.
  - apply checkApprovalCriteria_iff. apply checkApprovalCriteria_iff in Hmet.
    rewrite Hflow'. rewrite Hflow in Hmet.
    pose proof (percentageOf_approve before after found comments now) as Hp.
    destruct Hmet as [[He Hle] | [[He Hby] | [He [Hle | Hby]]]].
    + left. split; [exact He |]. eapply Qle_trans; eauto.
    + right. left. split; [exact He |]. apply approvedBy_approve, Hby.
    + right. right. split; [exact He |]. left. eapply Qle_trans; eauto.
    + right. right. split; [exact He |]. right.
      apply approvedBy_approve, Hby.
  - rewrite !getApprovalPercentage_spec, Hflow', Hflow.
    apply percentageOf_approve.
Qed.

Lemma criteria_survive_approval_witness :
  checkApprovalCriteria
    (record Flow.approved History.approved dave "" decided
       laptopClaimAdvanced)
    (Company.mk acme "USD"
       (Settings.mk
          (ApprovalRules.mk (PercentageRule.mk true 50)
             (SpecificApproverRule.mk false "CFO")
             (HybridRule.mk false 60 "CFO"))
          defaultThresholds)) = true
  /\ (getApprovalPercentage laptopClaimAdvanced
      <= getApprovalPercentage
           (record Flow.approved History.approved dave "" decided
              laptopClaimAdvanced))%Q.
Proof.
  apply (@criteria_survive_approval
           (Company.mk acme "USD"
              (Settings.mk
                 (ApprovalRules.mk (PercentageRule.mk true 50)
                    (SpecificApproverRule.mk false "CFO")
                    (HybridRule.mk false 60 "CFO"))
                 defaultThresholds))
           laptopClaimAdvanced dave "" decided
           (Flow.mk dave 2 Flow.pending None None)).
  - reflexivity.
  - reflexivity.
Defined.

(** X27.  A current approver without a pending step is a dead end.  When
    the current approver of an expense holds no pending step in its chain,
    every Approve and every Reject on it is answered with an error, from
    that user as from any other: the expense can no longer be decided. *)
Theorem dangling_approver_is_dead_end
  (e : Expense.t) (id : ObjectId) (company : Company.t) (a : Action) :
  Expense.currentApprover e = Some id ->
  pendingStepsOf id (Expense.approvalFlow e) = 0 ->
  exists f,
    perform company e a = Failed f
    /\ stored e (perform company e a) = e.
Proof.
  intros Hcur Hnone.
  assert (Hfail : exists f, perform company e a = Failed f).
  { assert (Hfind : User._id (actor a) = id ->
                    find (pendingFor (actor a)) (Expense.approvalFlow e)
                    = None).
    { intros <-. apply find_none_iff. intros y Hy.
      destruct (pendingFor (actor a) y) eqn:E; [| reflexivity].
      unfold pendingStepsOf in Hnone. apply length_zero_iff_nil in Hnone.
      assert (Hin : In y (filter
                            (fun step =>
                               (User._id (Flow.approver step)
                                =? User._id (actor a))
                               && isPending step)
                            (Expense.approvalFlow e)))
        by (apply filter_In; split; [exact Hy | exact E]).
      rewrite Hnone in Hin. destruct Hin. }
    destruct a as [reqUser comments now | reqUser comments now]; simpl in *;
      unfold approve, reject;
      [| destruct (orEmpty comments =? "")%string; [eauto |] ];
      rewrite Hcur;
      (destruct (id =? User._id reqUser) eqn:E; simpl; [| eauto];
       apply Nat.eqb_eq in E; rewrite Hfind by auto; eauto). }
  destruct Hfail as [f Hf]. exists f. rewrite Hf. auto.
Qed.

Lemma dangling_approver_is_dead_end_witness :
  exists f,
    perform acmeDefault taxiClaimStuck (Reject bob (Some "too late") decided)
    = Failed f
    /\ stored taxiClaimStuck
         (perform acmeDefault taxiClaimStuck
            (Reject bob (Some "too late") decided))
       = taxiClaimStuck.
Proof.
  apply (@dangling_approver_is_dead_end taxiClaimStuck 2 acmeDefault
           (Reject bob (Some "too late") decided)).
  - reflexivity.
  - reflexivity.
Defined.
